(** * TextBox trainer: training / validation / checkpoint orchestration

    A shallow embedding of [textbox/trainer/trainer.py] (class [Trainer]) and
    of the call sites in [textbox/quick_start/experiment.py], followed by the
    properties of the trainer that the design document states.

    Conventions of the embedding.
    - Python integers are [Z]; Python floats that are only stored or compared
      (losses, scores) are idealised as rationals [Q].
    - A Python attribute that may hold objects of different classes is an
      inductive type with one constructor per class ([pynum], [ResultStore]).
    - Methods of [Trainer] are computations in the state-and-exception monad
      [M]: they read and update the trainer object and may raise.  A raised
      exception keeps the state reached so far, as in Python.
    - Collaborators outside the trainer (model, optimizer arithmetic,
      generation, evaluator, the serialisation utility, the scoring rule of
      the tracker) are the fields of the class [Collaborators]. *)

From Stdlib Require Import ZArith QArith Lia Ascii.
From stdpp Require Import base gmap strings list pretty.

Close Scope Q_scope.
Open Scope Z_scope.

(** ** Python values *)

(** A Python number as the trainer stores it in [self.epochs]: an [int], or a
    [float] holding an integral value (the literal [1e10]). *)
Inductive pynum : Type :=
| PyInt (z : Z)
| PyFloat (z : Z).

(** The exceptions that the embedded code can raise. *)
Inductive exn : Type :=
| KeyError
| TypeError
| ZeroDivisionError
| IndexError
| OSError
| UnpicklingError.

(** Truth value of a Python integer: [bool(n)]. *)
Definition truthy (n : Z) : bool := negb (n =? 0).

(** [x or y] on an optional string: [None] and the empty string are falsy. *)
Definition py_or (x : option string) (y : string) : string :=
  match x with
  | Some EmptyString => y
  | Some s => s
  | None => y
  end.

(** ** Data model *)

Definition Loss := Q.
Definition Metrics := list (string * Q).
Definition Batch := Z.

(** A data loader: its batches and the reference texts of its data set
    ([eval_data.dataset.target_text]). *)
Record DataLoader : Type := {
  batches : list Batch;
  target_text : list string
}.

(** [len(loader)]. *)
Definition len (d : DataLoader) : Z := Z.of_nat (length (batches d)).

(** Truth value of an optional loader, as in [if valid_data:].  [None] is
    falsy, and so is a loader of length zero (it defines [__len__]). *)
Definition loader_truthy (d : option DataLoader) : bool :=
  match d with
  | None => false
  | Some d => negb (len d =? 0)
  end.

(** Modelled from the spec: the tracker's [Timestamp], the tuple
    [{train_step, train_epoch, valid_epoch}] of section 3. *)
Record Timestamp : Type := {
  train_step : Z;
  train_epoch : Z;
  valid_epoch : Z
}.

(** Modelled from the spec: the tracker's [EpochTracker] (the EpochSummary of
    section 3): the mode of the epoch, the losses folded into it and the
    optional metric results. *)
Record EpochTracker : Type := {
  et_mode : string;
  et_losses : list Loss;
  et_metrics : option Metrics
}.

(** Modelled from the spec: the state of the progress tracker
    ([textbox/utils/dashboard.py], not part of the sources at hand).
    [best_valid_score = None] stands for minus infinity. *)
Record SummaryTracker : Type := {
  axes : Timestamp;
  _current_mode : option string;
  _current_epoch : option EpochTracker;
  valid_step : Z;
  best_valid_score : option Q;
  tracker_best_valid_timestamp : Timestamp;
  is_best_valid : bool
}.

(** The configuration entries that the trainer reads. *)
Record Config : Type := {
  cfg_epochs : Z;
  cfg_max_steps : Z;
  cfg_accumulation_steps : Z;
  cfg_valid_steps : Z;
  cfg_valid_strategy : string;
  cfg_stopping_steps : Z;
  cfg_metrics_for_best_model : list string;
  cfg_max_save : option Z;
  cfg_filename : string;
  cfg_saved_dir : string;
  cfg_post_processing : string;
  cfg_grad_clip : option Q;
  cfg_model_name : string;
  cfg_optimizer : string;
  cfg_seed : Z
}.

Section DataModel.

(** The parameters of the model ([state_dict]) are opaque. *)
Context {Params : Type}.

(** The model object: its parameters, its train/eval flag and the gradient
    contributions accumulated by [backward] since the last [zero_grad]. *)
Record Model : Type := {
  state_dict : Params;
  training : bool;
  grads : list Loss
}.

(** The optimizer object: the number of [step()] calls it has applied. *)
Record Optimizer : Type := {
  opt_steps : Z
}.

(** The checkpoint dictionary built by [_get_checkpoint]. *)
Record Checkpoint : Type := {
  ck_state_dict : Params;
  ck_optimizer : Optimizer;
  ck_stopping_count : Z;
  ck_best_valid_score : option Q;
  ck_epoch : Z;
  ck_timestamp : Timestamp;
  ck_config : Config;
  ck_summary : EpochTracker
}.

(** What a path of the file system holds. *)
Inductive File : Type :=
| CheckpointFile (c : Checkpoint)
| TextFile (lines : list string)
| SoftLink (target : string).

(** The object handed to the serialisation utility. *)
Inductive SavedObject : Type :=
| SavedCheckpoint (c : option Checkpoint)
| SavedCorpus (corpus : list string).

(** The object bound to [self.valid_result_dict]: the dictionary from
    validation epochs to summaries that [__init__] creates, or a single
    summary, which is what [resume_checkpoint] binds to the attribute. *)
Inductive ResultStore : Type :=
| ResultDict (d : gmap Z EpochTracker)
| ResultSummary (e : EpochTracker).

Inductive Level : Type := DEBUG | INFO | WARNING | ERROR.

(** The records written to the logger, one constructor per message. *)
Inductive Message : Type :=
| MsgMaxSaveZero
| MsgStartTraining
| MsgEarlyStopped (count : Z)
| MsgStoppedAtMaxSteps (m : Z)
| MsgSoftLinkCreated (file target : string)
| MsgFinishedTraining (best_train_epoch : Z)
| MsgBestValidResult (e : EpochTracker)
| MsgGetCheckpointFailed
| MsgCheckpoint (c : Checkpoint)
| MsgResuming (file : string)
| MsgResumeNotFound (file : string)
| MsgArchitectureDiffers
| MsgOptimizerDiffers
| MsgCheckpointLoaded (start : Z)
| MsgEvaluateNotFound (file : string)
| MsgLoadingModel (file : string).

(** The trainer object, together with the parts of the world it acts on
    (the file system and the logger). *)
Record Trainer : Type := {
  config : Config;
  epochs : pynum;
  max_save : Z;
  start_epoch : Z;
  _valid_count : Z;
  train_loss_list : list Loss;
  valid_result_dict : ResultStore;
  stopped : bool;
  stopping_count : Z;
  _summary_tracker : SummaryTracker;
  model : Model;
  optimizer : Optimizer;
  is_local_main_process : bool;
  fs : gmap string File;
  logger : list (Level * Message)
}.

End DataModel.

Arguments Model : clear implicits.
Arguments Optimizer : clear implicits.
Arguments Checkpoint : clear implicits.
Arguments File : clear implicits.
Arguments SavedObject : clear implicits.
Arguments Message : clear implicits.
Arguments Trainer : clear implicits.

(** ** Collaborators *)

(** The interfaces the trainer consumes.  Each field stands for code outside
    the trainer; the development holds for every implementation of them.
    - [model_forward]: [self.model(data, epoch_idx=...)], the loss of a batch;
    - [clip_grad_norm], [optimizer_update]: what gradient clipping and
      [optimizer.step()] do to the gradients and to the parameters;
    - [generate_corpus]: the generation loop of [evaluate] over the batches
      of a loader (the single-pass strategy or the staged one);
    - [evaluator_evaluate]: [self.evaluator.evaluate(corpus, dataset)];
    - [serialized_save]: the utility of [textbox/utils] that writes an object
      under a path, rotates old files and maintains the best pointer;
    - [calc_score]: the tracker's score of a finished validation epoch. *)
Class Collaborators (Params : Type) : Type := {
  model_forward : Params -> Batch -> option Z -> Loss;
  clip_grad_norm : Q -> list Loss -> list Loss;
  optimizer_update : Params -> list Loss -> Params;
  generate_corpus : Params -> DataLoader -> list string;
  evaluator_evaluate : list string -> DataLoader -> Metrics;
  serialized_save :
    SavedObject Params -> option Z -> option Z -> string -> option string ->
    string -> option Z -> gmap string (File Params) -> gmap string (File Params);
  calc_score : EpochTracker -> Q
}.

(** ** The state-and-exception monad of the methods *)

Section Monad.

Context {Params : Type}.

Inductive res (A : Type) : Type :=
| Ok (a : A) (t : Trainer Params)
| Raise (e : exn) (t : Trainer Params).

Definition M (A : Type) : Type := Trainer Params -> res A.

Definition ret {A} (a : A) : M A := fun t => Ok A a t.

Definition bind {A B} (m : M A) (k : A -> M B) : M B :=
  fun t =>
    match m t with
    | Ok _ a t' => k a t'
    | Raise _ e t' => Raise B e t'
    end.

Definition raise {A} (e : exn) : M A := fun t => Raise A e t.

Definition get : M (Trainer Params) := fun t => Ok _ t t.

Definition modify (f : Trainer Params -> Trainer Params) : M unit :=
  fun t => Ok _ tt (f t).

(** The state in which a computation ends, whether it returns or raises. *)
Definition final_state {A} (r : res A) : Trainer Params :=
  match r with
  | Ok _ _ t => t
  | Raise _ _ t => t
  end.

End Monad.

Arguments Ok {Params A} a t.
Arguments Raise {Params A} e t.

Declare Scope monad_scope.
Delimit Scope monad_scope with monad.
Notation "x <~ m ;; k" := (bind m (fun x => k))
  (at level 100, m at next level, right associativity) : monad_scope.
Notation "m ;;; k" := (bind m (fun _ => k))
  (at level 100, right associativity) : monad_scope.
Open Scope monad_scope.

(** ** Field updates of the trainer object *)

Section Setters.

Context {Params : Type}.
Local Abbreviation Trainer := (Trainer Params).

Definition set_start_epoch (v : Z) (t : Trainer) : Trainer :=
  {| config := config t; epochs := epochs t; max_save := max_save t;
     start_epoch := v; _valid_count := _valid_count t;
     train_loss_list := train_loss_list t;
     valid_result_dict := valid_result_dict t; stopped := stopped t;
     stopping_count := stopping_count t;
     _summary_tracker := _summary_tracker t; model := model t;
     optimizer := optimizer t;
     is_local_main_process := is_local_main_process t; fs := fs t;
     logger := logger t |}.

Definition set__valid_count (v : Z) (t : Trainer) : Trainer :=
  {| config := config t; epochs := epochs t; max_save := max_save t;
     start_epoch := start_epoch t; _valid_count := v;
     train_loss_list := train_loss_list t;
     valid_result_dict := valid_result_dict t; stopped := stopped t;
     stopping_count := stopping_count t;
     _summary_tracker := _summary_tracker t; model := model t;
     optimizer := optimizer t;
     is_local_main_process := is_local_main_process t; fs := fs t;
     logger := logger t |}.

Definition set_train_loss_list (v : list Loss) (t : Trainer) : Trainer :=
  {| config := config t; epochs := epochs t; max_save := max_save t;
     start_epoch := start_epoch t; _valid_count := _valid_count t;
     train_loss_list := v;
     valid_result_dict := valid_result_dict t; stopped := stopped t;
     stopping_count := stopping_count t;
     _summary_tracker := _summary_tracker t; model := model t;
     optimizer := optimizer t;
     is_local_main_process := is_local_main_process t; fs := fs t;
     logger := logger t |}.

Definition set_valid_result_dict (v : ResultStore) (t : Trainer) : Trainer :=
  {| config := config t; epochs := epochs t; max_save := max_save t;
     start_epoch := start_epoch t; _valid_count := _valid_count t;
     train_loss_list := train_loss_list t;
     valid_result_dict := v; stopped := stopped t;
     stopping_count := stopping_count t;
     _summary_tracker := _summary_tracker t; model := model t;
     optimizer := optimizer t;
     is_local_main_process := is_local_main_process t; fs := fs t;
     logger := logger t |}.

Definition set_stopped (v : bool) (t : Trainer) : Trainer :=
  {| config := config t; epochs := epochs t; max_save := max_save t;
     start_epoch := start_epoch t; _valid_count := _valid_count t;
     train_loss_list := train_loss_list t;
     valid_result_dict := valid_result_dict t; stopped := v;
     stopping_count := stopping_count t;
     _summary_tracker := _summary_tracker t; model := model t;
     optimizer := optimizer t;
     is_local_main_process := is_local_main_process t; fs := fs t;
     logger := logger t |}.

Definition set_stopping_count (v : Z) (t : Trainer) : Trainer :=
  {| config := config t; epochs := epochs t; max_save := max_save t;
     start_epoch := start_epoch t; _valid_count := _valid_count t;
     train_loss_list := train_loss_list t;
     valid_result_dict := valid_result_dict t; stopped := stopped t;
     stopping_count := v;
     _summary_tracker := _summary_tracker t; model := model t;
     optimizer := optimizer t;
     is_local_main_process := is_local_main_process t; fs := fs t;
     logger := logger t |}.

Definition set__summary_tracker (v : SummaryTracker) (t : Trainer) : Trainer :=
  {| config := config t; epochs := epochs t; max_save := max_save t;
     start_epoch := start_epoch t; _valid_count := _valid_count t;
     train_loss_list := train_loss_list t;
     valid_result_dict := valid_result_dict t; stopped := stopped t;
     stopping_count := stopping_count t;
     _summary_tracker := v; model := model t;
     optimizer := optimizer t;
     is_local_main_process := is_local_main_process t; fs := fs t;
     logger := logger t |}.

Definition set_model (v : Model Params) (t : Trainer) : Trainer :=
  {| config := config t; epochs := epochs t; max_save := max_save t;
     start_epoch := start_epoch t; _valid_count := _valid_count t;
     train_loss_list := train_loss_list t;
     valid_result_dict := valid_result_dict t; stopped := stopped t;
     stopping_count := stopping_count t;
     _summary_tracker := _summary_tracker t; model := v;
     optimizer := optimizer t;
     is_local_main_process := is_local_main_process t; fs := fs t;
     logger := logger t |}.

Definition set_optimizer (v : Optimizer) (t : Trainer) : Trainer :=
  {| config := config t; epochs := epochs t; max_save := max_save t;
     start_epoch := start_epoch t; _valid_count := _valid_count t;
     train_loss_list := train_loss_list t;
     valid_result_dict := valid_result_dict t; stopped := stopped t;
     stopping_count := stopping_count t;
     _summary_tracker := _summary_tracker t; model := model t;
     optimizer := v;
     is_local_main_process := is_local_main_process t; fs := fs t;
     logger := logger t |}.

Definition set_fs (v : gmap string (File Params)) (t : Trainer) : Trainer :=
  {| config := config t; epochs := epochs t; max_save := max_save t;
     start_epoch := start_epoch t; _valid_count := _valid_count t;
     train_loss_list := train_loss_list t;
     valid_result_dict := valid_result_dict t; stopped := stopped t;
     stopping_count := stopping_count t;
     _summary_tracker := _summary_tracker t; model := model t;
     optimizer := optimizer t;
     is_local_main_process := is_local_main_process t; fs := v;
     logger := logger t |}.

Definition set_logger (v : list (Level * Message Params)) (t : Trainer)
  : Trainer :=
  {| config := config t; epochs := epochs t; max_save := max_save t;
     start_epoch := start_epoch t; _valid_count := _valid_count t;
     train_loss_list := train_loss_list t;
     valid_result_dict := valid_result_dict t; stopped := stopped t;
     stopping_count := stopping_count t;
     _summary_tracker := _summary_tracker t; model := model t;
     optimizer := optimizer t;
     is_local_main_process := is_local_main_process t; fs := fs t;
     logger := v |}.

(** [self.logger.<level>(msg)]: the record is appended to the log. *)
Definition log (l : Level) (m : Message Params) : M unit :=
  modify (fun t => set_logger (logger t ++ [(l, m)]) t).

(** The attributes that [__init__] copies from the configuration. *)
Definition accumulation_steps (t : Trainer) : Z :=
  cfg_accumulation_steps (config t).
Definition max_steps (t : Trainer) : Z := cfg_max_steps (config t).
Definition valid_steps (t : Trainer) : Z := cfg_valid_steps (config t).
Definition valid_strategy (t : Trainer) : string :=
  cfg_valid_strategy (config t).
Definition stopping_steps (t : Trainer) : Z :=
  cfg_stopping_steps (config t).
Definition metrics_for_best_model (t : Trainer) : list string :=
  cfg_metrics_for_best_model (config t).
Definition post_processing (t : Trainer) : string :=
  cfg_post_processing (config t).

(** [self.grad_clip]: the configured value, which [_build_optimizer] turns
    into [None] for the Adafactor optimizer. *)
Definition grad_clip (t : Trainer) : option Q :=
  if String.eqb (cfg_optimizer (config t)) "adafactor" then None
  else cfg_grad_clip (config t).

(** [os.path.join] on two components. *)
Definition path_join (a b : string) : string :=
  match b with
  | String "/"%char _ => b
  | _ => match a with
         | EmptyString => b
         | _ => a +:+ "/" +:+ b
         end
  end.

(** [self.saved_model_filename], which is also [self.saved_text_filename]. *)
Definition saved_model_filename (t : Trainer) : string :=
  path_join (path_join (cfg_saved_dir (config t)) (cfg_filename (config t)))
            (cfg_filename (config t)).

(** [self.timestamp] *)
Definition timestamp (t : Trainer) : Timestamp := axes (_summary_tracker t).

(** [self.best_valid_timestamp] *)
Definition best_valid_timestamp (t : Trainer) : Timestamp :=
  tracker_best_valid_timestamp (_summary_tracker t).

(** [self.is_save()] *)
Definition is_save (t : Trainer) : bool := is_local_main_process t.

End Setters.

(** ** Python string methods used by the post-processing

    Strings are sequences of one-byte characters (code points below 256). *)

(** [s.startswith(p)] *)
Fixpoint str_startswith (p s : string) : bool :=
  match p, s with
  | EmptyString, _ => true
  | String _ _, EmptyString => false
  | String a p', String b s' => if Ascii.eqb a b then str_startswith p' s' else false
  end.

(** [s[n:]] for a natural number [n] *)
Fixpoint str_skip (n : nat) (s : string) : string :=
  match n, s with
  | O, _ => s
  | S _, EmptyString => EmptyString
  | S n', String _ s' => str_skip n' s'
  end.

(** [s[:n]] for a natural number [n] *)
Fixpoint str_take (n : nat) (s : string) : string :=
  match n, s with
  | O, _ => EmptyString
  | S _, EmptyString => EmptyString
  | S n', String c s' => String c (str_take n' s')
  end.

(** Position of the first occurrence of [sub] in [s]. *)
Fixpoint find_first (sub s : string) : option nat :=
  if str_startswith sub s then Some O
  else match s with
       | EmptyString => None
       | String _ s' => S <$> find_first sub s'
       end.

(** Position of the last occurrence of [sub] in [s]. *)
Fixpoint find_last (sub s : string) : option nat :=
  match s with
  | EmptyString => if str_startswith sub EmptyString then Some O else None
  | String _ s' =>
      match find_last sub s' with
      | Some i => Some (S i)
      | None => if str_startswith sub s then Some O else None
      end
  end.

Definition index_or_minus_one (o : option nat) : Z :=
  match o with
  | Some i => Z.of_nat i
  | None => -1
  end.

Definition str_len (s : string) : Z := Z.of_nat (String.length s).

(** [s.find(sub)] *)
Definition str_find (sub s : string) : Z :=
  index_or_minus_one (find_first sub s).

(** [s.rfind(sub)] *)
Definition str_rfind (sub s : string) : Z :=
  index_or_minus_one (find_last sub s).

(** A slice bound as Python normalises it: a negative bound counts from the
    end, and the result is clipped to [0 .. len(s)]. *)
Definition slice_bound (i : Z) (s : string) : Z :=
  let i' := if i <? 0 then i + str_len s else i in
  Z.max 0 (Z.min i' (str_len s)).

(** [s.find(sub, start)]: the search starts at the normalised [start]; a
    [start] beyond the end finds nothing. *)
Definition str_find_from (sub s : string) (start : Z) : Z :=
  if str_len s <? start then -1
  else
    let b := slice_bound start s in
    match find_first sub (str_skip (Z.to_nat b) s) with
    | Some i => b + Z.of_nat i
    | None => -1
    end.

(** [s[i:]] *)
Definition str_slice_from (i : Z) (s : string) : string :=
  str_skip (Z.to_nat (slice_bound i s)) s.

(** [c.isspace()] for a one-byte character. *)
Definition is_space (c : ascii) : bool :=
  let n := N_of_ascii c in
  (((9 <=? n) && (n <=? 13)) || ((28 <=? n) && (n <=? 32))
   || (n =? 133) || (n =? 160))%N.

(** [s.lstrip()], [s.rstrip()], [s.strip()] *)
Fixpoint str_lstrip (s : string) : string :=
  match s with
  | EmptyString => EmptyString
  | String c s' => if is_space c then str_lstrip s' else s
  end.

Fixpoint str_rstrip (s : string) : string :=
  match s with
  | EmptyString => EmptyString
  | String c s' =>
      match str_rstrip s' with
      | EmptyString => if is_space c then EmptyString else String c EmptyString
      | r => String c r
      end
  end.

Definition str_strip (s : string) : string := str_rstrip (str_lstrip s).

(** The text before the first occurrence of [sep] and the text after it. *)
Fixpoint str_partition (sep s : string) : option (string * string) :=
  if str_startswith sep s then
    Some (EmptyString, str_skip (String.length sep) s)
  else match s with
       | EmptyString => None
       | String c s' =>
           match str_partition sep s' with
           | Some (a, b) => Some (String c a, b)
           | None => None
           end
       end.

(** [s.split(sep)] for a non-empty [sep].  Every cut leaves a strictly
    shorter remainder, so [length s] rounds always suffice. *)
Fixpoint str_split_rounds (n : nat) (sep s : string) : list string :=
  match n with
  | O => [s]
  | S n' =>
      match str_partition sep s with
      | Some (a, b) => a :: str_split_rounds n' sep b
      | None => [s]
      end
  end.

Definition str_split (sep s : string) : list string :=
  str_split_rounds (String.length s) sep s.

(** The ["paraphrase"] post-processing of one generated string, the body of
    the loop at the end of [evaluate].  [None] stands for the [IndexError]
    of [split(...)[1]]. *)
Definition paraphrase (gen : string) : option string :=
  if 0 <=? str_find "[SEP]" gen then
    str_strip <$> (str_split "[SEP]" gen !! 1%nat)
  else
    let last := Z.max (str_rfind "(" gen) (str_rfind ")" gen) in
    let last := str_find_from " " gen last in
    Some (str_strip (str_slice_from last gen)).

(** The design document's words for the first case: the text after the
    first ["[SEP]"], stripped. *)
Definition text_after_first_sep (gen : string) : option string :=
  match str_partition "[SEP]" gen with
  | Some (_, after) => Some (str_strip after)
  | None => None
  end.

(** The design document's words for the second case: the text after the
    last parenthesis. *)
Definition text_after_last_paren (gen : string) : string :=
  let last := Z.max (str_rfind "(" gen) (str_rfind ")" gen) in
  str_skip (Z.to_nat (last + 1)) gen.

(** ** The stopping streak

    The glossary's stopping streak of a history of validation outcomes, in
    chronological order ([true] for a best validation): the number of
    consecutive non-best validations since the last best one. *)

Fixpoint leading_non_best (l : list bool) : Z :=
  match l with
  | false :: l' => 1 + leading_non_best l'
  | _ => 0
  end.

Definition streak (history : list bool) : Z :=
  leading_non_best (rev history).

(** ** The progress tracker *)

Section Tracker.

Definition set_axes (a : Timestamp) (s : SummaryTracker) : SummaryTracker :=
  {| axes := a; _current_mode := _current_mode s;
     _current_epoch := _current_epoch s; valid_step := valid_step s;
     best_valid_score := best_valid_score s;
     tracker_best_valid_timestamp := tracker_best_valid_timestamp s;
     is_best_valid := is_best_valid s |}.

Definition set_current (m : option string) (e : option EpochTracker)
    (s : SummaryTracker) : SummaryTracker :=
  {| axes := axes s; _current_mode := m; _current_epoch := e;
     valid_step := valid_step s;
     best_valid_score := best_valid_score s;
     tracker_best_valid_timestamp := tracker_best_valid_timestamp s;
     is_best_valid := is_best_valid s |}.

Definition set_best_valid_score (v : option Q) (s : SummaryTracker)
  : SummaryTracker :=
  {| axes := axes s; _current_mode := _current_mode s;
     _current_epoch := _current_epoch s; valid_step := valid_step s;
     best_valid_score := v;
     tracker_best_valid_timestamp := tracker_best_valid_timestamp s;
     is_best_valid := is_best_valid s |}.

(** Modelled from the spec: entering [new_epoch(mode)] opens a fresh
    accumulation context for the mode and advances the epoch axis of that
    mode.  The trainer stores a validation summary under
    [timestamp.valid_epoch] inside the scope and reads it back under the
    same key after the scope has closed, so the axis moves when the scope
    opens and stays put when it closes. *)
Definition epoch_start (mode : string) (s : SummaryTracker) : SummaryTracker :=
  let a := axes s in
  let a' :=
    if String.eqb mode "train" then
      {| train_step := train_step a; train_epoch := train_epoch a + 1;
         valid_epoch := valid_epoch a |}
    else if String.eqb mode "valid" then
      {| train_step := train_step a; train_epoch := train_epoch a;
         valid_epoch := valid_epoch a + 1 |}
    else a in
  {| axes := a'; _current_mode := Some mode;
     _current_epoch :=
       Some {| et_mode := mode; et_losses := []; et_metrics := None |};
     valid_step := valid_step s;
     best_valid_score := best_valid_score s;
     tracker_best_valid_timestamp := tracker_best_valid_timestamp s;
     is_best_valid := is_best_valid s |}.

(** Modelled from the spec: leaving the scope finalises the epoch.  For a
    validation epoch the tracker records whether its score beats the best
    so far and, if so, the new best score and its timestamp. *)
Definition epoch_end (score : EpochTracker -> Q) (s : SummaryTracker)
  : SummaryTracker :=
  match _current_mode s, _current_epoch s with
  | Some mode, Some e =>
      if String.eqb mode "valid" then
        let better :=
          match best_valid_score s with
          | None => true
          | Some b => negb (Qle_bool (score e) b)
          end in
        {| axes := axes s; _current_mode := _current_mode s;
           _current_epoch := _current_epoch s; valid_step := valid_step s;
           best_valid_score :=
             if better then Some (score e) else best_valid_score s;
           tracker_best_valid_timestamp :=
             if better then axes s else tracker_best_valid_timestamp s;
           is_best_valid := better |}
      else s
  | _, _ => s
  end.

(** Modelled from the spec: [new_step()] advances [train_step] in train
    mode and the validation step counter in valid mode. *)
Definition tracker_new_step (s : SummaryTracker) : SummaryTracker :=
  match _current_mode s with
  | Some mode =>
      if String.eqb mode "train" then
        set_axes {| train_step := train_step (axes s) + 1;
                    train_epoch := train_epoch (axes s);
                    valid_epoch := valid_epoch (axes s) |} s
      else if String.eqb mode "valid" then
        {| axes := axes s; _current_mode := _current_mode s;
           _current_epoch := _current_epoch s;
           valid_step := valid_step s + 1;
           best_valid_score := best_valid_score s;
           tracker_best_valid_timestamp := tracker_best_valid_timestamp s;
           is_best_valid := is_best_valid s |}
      else s
  | None => s
  end.

(** Modelled from the spec: [append_loss(value)] folds a loss into the
    current epoch. *)
Definition tracker_append_loss (v : Loss) (s : SummaryTracker)
  : SummaryTracker :=
  match _current_epoch s with
  | Some e =>
      set_current (_current_mode s)
        (Some {| et_mode := et_mode e; et_losses := et_losses e ++ [v];
                 et_metrics := et_metrics e |}) s
  | None => s
  end.

(** Modelled from the spec: [set_metrics_results(dict)]. *)
Definition tracker_set_metrics_results (r : option Metrics)
    (s : SummaryTracker) : SummaryTracker :=
  match _current_epoch s with
  | Some e =>
      set_current (_current_mode s)
        (Some {| et_mode := et_mode e; et_losses := et_losses e;
                 et_metrics := r |}) s
  | None => s
  end.

Definition Qsum (l : list Q) : Q := foldr Qplus (0#1)%Q l.

(** Modelled from the spec: the running average of an epoch, and the
    summary dictionary of an epoch ([epoch_dict()], [as_dict()]). *)
Definition epoch_loss (e : EpochTracker) : Q :=
  Qdiv (Qsum (et_losses e)) (inject_Z (Z.of_nat (length (et_losses e)))).

Definition as_dict (e : EpochTracker) : Metrics :=
  ("loss", epoch_loss e) :: default [] (et_metrics e).

Definition tracker_epoch_dict (s : SummaryTracker) : Metrics :=
  match _current_epoch s with
  | Some e => as_dict e
  | None => []
  end.

End Tracker.

(** ** The methods of [Trainer] *)

Section Methods.

Context {Params : Type} {W : Collaborators Params}.
Local Abbreviation Trainer := (Trainer Params).
Local Abbreviation M := (@M Params).

(** [Trainer.__init__]: the attributes derived from the configuration.
    The model, the tracker obtained from [get_dashboard()], the role of the
    process and the file system are given. *)
Definition __init__ (c : Config) (m : Model Params) (tracker : SummaryTracker)
    (main : bool) (files : gmap string (File Params)) : Trainer :=
  let max_save0 := default 2 (cfg_max_save c) in
  {| config := c;
     epochs := if negb (truthy (cfg_max_steps c)) then PyInt (cfg_epochs c)
               else PyFloat 10000000000;
     max_save := if max_save0 =? 0 then 1 else max_save0;
     start_epoch := 0;
     _valid_count := 0;
     train_loss_list := [];
     valid_result_dict := ResultDict ∅;
     stopped := false;
     stopping_count := 0;
     _summary_tracker := tracker;
     model := m;
     optimizer := {| opt_steps := 0 |};
     is_local_main_process := main;
     fs := files;
     logger := if max_save0 =? 0 then [(WARNING, MsgMaxSaveZero)]
               else [] |}.

(** *** Python primitives in the monad *)

(** [a % b] *)
Definition py_mod (a b : Z) : M Z :=
  if b =? 0 then raise ZeroDivisionError else ret (a mod b).

(** [range(a, b)]: a float bound is a [TypeError]. *)
Definition py_range (a : Z) (b : pynum) : M (list Z) :=
  match b with
  | PyInt b => ret ((fun i => a + Z.of_nat i) <$> seq 0 (Z.to_nat (b - a)))
  | PyFloat _ => raise TypeError
  end.

(** [d[key]] on a metrics dictionary *)
Fixpoint metrics_getitem (key : string) (d : Metrics) : M Q :=
  match d with
  | [] => raise KeyError
  | (k, v) :: d' => if String.eqb k key then ret v else metrics_getitem key d'
  end.

(** What a path resolves to, following one soft link. *)
Definition resolve (files : gmap string (File Params)) (p : string)
  : option (File Params) :=
  match files !! p with
  | Some (SoftLink q) =>
      match files !! q with
      | Some (SoftLink _) => None
      | r => r
      end
  | r => r
  end.

(** [os.path.isfile(p)] and [os.path.exists(p)] *)
Definition isfile (files : gmap string (File Params)) (p : string) : bool :=
  bool_decide (is_Some (resolve files p)).

Definition path_exists (files : gmap string (File Params)) (p : string)
  : bool :=
  bool_decide (is_Some (resolve files p)).

(** [os.readlink(p)] *)
Definition readlink (p : string) : M string :=
  t <~ get;;
  match fs t !! p with
  | Some (SoftLink q) => ret q
  | _ => raise OSError
  end.

(** [torch.load(p)] *)
Definition torch_load (p : string) : M (Checkpoint Params) :=
  t <~ get;;
  match resolve (fs t) p with
  | Some (CheckpointFile c) => ret c
  | Some _ => raise UnpicklingError
  | None => raise OSError
  end.

(** [len(self.valid_result_dict)], [self.valid_result_dict[k]] and
    [self.valid_result_dict[k] = v].  A summary object bound to the
    attribute supports none of them. *)
Definition result_len : M Z :=
  t <~ get;;
  match valid_result_dict t with
  | ResultDict d => ret (Z.of_nat (size d))
  | ResultSummary _ => raise TypeError
  end.

Definition result_getitem (k : Z) : M EpochTracker :=
  t <~ get;;
  match valid_result_dict t with
  | ResultDict d =>
      match d !! k with
      | Some e => ret e
      | None => raise KeyError
      end
  | ResultSummary _ => raise TypeError
  end.

Definition result_setitem (k : Z) (v : EpochTracker) : M unit :=
  t <~ get;;
  match valid_result_dict t with
  | ResultDict d => modify (set_valid_result_dict (ResultDict (<[k := v]> d)))
  | ResultSummary _ => raise TypeError
  end.

(** *** The tracker and the model seen from the trainer *)

Definition on_tracker (f : SummaryTracker -> SummaryTracker) : M unit :=
  modify (fun t => set__summary_tracker (f (_summary_tracker t)) t).

(** [with self._summary_tracker.new_epoch(mode): body].  The epoch is
    finalised when the body returns and also when it raises. *)
Definition new_epoch {A} (mode : string) (body : M A) : M A :=
  fun t =>
    let finalise t' :=
      set__summary_tracker (epoch_end calc_score (_summary_tracker t')) t' in
    match body (set__summary_tracker (epoch_start mode (_summary_tracker t)) t) with
    | Ok a t' => Ok a (finalise t')
    | Raise e t' => Raise e (finalise t')
    end.

Definition new_step : M unit := on_tracker tracker_new_step.
Definition append_loss (v : Loss) : M unit := on_tracker (tracker_append_loss v).
Definition set_metrics_results (r : option Metrics) : M unit :=
  on_tracker (tracker_set_metrics_results r).

(** [self.model.train()] and [self.model.eval()] *)
Definition set_training (b : bool) : M unit :=
  modify (fun t =>
    set_model {| state_dict := state_dict (model t); training := b;
                 grads := grads (model t) |} t).

(** [self.model.load_state_dict(p)] *)
Definition load_state_dict (p : Params) : M unit :=
  modify (fun t =>
    set_model {| state_dict := p; training := training (model t);
                 grads := grads (model t) |} t).

(** [self.accelerator.backward(loss)] *)
Definition backward (g : Loss) : M unit :=
  modify (fun t =>
    set_model {| state_dict := state_dict (model t);
                 training := training (model t);
                 grads := grads (model t) ++ [g] |} t).

(** [self.accelerator.clip_grad_norm_(self.model.parameters(), c)] *)
Definition clip (c : Q) : M unit :=
  modify (fun t =>
    set_model {| state_dict := state_dict (model t);
                 training := training (model t);
                 grads := clip_grad_norm c (grads (model t)) |} t).

(** [self.optimizer.step()] *)
Definition optimizer_step : M unit :=
  modify (fun t =>
    set_optimizer {| opt_steps := opt_steps (optimizer t) + 1 |}
      (set_model {| state_dict :=
                      optimizer_update (state_dict (model t)) (grads (model t));
                    training := training (model t);
                    grads := grads (model t) |} t)).

(** [self.optimizer.zero_grad()] *)
Definition zero_grad : M unit :=
  modify (fun t =>
    set_model {| state_dict := state_dict (model t);
                 training := training (model t); grads := [] |} t).

(** *** Evaluation *)

(** [save_generated_text]: in validation the corpus only goes to the
    dashboard; in test it is also written to [saved_text_filename]. *)
Definition save_generated_text (generated_corpus : list string)
    (is_valid : bool) : M unit :=
  if is_valid then ret tt
  else
    modify (fun t =>
      set_fs (serialized_save (SavedCorpus generated_corpus) None None
                (saved_model_filename t) None "txt" None (fs t)) t).

(** The part of [evaluate] after the optional reload of a checkpoint. *)
Definition evaluate_generate (eval_data : DataLoader) (is_valid : bool)
  : M (option Metrics) :=
  set_training false;;;
  t <~ get;;
  let generate_corpus := generate_corpus (state_dict (model t)) eval_data in
  let corpus_len := length (target_text eval_data) in
  let generate_corpus := take corpus_len generate_corpus in
  generate_corpus <~
    (if String.eqb (post_processing t) "paraphrase" then
       match mapM paraphrase generate_corpus with
       | Some l => ret l
       | None => raise IndexError
       end
     else ret generate_corpus);;
  (if is_save t then save_generated_text generate_corpus is_valid
   else ret tt);;;
  let result := evaluator_evaluate generate_corpus eval_data in
  ret (Some result).

Definition evaluate (eval_data : DataLoader) (load_best_model : bool)
    (model_file : option string) (is_valid : bool) : M (option Metrics) :=
  let load_best_model := if is_valid then false else load_best_model in
  if load_best_model then
    t <~ get;;
    let checkpoint_file := py_or model_file (saved_model_filename t +:+ ".pth") in
    if negb (isfile (fs t) checkpoint_file) then
      log ERROR (MsgEvaluateNotFound checkpoint_file);;;
      ret None
    else
      log INFO (MsgLoadingModel checkpoint_file);;;
      checkpoint <~ torch_load checkpoint_file;;
      load_state_dict (ck_state_dict checkpoint);;;
      evaluate_generate eval_data is_valid
  else evaluate_generate eval_data is_valid.

(** *** Early stopping and checkpoints *)

Definition _early_stopping (current_best : bool) : M bool :=
  if current_best then
    modify (set_stopping_count 0);;;
    ret false
  else
    modify (fun t => set_stopping_count (stopping_count t + 1) t);;;
    t <~ get;;
    ret (stopping_steps t <? stopping_count t).

Definition _get_checkpoint : M (option (Checkpoint Params)) :=
  n <~ result_len;;
  if n =? 0 then
    log WARNING (MsgGetCheckpointFailed);;;
    ret None
  else
    t <~ get;;
    summary <~ result_getitem (valid_epoch (timestamp t));;
    let checkpoint :=
      {| ck_state_dict := state_dict (model t);
         ck_optimizer := optimizer t;
         ck_stopping_count := stopping_count t;
         ck_best_valid_score := best_valid_score (_summary_tracker t);
         ck_epoch := train_epoch (timestamp t);
         ck_timestamp := timestamp t;
         ck_config := config t;
         ck_summary := summary |} in
    log DEBUG (MsgCheckpoint checkpoint);;;
    ret (Some checkpoint).

Definition save_checkpoint : M unit :=
  t <~ get;;
  let serial_idx := valid_epoch (timestamp t) in
  let serial_of_soft_link := valid_epoch (best_valid_timestamp t) in
  checkpoint <~ _get_checkpoint;;
  modify (fun t =>
    set_fs (serialized_save (SavedCheckpoint checkpoint) (Some serial_idx)
              (Some serial_of_soft_link) (saved_model_filename t)
              (Some "epoch") "pth" (Some (max_save t)) (fs t)) t).

(** [s.lower()] on one-byte characters *)
Definition chr_lower (c : ascii) : ascii :=
  let n := N_of_ascii c in
  if ((65 <=? n) && (n <=? 90))%N then ascii_of_N (n + 32) else c.

Fixpoint str_lower (s : string) : string :=
  match s with
  | EmptyString => EmptyString
  | String c s' => String (chr_lower c) (str_lower s')
  end.

Definition resume_checkpoint (resume_file : string) : M unit :=
  log INFO (MsgResuming resume_file);;;
  t <~ get;;
  if isfile (fs t) resume_file then
    checkpoint <~ torch_load resume_file;;
    modify (set_start_epoch (ck_epoch checkpoint + 1));;;
    on_tracker (set_axes (ck_timestamp checkpoint));;;
    modify (set_stopping_count (ck_stopping_count checkpoint));;;
    on_tracker (set_best_valid_score (ck_best_valid_score checkpoint));;;
    modify (set_valid_result_dict (ResultSummary (ck_summary checkpoint)));;;
    t <~ get;;
    (if negb (String.eqb (cfg_model_name (ck_config checkpoint))
                         (cfg_model_name (config t)))
     then log WARNING (MsgArchitectureDiffers) else ret tt);;;
    load_state_dict (ck_state_dict checkpoint);;;
    (if negb (String.eqb (str_lower (cfg_optimizer (ck_config checkpoint)))
                         (cfg_optimizer (config t)))
     then log WARNING (MsgOptimizerDiffers) else ret tt);;;
    modify (set_optimizer (ck_optimizer checkpoint));;;
    t <~ get;;
    log INFO (MsgCheckpointLoaded (start_epoch t))
  else
    log WARNING (MsgResumeNotFound resume_file).

(** *** Validation *)

(** The loop of [_valid] over the validation loader when ["loss"] selects
    the best model: it returns the sum of the batch losses. *)
Fixpoint valid_loss_loop (data : list Batch) (losses : Q) : M Q :=
  match data with
  | [] => ret losses
  | b :: rest =>
      new_step;;;
      t <~ get;;
      let loss := model_forward (state_dict (model t)) b None in
      let losses := Qplus losses loss in
      append_loss loss;;;
      valid_loss_loop rest losses
  end.

(** The body of the [with new_epoch('valid')] block of [_valid]: run the
    validation, hand its results to the tracker and store the summary of
    the epoch under the current validation epoch. *)
Definition valid_epoch_body (valid_data : DataLoader) : M unit :=
  t <~ get;;
  valid_results <~
    (if bool_decide ("loss" ∈ metrics_for_best_model t) then
       set_training false;;;
       losses <~ valid_loss_loop (batches valid_data) (0#1)%Q;;
       if len valid_data =? 0 then raise ZeroDivisionError
       else ret (Some [("loss", Qdiv losses (inject_Z (len valid_data)))])
     else evaluate valid_data true None true);;
  set_metrics_results valid_results;;;
  t <~ get;;
  match _current_epoch (_summary_tracker t) with
  | Some e => result_setitem (valid_epoch (timestamp t)) e
  | None => raise TypeError
  end.

(** [_valid].  The attributes [self.temp_mode] and [self.temp_epoch] are
    written and read only in this method; they are the local [temp_mode]
    and [temp_epoch]. *)
Definition _valid (valid_data : DataLoader) (valid_mode : string) : M bool :=
  t <~ get;;
  if (valid_steps t <=? 0) || negb (String.eqb valid_mode (valid_strategy t))
  then ret false
  else
    modify (fun t => set__valid_count (_valid_count t + 1) t);;;
    t <~ get;;
    if negb (_valid_count t mod valid_steps t =? 0) then ret false
    else
      let temp_mode := _current_mode (_summary_tracker t) in
      let temp_epoch := _current_epoch (_summary_tracker t) in
      new_epoch "valid" (valid_epoch_body valid_data);;;
      on_tracker (set_current temp_mode temp_epoch);;;
      set_training true;;;
      t <~ get;;
      stopped <~
        (if truthy (stopping_steps t)
         then _early_stopping (is_best_valid (_summary_tracker t))
         else ret false);;
      (if is_save t then save_checkpoint else ret tt);;;
      ret stopped.

(** Whether a call of [_valid] gets past its two guards and runs a
    validation epoch. *)
Definition validation_due (valid_mode : string) (t : Trainer) : bool :=
  negb ((valid_steps t <=? 0) || negb (String.eqb valid_mode (valid_strategy t)))
  && ((_valid_count t + 1) mod valid_steps t =? 0).

(** A sequence of validations as early stopping sees it: the outcomes
    ([true] for a best validation) are fed to [_early_stopping] in order
    and the stop flags are collected. *)
Fixpoint early_stopping_run (outcomes : list bool) : M (list bool) :=
  match outcomes with
  | [] => ret []
  | best :: rest =>
      flag <~ _early_stopping best;;
      flags <~ early_stopping_run rest;;
      ret (flag :: flags)
  end.

(** *** Training *)

(** [math.ceil(a / b)] for a positive [b]. *)
Definition ceil_div (a b : Z) : Z := (a + b - 1) / b.

(** The head of the loop body of [_train_epoch]: on the first micro-batch
    of an accumulation group a new step is opened in the tracker and the
    step budget is checked.  The result tells whether the loop breaks. *)
Definition open_step (step : Z) : M bool :=
  t <~ get;;
  r <~ py_mod step (accumulation_steps t);;
  if r =? 0 then
    new_step;;;
    t <~ get;;
    if train_step (timestamp t) =? max_steps t then
      modify (set_stopped true);;;
      ret true
    else ret false
  else ret false.

(** Forward and backward pass of one micro-batch. *)
Definition micro_batch (b : Batch) (epoch_idx : Z) : M unit :=
  t <~ get;;
  let loss := model_forward (state_dict (model t)) b (Some epoch_idx) in
  append_loss loss;;;
  backward (Qdiv loss (inject_Z (accumulation_steps t))).

(** The end of an accumulation group: clipping, the optimizer update and
    the step-mode validation. *)
Definition update_and_validate (valid_data : option DataLoader) : M unit :=
  t <~ get;;
  match grad_clip t with
  | Some c => clip c
  | None => ret tt
  end;;;
  optimizer_step;;;
  zero_grad;;;
  match valid_data with
  | Some vd =>
      if loader_truthy valid_data then
        t <~ get;;
        s <~ _valid vd "step";;
        modify (set_stopped (stopped t || s))
      else ret tt
  | None => ret tt
  end.

(** The loop of [_train_epoch] over [enumerate(train_data)]: [step] is the
    index of the head of [data], [train_len] is [len(train_data)].  The
    loop ends at the end of the data or at one of the two [break]s. *)
Fixpoint train_loop (train_len : Z) (epoch_idx : Z)
    (valid_data : option DataLoader) (step : Z) (data : list Batch)
  : M unit :=
  match data with
  | [] => ret tt
  | b :: rest =>
      budget_reached <~ open_step step;;
      if budget_reached then ret tt
      else
        micro_batch b epoch_idx;;;
        t <~ get;;
        r <~ py_mod (step + 1) (accumulation_steps t);;
        if (r =? 0) || (step + 1 =? train_len) then
          update_and_validate valid_data;;;
          t <~ get;;
          if stopped t then ret tt
          else train_loop train_len epoch_idx valid_data (step + 1) rest
        else train_loop train_len epoch_idx valid_data (step + 1) rest
  end.

Definition _train_epoch (train_data : DataLoader) (epoch_idx : Z)
    (valid_data : option DataLoader) : M Metrics :=
  set_training true;;;
  new_epoch "train" (
    train_loop (len train_data) epoch_idx valid_data 0 (batches train_data);;;
    t <~ get;;
    ret (tracker_epoch_dict (_summary_tracker t))).

(** [self.best_valid_result] *)
Definition best_valid_result : M EpochTracker :=
  t <~ get;;
  result_getitem (valid_epoch (best_valid_timestamp t)).

(** The epoch loop of [fit] over the indices produced by [range]. *)
Fixpoint fit_loop (train_data : DataLoader) (valid_data : option DataLoader)
    (indices : list Z) : M unit :=
  match indices with
  | [] => ret tt
  | epoch_idx :: rest =>
      d <~ _train_epoch train_data epoch_idx valid_data;;
      loss <~ metrics_getitem "loss" d;;
      modify (fun t => set_train_loss_list (train_loss_list t ++ [loss]) t);;;
      match valid_data with
      | Some vd =>
          if loader_truthy valid_data then
            t <~ get;;
            s <~ _valid vd "epoch";;
            modify (set_stopped (stopped t || s))
          else ret tt
      | None => ret tt
      end;;;
      t <~ get;;
      if stopped t then
        if truthy (stopping_steps t) then
          log INFO (MsgEarlyStopped (stopping_count t))
        else if truthy (max_steps t) then
          log INFO (MsgStoppedAtMaxSteps (max_steps t))
        else ret tt
      else fit_loop train_data valid_data rest
  end.

Definition fit (train_data : DataLoader) (valid_data : option DataLoader)
  : M Metrics :=
  log INFO MsgStartTraining;;;
  t <~ get;;
  indices <~ py_range (start_epoch t) (epochs t);;
  fit_loop train_data valid_data indices;;;
  t <~ get;;
  let file := saved_model_filename t +:+ ".pth" in
  (if path_exists (fs t) file then
     target <~ readlink file;;
     log INFO (MsgSoftLinkCreated file target)
   else ret tt);;;
  log INFO (MsgFinishedTraining (train_epoch (best_valid_timestamp t)));;;
  best <~ best_valid_result;;
  log INFO (MsgBestValidResult best);;;
  best <~ best_valid_result;;
  ret (as_dict best).

End Methods.

(** ** Relations between the state before and the state after a computation *)

Section StateRelations.

Context {Params : Type}.
Local Abbreviation Trainer := (Trainer Params).
Local Abbreviation M := (@M Params).

(** A relation between the state before and the state after a computation,
    which holds whether the computation returns or raises. *)
Definition preserves (R : relation Trainer) {A} (m : M A) : Prop :=
  forall t, R t (final_state (m t)).

(** With [valid_steps = 0] at the start, the configuration and the file
    system are those of the start. *)
Definition files_kept (t t' : Trainer) : Prop :=
  valid_steps t = 0 -> config t' = config t /\ fs t' = fs t.

(** The parameters of the model, the log and the file system are those of
    the start. *)
Definition nothing_loaded (t t' : Trainer) : Prop :=
  state_dict (model t') = state_dict (model t) /\
  logger t' = logger t /\ fs t' = fs t.

(** The tracker is the one of the start. *)
Definition tracker_kept (t t' : Trainer) : Prop :=
  _summary_tracker t' = _summary_tracker t.

(** The configuration and the stopping counter are those of the start. *)
Definition stopping_kept (t t' : Trainer) : Prop :=
  config t' = config t /\ stopping_count t' = stopping_count t.

(** The tracker and the stopping counter are those of the start. *)
Definition verdict_kept (t t' : Trainer) : Prop :=
  _summary_tracker t' = _summary_tracker t /\
  stopping_count t' = stopping_count t.

(** The result store is the one of the start. *)
Definition results_kept (t t' : Trainer) : Prop :=
  valid_result_dict t' = valid_result_dict t.

End StateRelations.

(** ** A concrete world for the examples

    A unit-parameter model whose loss on a batch is the number of the batch,
    an evaluator that counts the generated strings, and a serialisation
    utility that writes the object under [base[_tag-serial].ext] and points
    [base.ext] at the file of the best serial. *)

Definition ex_serialized_save (o : SavedObject unit) (serial link : option Z)
    (base : string) (tag : option string) (ext : string) (keep : option Z)
    (files : gmap string (File unit)) : gmap string (File unit) :=
  let name s :=
    base +:+ match tag, s with
             | Some tg, Some n => "_" +:+ tg +:+ "-" +:+ pretty n
             | _, _ => ""
             end +:+ "." +:+ ext in
  match o with
  | SavedCheckpoint (Some c) =>
      let files := <[name serial := CheckpointFile c]> files in
      match link with
      | Some _ => <[base +:+ "." +:+ ext := SoftLink (name link)]> files
      | None => files
      end
  | SavedCheckpoint None => files
  | SavedCorpus l => <[name None := TextFile l]> files
  end.

Definition ex_calc_score (e : EpochTracker) : Q :=
  match et_metrics e with
  | Some ((_, v) :: _) => Qopp v
  | _ => (0#1)%Q
  end.

#[export] Instance ex_world : Collaborators unit := {|
  model_forward := fun _ b _ => inject_Z b;
  clip_grad_norm := fun _ g => g;
  optimizer_update := fun p _ => p;
  generate_corpus := fun _ d => target_text d;
  evaluator_evaluate := fun c _ => [("bleu", inject_Z (Z.of_nat (length c)))];
  serialized_save := ex_serialized_save;
  calc_score := ex_calc_score
|}.

Definition ex_config : Config := {|
  cfg_epochs := 2;
  cfg_max_steps := 0;
  cfg_accumulation_steps := 2;
  cfg_valid_steps := 1;
  cfg_valid_strategy := "epoch";
  cfg_stopping_steps := 2;
  cfg_metrics_for_best_model := ["loss"];
  cfg_max_save := None;
  cfg_filename := "run";
  cfg_saved_dir := "saved";
  cfg_post_processing := "paraphrase";
  cfg_grad_clip := None;
  cfg_model_name := "bart";
  cfg_optimizer := "adamw";
  cfg_seed := 0
|}.

(** The configuration with some entries replaced. *)
Definition ex_config_with (epochs max_steps valid_steps stopping_steps : Z)
    (strategy : string) : Config := {|
  cfg_epochs := epochs;
  cfg_max_steps := max_steps;
  cfg_accumulation_steps := cfg_accumulation_steps ex_config;
  cfg_valid_steps := valid_steps;
  cfg_valid_strategy := strategy;
  cfg_stopping_steps := stopping_steps;
  cfg_metrics_for_best_model := cfg_metrics_for_best_model ex_config;
  cfg_max_save := cfg_max_save ex_config;
  cfg_filename := cfg_filename ex_config;
  cfg_saved_dir := cfg_saved_dir ex_config;
  cfg_post_processing := cfg_post_processing ex_config;
  cfg_grad_clip := cfg_grad_clip ex_config;
  cfg_model_name := cfg_model_name ex_config;
  cfg_optimizer := cfg_optimizer ex_config;
  cfg_seed := cfg_seed ex_config
|}.

Definition ex_origin : Timestamp :=
  {| train_step := 0; train_epoch := 0; valid_epoch := 0 |}.

Definition ex_tracker : SummaryTracker := {|
  axes := ex_origin;
  _current_mode := None;
  _current_epoch := None;
  valid_step := 0;
  best_valid_score := None;
  tracker_best_valid_timestamp := ex_origin;
  is_best_valid := false
|}.

Definition ex_model : Model unit :=
  {| state_dict := tt; training := false; grads := [] |}.

(** A freshly constructed trainer on an empty file system. *)
Definition ex_trainer (c : Config) : Trainer unit :=
  __init__ c ex_model ex_tracker true ∅.

Definition ex_train_data : DataLoader :=
  {| batches := [1; 2; 3; 4; 5]; target_text := [] |}.

Definition ex_valid_data : DataLoader :=
  {| batches := [1; 2]; target_text := ["a"; "b"] |}.

(** A run with validation at every step, caught in the middle of a
    training epoch: the tracker is in train mode and the current epoch has
    one loss. *)
Definition ex_mid_epoch : Trainer unit :=
  let t := ex_trainer (ex_config_with 2 0 1 2 "step") in
  set__summary_tracker
    (tracker_append_loss (1#1)%Q
       (tracker_new_step (epoch_start "train" (_summary_tracker t)))) t.

(** The trainer after a complete run of two epochs with a validation after
    each of them. *)
Definition ex_after_training : Trainer unit :=
  final_state (fit ex_train_data (Some ex_valid_data) (ex_trainer ex_config)).

(** A trainer whose [epochs] attribute has been reassigned to an integer
    after construction. *)
Definition ex_reassign_epochs (n : Z) (t : Trainer unit) : Trainer unit :=
  {| config := config t; epochs := PyInt n; max_save := max_save t;
     start_epoch := start_epoch t; _valid_count := _valid_count t;
     train_loss_list := train_loss_list t;
     valid_result_dict := valid_result_dict t; stopped := stopped t;
     stopping_count := stopping_count t;
     _summary_tracker := _summary_tracker t; model := model t;
     optimizer := optimizer t;
     is_local_main_process := is_local_main_process t; fs := fs t;
     logger := logger t |}.

(** The records of the log that report why training halted. *)
Definition halt_reports {Params : Type}
    (l : list (Level * Message Params)) : list (Message Params) :=
  omap (fun r => match snd r with
                 | MsgEarlyStopped _ | MsgStoppedAtMaxSteps _ => Some (snd r)
                 | _ => None
                 end) l.

(** ** Construction of the optimizer

    [Trainer._build_optimizer] and the part of [__init__] that prepares its
    arguments.  The optimizer and scheduler classes are those of the two
    tables of the method; keyword arguments are dictionaries from names to
    values of an arbitrary type. *)

Inductive OptimizerClass : Type :=
| Adam | AdamW | SGD | Adagrad | RMSprop | Adafactor.

Inductive SchedulerClass : Type :=
| InverseSquareRootScheduler | CosineScheduler | LinearScheduler
| ConstantScheduler.

(** [optimizer_class[name]]: a [defaultdict] whose default is [AdamW]. *)
Definition optimizer_class (name : string) : OptimizerClass :=
  if String.eqb name "adam" then Adam
  else if String.eqb name "adamw" then AdamW
  else if String.eqb name "sgd" then SGD
  else if String.eqb name "adagrad" then Adagrad
  else if String.eqb name "rmsprop" then RMSprop
  else if String.eqb name "adafactor" then Adafactor
  else AdamW.

(** [scheduler_class.get(name)]: [None] when [name in scheduler_class] is
    false. *)
Definition scheduler_class (name : string) : option SchedulerClass :=
  if String.eqb name "inverse" then Some InverseSquareRootScheduler
  else if String.eqb name "cosine" then Some CosineScheduler
  else if String.eqb name "linear" then Some LinearScheduler
  else if String.eqb name "constant" then Some ConstantScheduler
  else None.

Section BuildOptimizer.

Context {V : Type}.

(** What [_build_optimizer] leaves behind: the class and the keyword
    arguments of the base optimizer, the scheduler wrapped around it with
    its keyword arguments (if any), [self.grad_clip] and whether the
    warning about clipping was logged. *)
Record OptimizerSetup : Type := {
  os_class : OptimizerClass;
  os_kwargs : gmap string V;
  os_scheduler : option (SchedulerClass * gmap string V);
  os_grad_clip : option Q;
  os_warned : bool
}.

(** [d.update(other)]: the entries of [other] win. *)
Definition dict_update (d other : gmap string V) : gmap string V := other ∪ d.

(** [d.setdefault(k, v)] *)
Definition dict_setdefault (k : string) (v : V) (d : gmap string V)
  : gmap string V :=
  match d !! k with
  | Some _ => d
  | None => <[k := v]> d
  end.

(** [self.optimizer_kwargs] as [__init__] prepares it. *)
Definition init_optimizer_kwargs (learning_rate : V)
    (config_kwargs : gmap string V) : gmap string V :=
  dict_update {["lr" := learning_rate]} config_kwargs.

(** [_build_optimizer(optimizer, scheduler)].  [scheduler_kwargs] is
    [None] when the configuration entry is not a dictionary; the result is
    [None] when the assertion on it fails. *)
Definition _build_optimizer (optimizer : string) (scheduler : option string)
    (learning_rate : V) (optimizer_kwargs adafactor_kwargs : gmap string V)
    (scheduler_kwargs : option (gmap string V)) (grad_clip : option Q)
  : option OptimizerSetup :=
  let adafactor := String.eqb optimizer "adafactor" in
  let warned := adafactor && bool_decide (is_Some grad_clip) in
  let grad_clip := if adafactor then None else grad_clip in
  let optimizer_kwargs :=
    if adafactor then dict_update optimizer_kwargs adafactor_kwargs
    else optimizer_kwargs in
  let base := optimizer_class optimizer in
  match scheduler with
  | Some name =>
      match scheduler_class name with
      | Some cls =>
          match scheduler_kwargs with
          | Some kw =>
              Some {| os_class := base; os_kwargs := optimizer_kwargs;
                      os_scheduler :=
                        Some (cls, dict_setdefault "max_lr" learning_rate kw);
                      os_grad_clip := grad_clip; os_warned := warned |}
          | None => None
          end
      | None =>
          Some {| os_class := base; os_kwargs := optimizer_kwargs;
                  os_scheduler := None;
                  os_grad_clip := grad_clip; os_warned := warned |}
      end
  | None =>
      Some {| os_class := base; os_kwargs := optimizer_kwargs;
              os_scheduler := None;
              os_grad_clip := grad_clip; os_warned := warned |}
  end.

End BuildOptimizer.

Arguments OptimizerSetup : clear implicits.

(** ** Preparation of the data loaders

    [data_preparation] of [textbox/data/utils.py], as far as the choice of
    the collate class and the arguments of the three loaders go. *)

Inductive Collate : Type :=
| AbstractCollate | DenoisingCollate | TextInfillingCollate | UnilmCollate.

(** [collate_options.get(name, AbstractCollate)] *)
Definition collate_options_get (name : option string) : Collate :=
  match name with
  | Some n =>
      if String.eqb n "disabled" then AbstractCollate
      else if String.eqb n "denoising" then DenoisingCollate
      else if String.eqb n "text_infilling" then TextInfillingCollate
      else if String.eqb n "unilm" then UnilmCollate
      else AbstractCollate
  | None => AbstractCollate
  end.

(** The arguments of one [DataLoader(...)] call. *)
Record LoaderArgs : Type := {
  la_split : string;
  la_batch_size : Z;
  la_shuffle : bool;
  la_collate : Collate
}.

(** [data_preparation(config, tokenizer)]: the three loaders, or [None] for
    the [AssertionError] on the evaluation batch size. *)
Definition data_preparation (pretrain_task : option string)
    (model_name dataset : string) (train_batch_size eval_batch_size : Z)
  : option (LoaderArgs * LoaderArgs * LoaderArgs) :=
  let collate_name :=
    if String.eqb model_name "unilm" then Some "unilm" else pretrain_task in
  let collate_fn := collate_options_get collate_name in
  if String.eqb dataset "multiwoz" && negb (eval_batch_size mod 3 =? 0) then None
  else
    Some ({| la_split := "train"; la_batch_size := train_batch_size;
             la_shuffle := true; la_collate := collate_fn |},
          {| la_split := "valid"; la_batch_size := eval_batch_size;
             la_shuffle := false; la_collate := collate_fn |},
          {| la_split := "test"; la_batch_size := eval_batch_size;
             la_shuffle := false; la_collate := collate_fn |}).

(** ** The experiment

    [Experiment._do_train_and_valid], [_do_test] and [run] of
    [textbox/quick_start/experiment.py], from the point where
    [_on_experiment_start] has built the trainer and read the three flags. *)

Inductive exp_exn : Type :=
| ValueError
| TrainerRaised (e : exn).

(** The records that the experiment writes to its own logger. *)
Inductive ExpMessage : Type :=
| ExpTestResult (r : option Metrics)
| ExpMetric (key : string) (value : Q).

Section Experiment.

Context {Params : Type} {W : Collaborators Params}.

(** The experiment object after [_on_experiment_start]. *)
Record Experiment : Type := {
  trainer : Trainer Params;
  do_train : bool;
  do_valid : bool;
  do_test : bool;
  load_experiment : option string;
  exp_train_data : DataLoader;
  exp_valid_data : DataLoader;
  exp_test_data : DataLoader;
  valid_result : option Metrics;
  test_result : option Metrics;
  exp_logger : list ExpMessage
}.

Inductive exp_res (A : Type) : Type :=
| ExpOk (a : A) (x : Experiment)
| ExpRaise (e : exp_exn) (x : Experiment).

Definition set_trainer (t : Trainer Params) (x : Experiment) : Experiment :=
  {| trainer := t; do_train := do_train x; do_valid := do_valid x;
     do_test := do_test x; load_experiment := load_experiment x;
     exp_train_data := exp_train_data x; exp_valid_data := exp_valid_data x;
     exp_test_data := exp_test_data x; valid_result := valid_result x;
     test_result := test_result x; exp_logger := exp_logger x |}.

Definition set_valid_result (r : option Metrics) (x : Experiment) : Experiment :=
  {| trainer := trainer x; do_train := do_train x; do_valid := do_valid x;
     do_test := do_test x; load_experiment := load_experiment x;
     exp_train_data := exp_train_data x; exp_valid_data := exp_valid_data x;
     exp_test_data := exp_test_data x; valid_result := r;
     test_result := test_result x; exp_logger := exp_logger x |}.

Definition set_test_result (r : option Metrics) (x : Experiment) : Experiment :=
  {| trainer := trainer x; do_train := do_train x; do_valid := do_valid x;
     do_test := do_test x; load_experiment := load_experiment x;
     exp_train_data := exp_train_data x; exp_valid_data := exp_valid_data x;
     exp_test_data := exp_test_data x; valid_result := valid_result x;
     test_result := r; exp_logger := exp_logger x |}.

Definition exp_log (m : list ExpMessage) (x : Experiment) : Experiment :=
  {| trainer := trainer x; do_train := do_train x; do_valid := do_valid x;
     do_test := do_test x; load_experiment := load_experiment x;
     exp_train_data := exp_train_data x; exp_valid_data := exp_valid_data x;
     exp_test_data := exp_test_data x; valid_result := valid_result x;
     test_result := test_result x; exp_logger := exp_logger x ++ m |}.

(** A method of the trainer called from the experiment: the trainer of the
    experiment is the state it leaves, also when it raises. *)
Definition on_trainer {A} (m : @M Params A) (x : Experiment) : exp_res A :=
  match m (trainer x) with
  | Ok a t => ExpOk A a (set_trainer t x)
  | Raise e t => ExpRaise A (TrainerRaised e) (set_trainer t x)
  end.

Definition _do_train_and_valid (x : Experiment) : exp_res unit :=
  if negb (do_train x) && do_valid x then ExpRaise unit ValueError x
  else if do_train x then
    match
      match load_experiment x with
      | Some resume_file => on_trainer (resume_checkpoint resume_file) x
      | None => ExpOk unit tt x
      end
    with
    | ExpOk _ _ x1 =>
        let train_data := exp_train_data x1 in
        let valid_data :=
          if do_valid x1 then Some (exp_valid_data x1) else None in
        match on_trainer (fit train_data valid_data) x1 with
        | ExpOk _ r x2 =>
            let x3 := set_valid_result (Some r) x2 in
            ExpOk unit tt (exp_log [ExpTestResult (valid_result x3)] x3)
        | ExpRaise _ e x2 => ExpRaise unit e x2
        end
    | ExpRaise _ e x1 => ExpRaise unit e x1
    end
  else ExpOk unit tt x.

Definition _do_test (x : Experiment) : exp_res unit :=
  if do_test x then
    match on_trainer (evaluate (exp_test_data x) true (load_experiment x) false) x with
    | ExpOk _ r x1 =>
        let x2 := set_test_result r x1 in
        match r with
        | Some d =>
            ExpOk unit tt (exp_log ((fun kv => ExpMetric (fst kv) (snd kv)) <$> d) x2)
        | None => ExpOk unit tt x2
        end
    | ExpRaise _ e x1 => ExpRaise unit e x1
    end
  else ExpOk unit tt x.

(** [run], after [_on_experiment_start]: the two phases, then the pair of
    results. *)
Definition run (x : Experiment)
  : exp_res (option Metrics * option Metrics) :=
  match _do_train_and_valid x with
  | ExpOk _ _ x1 =>
      match _do_test x1 with
      | ExpOk _ _ x2 => ExpOk _ (valid_result x2, test_result x2) x2
      | ExpRaise _ e x2 => ExpRaise _ e x2
      end
  | ExpRaise _ e x1 => ExpRaise _ e x1
  end.

End Experiment.

Arguments Experiment : clear implicits.
Arguments ExpOk {Params A} a x.
Arguments ExpRaise {Params A} e x.

(** ** Stripped strings *)

(** [s[0].isspace()] and [s[-1].isspace()], false for the empty string. *)
Definition starts_with_space (s : string) : bool :=
  match s with
  | EmptyString => false
  | String c _ => is_space c
  end.

Fixpoint ends_with_space (s : string) : bool :=
  match s with
  | EmptyString => false
  | String c EmptyString => is_space c
  | String _ s' => ends_with_space s'
  end.

(** ** Invariants of the trainer *)

Section Invariants.

Context {Params : Type}.
Local Abbreviation Trainer := (Trainer Params).
Local Abbreviation M := (@M Params).

(** A property of the state that a computation keeps, whether it returns
    or raises. *)
Definition invariant (I : Trainer -> Prop) {A} (m : M A) : Prop :=
  forall t, I t -> I (final_state (m t)).

(** The process is not the local main process and the file system is
    [files]. *)
Definition writer_idle (files : gmap string (File Params)) (t : Trainer)
  : Prop :=
  is_local_main_process t = false /\ fs t = files.

(** The stop flag is set. *)
Definition stop_requested (t : Trainer) : Prop := stopped t = true.

(** Early stopping is switched off and the stopping counter is [n]. *)
Definition stopping_off (n : Z) (t : Trainer) : Prop :=
  stopping_steps t = 0 /\ stopping_count t = n.

(** The parameters, the accumulated gradients and the optimizer are those
    of the start. *)
Definition not_trained (t t' : Trainer) : Prop :=
  state_dict (model t') = state_dict (model t) /\
  grads (model t') = grads (model t) /\
  optimizer t' = optimizer t.

(** Nothing but the log has changed. *)
Definition only_logged (t t' : Trainer) : Prop :=
  config t' = config t /\ epochs t' = epochs t /\ max_save t' = max_save t /\
  start_epoch t' = start_epoch t /\ _valid_count t' = _valid_count t /\
  train_loss_list t' = train_loss_list t /\
  valid_result_dict t' = valid_result_dict t /\ stopped t' = stopped t /\
  stopping_count t' = stopping_count t /\
  _summary_tracker t' = _summary_tracker t /\ model t' = model t /\
  optimizer t' = optimizer t /\
  is_local_main_process t' = is_local_main_process t /\ fs t' = fs t.

(** The attributes that [__init__] derives from the configuration and
    the role of the process are those of the start. *)
Definition settings_kept (t t' : Trainer) : Prop :=
  config t' = config t /\ epochs t' = epochs t /\
  max_save t' = max_save t /\
  is_local_main_process t' = is_local_main_process t.

(** No gradient is accumulated. *)
Definition grads_empty (t : Trainer) : Prop := grads (model t) = [].

(** The counter of validation calls is the one of the start. *)
Definition count_kept (t t' : Trainer) : Prop :=
  _valid_count t' = _valid_count t.

(** The model (parameters, mode and gradients) is the one of the start. *)
Definition model_kept (t t' : Trainer) : Prop := model t' = model t.

End Invariants.

(** ** Further examples *)

(** A freshly constructed trainer of a process that is not the local main
    process. *)
Definition ex_worker : Trainer unit :=
  __init__ ex_config ex_model ex_tracker false ∅.

(** A trainer whose stop flag is set. *)
Definition ex_stopped : Trainer unit := set_stopped true (ex_trainer ex_config).

(** The example configuration with the Adafactor optimizer and a clipping
    threshold. *)
Definition ex_config_adafactor : Config := {|
  cfg_epochs := cfg_epochs ex_config;
  cfg_max_steps := cfg_max_steps ex_config;
  cfg_accumulation_steps := cfg_accumulation_steps ex_config;
  cfg_valid_steps := cfg_valid_steps ex_config;
  cfg_valid_strategy := cfg_valid_strategy ex_config;
  cfg_stopping_steps := cfg_stopping_steps ex_config;
  cfg_metrics_for_best_model := cfg_metrics_for_best_model ex_config;
  cfg_max_save := cfg_max_save ex_config;
  cfg_filename := cfg_filename ex_config;
  cfg_saved_dir := cfg_saved_dir ex_config;
  cfg_post_processing := cfg_post_processing ex_config;
  cfg_grad_clip := Some (1#1)%Q;
  cfg_model_name := cfg_model_name ex_config;
  cfg_optimizer := "adafactor";
  cfg_seed := cfg_seed ex_config
|}.

(** An experiment on the example loaders, right after
    [_on_experiment_start]. *)
Definition ex_experiment (train valid test : bool) (load : option string)
    (t : Trainer unit) : Experiment unit := {|
  trainer := t;
  do_train := train;
  do_valid := valid;
  do_test := test;
  load_experiment := load;
  exp_train_data := ex_train_data;
  exp_valid_data := ex_valid_data;
  exp_test_data := ex_valid_data;
  valid_result := None;
  test_result := None;
  exp_logger := []
|}.

(** A trainer whose file system holds one checkpoint. *)
Definition ex_with_checkpoint (c : Checkpoint unit) : Trainer unit :=
  set_fs {["ck.pth" := CheckpointFile c]} (ex_trainer ex_config).

(** A loader without batches. *)
Definition ex_empty_data : DataLoader := {| batches := []; target_text := [] |}.

(** * Properties *)

(** ** Reasoning about computations in [M] *)

Section Preservation.

Context {Params : Type} {W : Collaborators Params}.
Local Abbreviation Trainer := (Trainer Params).
Local Abbreviation M := (@M Params).

Context (R : relation Trainer) `{!PreOrder R}.

Lemma preserves_ret {A} (a : A) : preserves R (ret a).
Proof. intros t. reflexivity. Qed.

Lemma preserves_get : preserves R get.
Proof. intros t. reflexivity. Qed.

Lemma preserves_raise {A} (e : exn) : preserves R (raise (A := A) e).
Proof. intros t. reflexivity. Qed.

Lemma preserves_modify (f : Trainer -> Trainer) :
  (forall t, R t (f t)) -> preserves R (modify f).
Proof. intros Hf t. apply Hf. Qed.

Lemma preserves_bind {A B} (m : M A) (k : A -> M B) :
  preserves R m -> (forall a, preserves R (k a)) -> preserves R (bind m k).
Proof.
  intros Hm Hk t. unfold bind.
  specialize (Hm t). destruct (m t) as [a t1 | e t1]; simpl in *.
  - etransitivity; [exact Hm | apply Hk].
  - exact Hm.
Qed.

(** The epoch scope of the tracker only writes the tracker. *)
Lemma preserves_new_epoch {A} (mode : string) (body : M A) :
  (forall s t, R t (set__summary_tracker s t)) ->
  preserves R body -> preserves R (new_epoch mode body).
Proof.
  intros Hs Hb t. unfold new_epoch.
  set (t0 := set__summary_tracker (epoch_start mode (_summary_tracker t)) t).
  specialize (Hb t0).
  assert (R t t0) as H0 by apply Hs.
  destruct (body t0) as [a t1 | e t1]; simpl in *;
    (etransitivity; [exact H0 | ]); (etransitivity; [exact Hb | apply Hs]).
Qed.

End Preservation.

(** Decomposition of a computation along its binds and branches.  [known]
    closes the calls that have a lemma of their own; [leaf] proves that a
    state update respects the relation. *)
Ltac preserves_step known leaf :=
  first
    [ known
    | lazymatch goal with
      | |- preserves _ (bind _ _) =>
          apply preserves_bind; [ apply _ | | intros ? ]
      | |- preserves _ (ret _) => apply preserves_ret; apply _
      | |- preserves _ get => apply preserves_get; apply _
      | |- preserves _ (raise _) => apply preserves_raise; apply _
      | |- preserves _ (modify _) =>
          apply preserves_modify; intros ?; leaf
      | |- preserves _ (new_epoch _ _) =>
          apply preserves_new_epoch; [ apply _ | intros ? ?; leaf | ]
      | |- preserves _ (if ?b then _ else _) => destruct b
      | |- preserves _ (match ?x with _ => _ end) => destruct x
      | |- preserves _ (let x := _ in _) => cbv zeta
      end ].

Ltac preserves_auto known leaf := repeat (preserves_step known leaf).

Ltac unfold_primitives :=
  unfold best_valid_result, new_step, append_loss, set_metrics_results,
    set_training, load_state_dict, backward, clip, optimizer_step, zero_grad,
    save_generated_text;
  unfold log, py_mod, py_range, readlink, torch_load, result_len,
    result_getitem, result_setitem, on_tracker.

(** ** Validation disabled: no stop signal and no checkpoint *)

Section ValidationDisabled.

Context {Params : Type} {W : Collaborators Params}.
Local Abbreviation Trainer := (Trainer Params).
Local Abbreviation files_kept := (@files_kept Params).

#[local] Instance files_kept_preorder : PreOrder files_kept.
Proof.
  split.
  - intros t _. split; reflexivity.
  - intros t1 t2 t3 H12 H23 H0.
    destruct (H12 H0) as [Hc Hf].
    assert (valid_steps t2 = 0) as H0' by (unfold valid_steps; rewrite Hc; exact H0).
    destruct (H23 H0') as [Hc' Hf']. split; congruence.
Qed.

Ltac files_leaf := intros _; split; reflexivity.

Lemma _valid_disabled (valid_data : DataLoader) (valid_mode : string)
    (t : Trainer) :
  valid_steps t <= 0 -> _valid valid_data valid_mode t = Ok false t.
Proof.
  intros H. unfold _valid, bind, get.
  destruct (valid_steps t <=? 0) eqn:E; [ reflexivity | lia ].
Qed.

Lemma files_kept__valid vd mode : preserves files_kept (_valid vd mode).
Proof.
  intros t H0. rewrite _valid_disabled by lia. split; reflexivity.
Qed.

Lemma files_kept_metrics_getitem key d :
  preserves files_kept (metrics_getitem key d).
Proof.
  induction d as [ | [k v] d IH]; simpl.
  - apply preserves_raise; apply _.
  - destruct (String.eqb k key); [ apply preserves_ret; apply _ | exact IH ].
Qed.

Ltac files_known :=
  first [ apply files_kept__valid | apply files_kept_metrics_getitem ].

Lemma files_kept_train_loop train_len epoch_idx vd data :
  forall step, preserves files_kept (train_loop train_len epoch_idx vd step data).
Proof.
  induction data as [ | b rest IH]; intros step; simpl.
  - apply preserves_ret; apply _.
  - unfold open_step, micro_batch, update_and_validate. unfold_primitives.
    preserves_auto ltac:(first [ files_known | apply IH ]) files_leaf.
Qed.

Lemma files_kept__train_epoch td epoch_idx vd :
  preserves files_kept (_train_epoch td epoch_idx vd).
Proof.
  unfold _train_epoch. unfold_primitives.
  preserves_auto ltac:(first [ files_known | apply files_kept_train_loop ])
                 files_leaf.
Qed.

Lemma files_kept_fit_loop td vd indices :
  preserves files_kept (fit_loop td vd indices).
Proof.
  induction indices as [ | i rest IH]; simpl.
  - apply preserves_ret; apply _.
  - unfold_primitives.
    preserves_auto
      ltac:(first [ files_known | apply files_kept__train_epoch | apply IH ])
      files_leaf.
Qed.

Lemma files_kept_fit td vd : preserves files_kept (fit td vd).
Proof.
  unfold fit. unfold_primitives.
  preserves_auto ltac:(first [ files_known | apply files_kept_fit_loop ])
                 files_leaf.
Qed.

(** C6.  With [valid_steps = 0], every call of [_valid] returns [False]
    and leaves the trainer as it was, and a whole run of [fit], however
    many epochs and steps it executes and however it ends, leaves the file
    system as it found it: no checkpoint is written. *)
Theorem valid_steps_zero_no_stop_no_checkpoint (t : Trainer) :
  valid_steps t = 0 ->
  (forall valid_data valid_mode,
      _valid valid_data valid_mode t = Ok false t) /\
  (forall train_data valid_data,
      fs (final_state (fit train_data valid_data t)) = fs t).
Proof.
  intros H0. split.
  - intros vd mode. apply _valid_disabled. lia.
  - intros td vd. apply (files_kept_fit td vd t H0).
Qed.

End ValidationDisabled.

(** ** Evaluation and the checkpoint it loads *)

(** Relations that are conjunctions of equations between fields are
    preorders. *)
Ltac field_preorder :=
  split;
  [ intros ?; repeat split; reflexivity
  | intros ? ? ? ? ?;
    repeat match goal with H : _ /\ _ |- _ => destruct H end;
    repeat split; congruence ].

Ltac field_leaf := repeat split; reflexivity.

Lemma bind_Ok_inv {Params A B} (m : @M Params A) (k : A -> @M Params B) t b t' :
  bind m k t = Ok b t' -> exists a t1, m t = Ok a t1 /\ k a t1 = Ok b t'.
Proof.
  unfold bind. destruct (m t) as [a t1 | e t1]; [ eauto | discriminate ].
Qed.

Section Evaluation.

Context {Params : Type} {W : Collaborators Params}.
Local Abbreviation Trainer := (Trainer Params).
Local Abbreviation nothing_loaded := (@nothing_loaded Params).

#[local] Instance nothing_loaded_preorder : PreOrder nothing_loaded.
Proof. unfold nothing_loaded. field_preorder. Qed.

Lemma nothing_loaded_evaluate_generate eval_data :
  preserves nothing_loaded (evaluate_generate eval_data true).
Proof.
  unfold evaluate_generate. unfold_primitives.
  preserves_auto fail ltac:(unfold nothing_loaded; field_leaf).
Qed.

(** C7.  In test mode ([is_valid] false, [load_best_model] true), when the
    checkpoint file to load (the given [model_file], or by default the best
    pointer [saved_model_filename + ".pth"]) is not a file, [evaluate]
    logs one error record and returns [None] without raising and without
    any other effect.  With [is_valid] true, whatever the other arguments,
    [evaluate] goes straight to the generation: it reads no checkpoint, and
    however it ends the parameters of the model, the log and the file
    system are unchanged. *)
Theorem evaluate_missing_checkpoint_returns_none (t : Trainer)
    (eval_data : DataLoader) (load_best_model : bool)
    (model_file : option string) :
  let checkpoint_file := py_or model_file (saved_model_filename t +:+ ".pth") in
  (isfile (fs t) checkpoint_file = false ->
   evaluate eval_data true model_file false t =
     Ok None
        (set_logger (logger t ++ [(ERROR, MsgEvaluateNotFound checkpoint_file)]) t))
  /\ evaluate eval_data load_best_model model_file true t =
       evaluate_generate eval_data true t
  /\ nothing_loaded t
       (final_state (evaluate eval_data load_best_model model_file true t)).
Proof.
  intros checkpoint_file. split; [ | split ].
  - intros Hmiss. unfold evaluate, bind, get; simpl.
    fold checkpoint_file. rewrite Hmiss. reflexivity.
  - reflexivity.
  - change (evaluate eval_data load_best_model model_file true t)
      with (evaluate_generate eval_data true t).
    apply nothing_loaded_evaluate_generate.
Qed.

End Evaluation.

(** ** The nested validation epoch *)

Section NestedValidation.

Context {Params : Type} {W : Collaborators Params}.
Local Abbreviation Trainer := (Trainer Params).
Local Abbreviation tracker_kept := (@tracker_kept Params).

#[local] Instance tracker_kept_preorder : PreOrder tracker_kept.
Proof.
  unfold tracker_kept. split; [ intros ?; reflexivity | intros ? ? ? ? ?; congruence ].
Qed.

Lemma tracker_kept__early_stopping b : preserves tracker_kept (_early_stopping b).
Proof.
  unfold _early_stopping.
  preserves_auto fail ltac:(unfold tracker_kept; reflexivity).
Qed.

Lemma tracker_kept_save_checkpoint : preserves tracker_kept save_checkpoint.
Proof.
  unfold save_checkpoint, _get_checkpoint. unfold_primitives.
  preserves_auto fail ltac:(unfold tracker_kept; reflexivity).
Qed.

(** Whenever [_valid] returns, the tracker's current mode and current
    epoch are those of the call. *)
Lemma _valid_current_restored (t : Trainer) vd mode flag t' :
  _valid vd mode t = Ok flag t' ->
  _current_mode (_summary_tracker t') = _current_mode (_summary_tracker t) /\
  _current_epoch (_summary_tracker t') = _current_epoch (_summary_tracker t).
Proof.
  intros H. unfold _valid in H.
  apply bind_Ok_inv in H as (t0 & t1 & Hget & H).
  unfold get in Hget. injection Hget as <- <-.
  destruct (_ || _).
  { injection H as <- <-. split; reflexivity. }
  apply bind_Ok_inv in H as (? & t2 & Hmod & H).
  unfold modify in Hmod. injection Hmod as _ <-.
  apply bind_Ok_inv in H as (t2' & t2'' & Hget & H).
  unfold get in Hget. injection Hget as <- <-.
  destruct (negb _).
  { injection H as <- <-. split; reflexivity. }
  apply bind_Ok_inv in H as (? & t3 & Hscope & H).
  apply bind_Ok_inv in H as (? & t4 & Hrestore & H).
  unfold on_tracker, modify in Hrestore. injection Hrestore as _ <-.
  match type of H with
  | ?rest _ = _ =>
      assert (preserves tracker_kept rest) as Hrest
  end.
  { unfold_primitives.
    preserves_auto
      ltac:(first [ apply tracker_kept__early_stopping
                  | apply tracker_kept_save_checkpoint ])
      ltac:(unfold tracker_kept; reflexivity). }
  match type of H with
  | _ ?t4 = _ => specialize (Hrest t4)
  end.
  rewrite H in Hrest. unfold tracker_kept in Hrest. simpl in Hrest.
  rewrite Hrest. split; reflexivity.
Qed.

End NestedValidation.

(** ** The ["paraphrase"] post-processing *)

Section Strings.

Lemma str_app_cons (c : ascii) (x y : string) :
  String c x +:+ y = String c (x +:+ y).
Proof. reflexivity. Qed.

Lemma str_app_nil (y : string) : "" +:+ y = y.
Proof. reflexivity. Qed.

Lemma str_length_app (x y : string) :
  String.length (x +:+ y) = (String.length x + String.length y)%nat.
Proof. induction x as [ | c x IH]; simpl; [ reflexivity | now rewrite IH ]. Qed.

Lemma str_skip_app (x y : string) : str_skip (String.length x) (x +:+ y) = y.
Proof. induction x as [ | c x IH]; simpl; [ now destruct y | exact IH ]. Qed.

Lemma str_skip_add (x y : string) (n : nat) :
  str_skip (String.length x + n) (x +:+ y) = str_skip n y.
Proof. induction x as [ | c x IH]; simpl; [ reflexivity | exact IH ]. Qed.

(** *** Searching for a separator *)

Lemma find_first_partition (sep s : string) :
  find_first sep s = (fun ab => String.length (fst ab)) <$> str_partition sep s.
Proof.
  induction s as [ | c s IH].
  - simpl. destruct (str_startswith sep ""); reflexivity.
  - simpl. destruct (str_startswith sep (String c s)); [ reflexivity | ].
    rewrite IH. destruct (str_partition sep s) as [[a b] | ]; reflexivity.
Qed.

Lemma str_find_none_partition (sep s : string) :
  str_find sep s = -1 -> str_partition sep s = None.
Proof.
  unfold str_find. rewrite find_first_partition.
  destruct (str_partition sep s) as [[a b] | ]; simpl; [ lia | reflexivity ].
Qed.

Lemma str_find_some_partition (sep s : string) :
  0 <= str_find sep s -> is_Some (str_partition sep s).
Proof.
  unfold str_find. rewrite find_first_partition.
  destruct (str_partition sep s) as [[a b] | ]; simpl; [ eauto | lia ].
Qed.

Lemma str_split_rounds_head (n : nat) (sep s : string) :
  head (str_split_rounds (S n) sep s) =
  Some (match str_partition sep s with
        | Some (m, _) => m
        | None => s
        end).
Proof.
  simpl. destruct (str_partition sep s) as [[a b] | ]; reflexivity.
Qed.

(** The second piece of a split is the text between the first separator
    and the next one, or the whole remainder when there is no next one. *)
Lemma str_split_second (sep s a b : string) :
  str_partition sep s = Some (a, b) ->
  (2 <= String.length s)%nat ->
  str_split sep s !! 1%nat =
  Some (match str_partition sep b with
        | Some (m, _) => m
        | None => b
        end).
Proof.
  intros Hp Hlen. unfold str_split.
  destruct (String.length s) as [ | [ | n]] eqn:E; [ lia | lia | ].
  cbn [str_split_rounds]. rewrite Hp.
  destruct (str_partition sep b) as [[m c] | ]; reflexivity.
Qed.

(** An occurrence of ["[SEP]"] cannot start inside a non-empty [u] and end
    inside a following ["[SEP]"]. *)
Lemma sep_no_straddle (u x : string) :
  u <> "" ->
  str_startswith "[SEP]" (u +:+ "[SEP]" +:+ x) = str_startswith "[SEP]" u.
Proof.
  destruct u as [ | c1 [ | c2 [ | c3 [ | c4 [ | c5 u]]]]];
    intros Hu; try congruence;
    rewrite ?str_app_cons, ?str_app_nil; cbn -[Ascii.eqb String.append];
    repeat (match goal with
            | |- context [Ascii.eqb ?a ?b] =>
                is_var b; destruct (Ascii.eqb a b)
            end; try reflexivity).
Qed.

Lemma str_partition_app (a x : string) :
  str_find "[SEP]" a = -1 ->
  str_partition "[SEP]" (a +:+ "[SEP]" +:+ x) = Some (a, x).
Proof.
  unfold str_find. induction a as [ | c a IH]; intros Hnone.
  - simpl. now destruct x.
  - change (String c a +:+ "[SEP]" +:+ x)
      with (String c (a +:+ "[SEP]" +:+ x)).
    cbn [str_partition].
    change (String c (a +:+ "[SEP]" +:+ x))
      with (String c a +:+ "[SEP]" +:+ x).
    rewrite sep_no_straddle by discriminate.
    cbn [find_first] in Hnone.
    destruct (str_startswith "[SEP]" (String c a)); [ simpl in Hnone; lia | ].
    rewrite IH; [ reflexivity | ].
    destruct (find_first "[SEP]" a); simpl in *; lia.
Qed.

Lemma str_partition_min_length (s a b : string) :
  str_partition "[SEP]" s = Some (a, b) -> (2 <= String.length s)%nat.
Proof.
  destruct s as [ | c1 [ | c2 s]]; cbn -[Ascii.eqb]; try discriminate; try lia.
  destruct (Ascii.eqb "[" c1); discriminate.
Qed.

(** The post-processing never fails. *)
Lemma paraphrase_total (gen : string) : is_Some (paraphrase gen).
Proof.
  unfold paraphrase. destruct (0 <=? str_find "[SEP]" gen) eqn:E; [ | eauto ].
  apply Z.leb_le, str_find_some_partition in E as [[a b] Hp].
  rewrite (str_split_second _ _ _ _ Hp (str_partition_min_length _ _ _ Hp)).
  simpl. eauto.
Qed.

(** *** Searching for a single character *)

Lemma find_first_char_app (c : ascii) (x y : string) :
  find_first (String c "") (x +:+ y) =
  match find_first (String c "") x with
  | Some i => Some i
  | None => (fun i => (String.length x + i)%nat) <$> find_first (String c "") y
  end.
Proof.
  induction x as [ | b x IH].
  - rewrite str_app_nil. simpl. destruct (find_first (String c "") y); reflexivity.
  - change (String b x +:+ y) with (String b (x +:+ y)).
    cbn [find_first str_startswith].
    destruct (Ascii.eqb c b); [ reflexivity | ].
    rewrite IH. destruct (find_first (String c "") x); [ reflexivity | ].
    destruct (find_first (String c "") y); reflexivity.
Qed.

Lemma find_last_char_app (c : ascii) (x y : string) :
  find_last (String c "") (x +:+ y) =
  match find_last (String c "") y with
  | Some i => Some (String.length x + i)%nat
  | None => find_last (String c "") x
  end.
Proof.
  induction x as [ | b x IH].
  - rewrite str_app_nil. simpl. destruct (find_last (String c "") y); reflexivity.
  - change (String b x +:+ y) with (String b (x +:+ y)).
    cbn [find_last str_startswith]. rewrite IH.
    destruct (find_last (String c "") y); [ reflexivity | ].
    reflexivity.
Qed.

Lemma find_last_char_bound (c : ascii) (x : string) (i : nat) :
  find_last (String c "") x = Some i -> (i < String.length x)%nat.
Proof.
  revert i. induction x as [ | b x IH]; intros i; simpl; [ discriminate | ].
  destruct (find_last (String c "") x) as [j | ].
  - intros [= <-]. specialize (IH j eq_refl). lia.
  - destruct (Ascii.eqb c b); [ intros [= <-]; lia | discriminate ].
Qed.

Lemma find_first_last_none (c : ascii) (x : string) :
  find_first (String c "") x = None -> find_last (String c "") x = None.
Proof.
  induction x as [ | b x IH]; simpl; [ reflexivity | ].
  destruct (Ascii.eqb c b); [ discriminate | ].
  destruct (find_first (String c "") x); [ discriminate | ].
  intros _. now rewrite IH.
Qed.

Lemma str_find_none (sub s : string) :
  str_find sub s = -1 -> find_first sub s = None.
Proof.
  unfold str_find. destruct (find_first sub s); simpl; [ lia | reflexivity ].
Qed.

Lemma slice_bound_inside (n : nat) (s : string) :
  (n <= String.length s)%nat -> slice_bound (Z.of_nat n) s = Z.of_nat n.
Proof.
  intros H. unfold slice_bound, str_len.
  destruct (Z.of_nat n <? 0) eqn:E; [ apply Z.ltb_lt in E | ]; lia.
Qed.

Lemma str_find_app_sep (a x : string) :
  str_find "[SEP]" a = -1 -> 0 <= str_find "[SEP]" (a +:+ "[SEP]" +:+ x).
Proof.
  intros Ha. unfold str_find.
  rewrite find_first_partition, (str_partition_app a x Ha). simpl. lia.
Qed.

(** The last parenthesis character of [pre ++ p ++ tail], where [p] is a
    parenthesis and [tail] has none, sits right after [pre]. *)
Lemma rfind_last_paren (pre tail : string) (p : ascii) :
  (p = "(" \/ p = ")")%char ->
  str_find "(" tail = -1 -> str_find ")" tail = -1 ->
  Z.max (str_rfind "(" (pre +:+ String p tail))
        (str_rfind ")" (pre +:+ String p tail))
  = Z.of_nat (String.length pre).
Proof.
  intros Hp Ho Hc. unfold str_rfind.
  rewrite !find_last_char_app. cbn [find_last].
  rewrite (find_first_last_none _ _ (str_find_none _ _ Ho)).
  rewrite (find_first_last_none _ _ (str_find_none _ _ Hc)).
  destruct Hp as [-> | ->]; cbn -[Z.of_nat Z.max].
  - destruct (find_last ")" pre) as [i | ] eqn:E; simpl.
    + apply find_last_char_bound in E. lia.
    + lia.
  - destruct (find_last "(" pre) as [i | ] eqn:E; simpl.
    + apply find_last_char_bound in E. lia.
    + lia.
Qed.

Lemma str_strip_leading_space (rest : string) :
  str_strip (" " +:+ rest) = str_strip rest.
Proof. reflexivity. Qed.

(** The fallback: the text after the first space that follows the last
    parenthesis character. *)
Lemma paraphrase_fallback (pre mid rest : string) (p : ascii) :
  let gen := pre +:+ String p (mid +:+ " " +:+ rest) in
  (p = "(" \/ p = ")")%char ->
  str_find "(" (mid +:+ " " +:+ rest) = -1 ->
  str_find ")" (mid +:+ " " +:+ rest) = -1 ->
  str_find " " mid = -1 ->
  str_find "[SEP]" gen = -1 ->
  paraphrase gen = Some (str_strip rest).
Proof.
  intros gen Hp Ho Hc Hsp Hsep. unfold paraphrase. rewrite Hsep.
  change (0 <=? -1) with false. cbv iota zeta.
  pose proof (rfind_last_paren pre _ p Hp Ho Hc) as Hlast.
  fold gen in Hlast. rewrite Hlast. clear Hlast.
  assert (String.length gen =
          (String.length pre + S (String.length mid + S (String.length rest)))%nat)
    as Hlen.
  { unfold gen. rewrite str_length_app. simpl.
    rewrite str_length_app. reflexivity. }
  assert (find_first " " (String p (mid +:+ " " +:+ rest))
          = Some (S (String.length mid + 0))) as Hfind.
  { cbn [find_first str_startswith].
    assert (Ascii.eqb " " p = false) as -> by (destruct Hp as [-> | ->]; reflexivity).
    rewrite find_first_char_app, (str_find_none _ _ Hsp). reflexivity. }
  unfold str_find_from, str_len. rewrite Hlen.
  destruct (_ <? _) eqn:E; [ apply Z.ltb_lt in E; lia | clear E ].
  rewrite slice_bound_inside by lia. rewrite Nat2Z.id.
  unfold gen at 1. rewrite str_skip_app, Hfind.
  rewrite <- Nat2Z.inj_add.
  unfold str_slice_from. rewrite slice_bound_inside by lia. rewrite Nat2Z.id.
  unfold gen. rewrite str_skip_add. cbn [str_skip].
  rewrite str_skip_add. cbn [str_skip].
  rewrite str_strip_leading_space. reflexivity.
Qed.

(** C9 (amended).  For a generated string with a ["[SEP]"], the
    ["paraphrase"] post-processing yields the stripped text between the
    first ["[SEP]"] and the next one, which is the whole text after the
    first ["[SEP]"] when there is no other.  For a string without
    ["[SEP]"] whose last parenthesis character is followed later by a
    space, it yields the stripped text after the first such space. *)
Theorem paraphrase_yields_text_between_separators :
  (forall a b : string,
      str_find "[SEP]" a = -1 -> str_find "[SEP]" b = -1 ->
      paraphrase (a +:+ "[SEP]" +:+ b) = Some (str_strip b)) /\
  (forall a b c : string,
      str_find "[SEP]" a = -1 -> str_find "[SEP]" b = -1 ->
      paraphrase (a +:+ "[SEP]" +:+ b +:+ "[SEP]" +:+ c) = Some (str_strip b)) /\
  (forall (pre mid rest : string) (p : ascii),
      let gen := pre +:+ String p (mid +:+ " " +:+ rest) in
      (p = "(" \/ p = ")")%char ->
      str_find "(" (mid +:+ " " +:+ rest) = -1 ->
      str_find ")" (mid +:+ " " +:+ rest) = -1 ->
      str_find " " mid = -1 ->
      str_find "[SEP]" gen = -1 ->
      paraphrase gen = Some (str_strip rest)).
Proof.
  split; [ | split ].
  - intros a b Ha Hb. unfold paraphrase.
    pose proof (str_find_app_sep a b Ha) as Hfound.
    apply Z.leb_le in Hfound. rewrite Hfound.
    pose proof (str_partition_app a b Ha) as Hp.
    rewrite (str_split_second _ _ _ _ Hp (str_partition_min_length _ _ _ Hp)).
    rewrite (str_find_none_partition _ _ Hb). reflexivity.
  - intros a b c Ha Hb. unfold paraphrase.
    pose proof (str_find_app_sep a (b +:+ "[SEP]" +:+ c) Ha) as Hfound.
    apply Z.leb_le in Hfound. rewrite Hfound.
    pose proof (str_partition_app a (b +:+ "[SEP]" +:+ c) Ha) as Hp.
    rewrite (str_split_second _ _ _ _ Hp (str_partition_min_length _ _ _ Hp)).
    rewrite (str_partition_app b c Hb). reflexivity.
  - exact paraphrase_fallback.
Qed.

End Strings.

(** ** A validation that runs returns *)

(** Unfolding of the monad operations, down to the first call that is not
    one of them. *)
Ltac monad_reduce := unfold bind, get, modify, ret, raise; cbv beta iota.
Ltac monad_reduce_in H :=
  unfold bind, get, modify, ret, raise in H; cbv beta iota in H.

Section ValidationReturns.

Context {Params : Type} {W : Collaborators Params}.
Local Abbreviation Trainer := (Trainer Params).

(** *** The tracker inside a validation epoch *)

Lemma tracker_new_step_valid (s : SummaryTracker) :
  _current_mode s = Some "valid" ->
  axes (tracker_new_step s) = axes s /\
  _current_mode (tracker_new_step s) = Some "valid" /\
  _current_epoch (tracker_new_step s) = _current_epoch s.
Proof.
  intros H. unfold tracker_new_step. rewrite H. simpl. auto.
Qed.

Lemma tracker_new_step_train (s : SummaryTracker) :
  _current_mode s = Some "train" ->
  train_step (axes (tracker_new_step s)) = train_step (axes s) + 1 /\
  _current_mode (tracker_new_step s) = Some "train".
Proof.
  intros H. unfold tracker_new_step. rewrite H. simpl. auto.
Qed.

Lemma tracker_append_loss_frame (v : Loss) (s : SummaryTracker) :
  axes (tracker_append_loss v s) = axes s /\
  _current_mode (tracker_append_loss v s) = _current_mode s /\
  (is_Some (_current_epoch s) -> is_Some (_current_epoch (tracker_append_loss v s))).
Proof.
  unfold tracker_append_loss. destruct (_current_epoch s) eqn:E; simpl; eauto.
  repeat split; auto. rewrite E. auto.
Qed.

Lemma tracker_set_metrics_results_frame (r : option Metrics) (s : SummaryTracker) :
  axes (tracker_set_metrics_results r s) = axes s /\
  _current_mode (tracker_set_metrics_results r s) = _current_mode s /\
  (is_Some (_current_epoch s) ->
   is_Some (_current_epoch (tracker_set_metrics_results r s))).
Proof.
  unfold tracker_set_metrics_results.
  destruct (_current_epoch s) eqn:E; simpl; eauto.
  repeat split; auto. rewrite E. auto.
Qed.

Lemma axes_epoch_end (score : EpochTracker -> Q) (s : SummaryTracker) :
  axes (epoch_end score s) = axes s.
Proof.
  unfold epoch_end.
  destruct (_current_mode s), (_current_epoch s); try reflexivity.
  destruct (String.eqb _ _); reflexivity.
Qed.

(** The loss loop of a validation only writes the tracker, and inside a
    validation epoch it leaves the axes alone. *)
Lemma valid_loss_loop_returns (data : list Batch) :
  forall (losses : Q) (t : Trainer),
    _current_mode (_summary_tracker t) = Some "valid" ->
    exists q s',
      valid_loss_loop data losses t = Ok q (set__summary_tracker s' t) /\
      axes s' = axes (_summary_tracker t) /\
      _current_mode s' = Some "valid" /\
      (is_Some (_current_epoch (_summary_tracker t)) ->
       is_Some (_current_epoch s')).
Proof.
  induction data as [ | b rest IH]; intros losses t Hmode.
  - exists losses, (_summary_tracker t). destruct t; simpl in *. auto.
  - cbn [valid_loss_loop].
    unfold new_step, append_loss, on_tracker, bind, modify, get.
    destruct (tracker_new_step_valid _ Hmode) as (Ha1 & Hm1 & He1).
    set (s1 := tracker_new_step (_summary_tracker t)) in *.
    set (l := model_forward _ b None).
    destruct (tracker_append_loss_frame l s1) as (Ha2 & Hm2 & He2).
    set (s2 := tracker_append_loss l s1) in *.
    destruct (IH (Qplus losses l)
                (set__summary_tracker s2 (set__summary_tracker s1 t)))
      as (q & s' & Heq & Ha & Hm & He).
    { simpl. congruence. }
    exists q, s'. split; [ exact Heq | ].
    simpl in Ha, He. repeat split; [ congruence | exact Hm | ].
    intros Hsome. apply He, He2. rewrite He1. exact Hsome.
Qed.

(** [evaluate] called from a validation returns metrics; it only puts the
    model in evaluation mode. *)
Lemma evaluate_valid_returns (eval_data : DataLoader) (load_best_model : bool)
    (model_file : option string) (t : Trainer) :
  exists r,
    evaluate eval_data load_best_model model_file true t =
    Ok (Some r)
       (set_model {| state_dict := state_dict (model t); training := false;
                     grads := grads (model t) |} t).
Proof.
  change (evaluate eval_data load_best_model model_file true t)
    with (evaluate_generate eval_data true t).
  unfold evaluate_generate, set_training, bind, modify, get, ret.
  cbn [state_dict model set_model post_processing config].
  destruct (String.eqb _ "paraphrase").
  - match goal with
    | |- context [mapM paraphrase ?l] =>
        destruct (mapM_is_Some_2 paraphrase l) as [l' ->]
    end.
    { apply Forall_forall. intros x _. apply paraphrase_total. }
    destruct (is_save _); eexists; reflexivity.
  - destruct (is_save _); eexists; reflexivity.
Qed.

(** The body of the validation scope returns when the result store is a
    dictionary: it adds the summary under the current validation epoch. *)
Lemma valid_epoch_body_returns (vd : DataLoader) (t : Trainer)
    (d : gmap Z EpochTracker) :
  _current_mode (_summary_tracker t) = Some "valid" ->
  is_Some (_current_epoch (_summary_tracker t)) ->
  valid_result_dict t = ResultDict d ->
  len vd <> 0 ->
  exists e s' m',
    valid_epoch_body vd t =
    Ok tt (set_valid_result_dict
             (ResultDict (<[valid_epoch (timestamp t) := e]> d))
             (set__summary_tracker s' (set_model m' t))) /\
    axes s' = axes (_summary_tracker t) /\
    _current_mode s' = Some "valid".
Proof.
  intros Hmode Hcur Hd Hlen.
  unfold valid_epoch_body, set_training, set_metrics_results, on_tracker,
    result_setitem.
  monad_reduce.
  destruct (bool_decide _).
  - monad_reduce.
    match goal with
    | |- context [valid_loss_loop ?l ?q ?t1] =>
        destruct (valid_loss_loop_returns l q t1 Hmode)
          as (q' & s1 & -> & Ha1 & Hm1 & He1)
    end.
    specialize (He1 Hcur).
    destruct (len vd =? 0) eqn:E; [ apply Z.eqb_eq in E; contradiction | ].
    monad_reduce. cbn [_summary_tracker set__summary_tracker].
    match goal with
    | |- context [tracker_set_metrics_results ?r s1] =>
        destruct (tracker_set_metrics_results_frame r s1) as (Ha2 & Hm2 & He2);
        set (s2 := tracker_set_metrics_results r s1) in *
    end.
    destruct (He2 He1) as [e He]. rewrite He.
    cbn [valid_result_dict set__summary_tracker set_model].
    rewrite Hd.
    eexists e, s2, _. split; [ | split ].
    + unfold timestamp. cbn [_summary_tracker set__summary_tracker].
      rewrite Ha2, Ha1. reflexivity.
    + simpl in Ha1. congruence.
    + congruence.
  - destruct (evaluate_valid_returns vd true None t) as [r Hr].
    rewrite Hr.
    cbn [_summary_tracker set__summary_tracker set_model].
    match goal with
    | |- context [tracker_set_metrics_results ?r ?s] =>
        destruct (tracker_set_metrics_results_frame r s) as (Ha2 & Hm2 & He2);
        set (s2 := tracker_set_metrics_results r s) in *
    end.
    destruct (He2 Hcur) as [e He]. rewrite He.
    cbn [valid_result_dict set__summary_tracker set_model].
    rewrite Hd.
    eexists e, s2, _. split; [ | split ].
    + unfold timestamp. cbn [_summary_tracker set__summary_tracker].
      rewrite Ha2. reflexivity.
    + exact Ha2.
    + congruence.
Qed.

Lemma valid_epoch_body_frame (vd : DataLoader) (t : Trainer)
    (d : gmap Z EpochTracker) :
  _current_mode (_summary_tracker t) = Some "valid" ->
  is_Some (_current_epoch (_summary_tracker t)) ->
  valid_result_dict t = ResultDict d ->
  len vd <> 0 ->
  exists e t',
    valid_epoch_body vd t = Ok tt t' /\
    config t' = config t /\
    optimizer t' = optimizer t /\
    stopped t' = stopped t /\
    is_local_main_process t' = is_local_main_process t /\
    axes (_summary_tracker t') = axes (_summary_tracker t) /\
    valid_result_dict t' = ResultDict (<[valid_epoch (timestamp t) := e]> d).
Proof.
  intros Hmode Hcur Hd Hlen.
  destruct (valid_epoch_body_returns vd t d Hmode Hcur Hd Hlen)
    as (e & s' & m' & Heq & Ha & _).
  eexists e, _. split; [ exact Heq | ]. simpl. auto 10.
Qed.

(** The transition of [_early_stopping]. *)
Lemma _early_stopping_eq (current_best : bool) (t : Trainer) :
  _early_stopping current_best t =
  Ok (negb current_best && (stopping_steps t <? stopping_count t + 1))
     (set_stopping_count (if current_best then 0 else stopping_count t + 1) t).
Proof. destruct current_best; reflexivity. Qed.

(** [save_checkpoint] returns when the result store is a dictionary that
    holds the current validation epoch. *)
Lemma save_checkpoint_returns (t : Trainer) (d : gmap Z EpochTracker) :
  valid_result_dict t = ResultDict d ->
  is_Some (d !! valid_epoch (timestamp t)) ->
  exists t',
    save_checkpoint t = Ok tt t' /\
    config t' = config t /\
    optimizer t' = optimizer t /\
    stopped t' = stopped t /\
    stopping_count t' = stopping_count t /\
    _summary_tracker t' = _summary_tracker t /\
    valid_result_dict t' = valid_result_dict t.
Proof.
  intros Hd [e He].
  unfold save_checkpoint, _get_checkpoint, result_len, result_getitem, log.
  monad_reduce. rewrite Hd.
  destruct (Z.of_nat (size d) =? 0) eqn:E.
  { apply Z.eqb_eq in E.
    assert (size d = 0%nat) as Hz by lia.
    apply map_size_empty_inv in Hz. subst d.
    rewrite lookup_empty in He. discriminate. }
  cbn [valid_result_dict set_logger]. rewrite Hd, He.
  eexists. split; [ reflexivity | ]. simpl. auto 10.
Qed.

(** When the result store is a dictionary and the validation loader is
    not empty, [_valid] returns.  It leaves the configuration, the
    optimizer, the stop flag, the train step and the tracker's current
    mode as they were, and the result store is still a dictionary. *)
Lemma _valid_returns (vd : DataLoader) (mode : string) (t : Trainer)
    (d : gmap Z EpochTracker) :
  valid_result_dict t = ResultDict d ->
  len vd <> 0 ->
  exists flag t',
    _valid vd mode t = Ok flag t' /\
    config t' = config t /\
    optimizer t' = optimizer t /\
    stopped t' = stopped t /\
    train_step (timestamp t') = train_step (timestamp t) /\
    _current_mode (_summary_tracker t') = _current_mode (_summary_tracker t) /\
    exists d', valid_result_dict t' = ResultDict d'.
Proof.
  intros Hd Hlen.
  unfold _valid, on_tracker, set_training. monad_reduce.
  destruct (_ || _).
  { exists false, t. repeat split; eauto. }
  destruct (negb _).
  { eexists false, _. split; [ reflexivity | ]. repeat split; eauto. }
  unfold new_epoch.
  match goal with
  | |- context [valid_epoch_body vd ?x] => set (t1 := x)
  end.
  destruct (valid_epoch_body_frame vd t1 d)
    as (e & t2 & Heq & Hc2 & Ho2 & Hs2 & Hp2 & Ha2 & Hd2);
    [ reflexivity | simpl; eauto | exact Hd | exact Hlen | ].
  rewrite Heq. cbv beta iota.
  match goal with
  | |- context [truthy (stopping_steps ?x)] => set (t3 := x)
  end.
  assert (config t3 = config t) as Hc3 by (simpl; rewrite Hc2; reflexivity).
  assert (optimizer t3 = optimizer t) as Ho3 by (simpl; rewrite Ho2; reflexivity).
  assert (stopped t3 = stopped t) as Hs3 by (simpl; rewrite Hs2; reflexivity).
  assert (train_step (timestamp t3) = train_step (timestamp t)) as Ht3.
  { unfold timestamp. simpl. rewrite axes_epoch_end, Ha2. reflexivity. }
  assert (_current_mode (_summary_tracker t3) = _current_mode (_summary_tracker t))
    as Hm3 by reflexivity.
  assert (valid_result_dict t3 =
          ResultDict (<[valid_epoch (timestamp t3) := e]> d)) as Hd3.
  { simpl. rewrite Hd2. unfold timestamp. simpl.
    rewrite axes_epoch_end, Ha2. reflexivity. }
  assert (is_local_main_process t3 = is_local_main_process t1) as Hp3
      by (simpl; rewrite Hp2; reflexivity).
  clearbody t3. clear Heq.
  assert (forall t4,
             _summary_tracker t4 = _summary_tracker t3 ->
             valid_result_dict t4 = valid_result_dict t3 ->
             exists t5,
               (if is_save t3 then save_checkpoint
                else fun t0 : Trainer => Ok tt t0) t4 = Ok tt t5 /\
               config t5 = config t4 /\ optimizer t5 = optimizer t4 /\
               stopped t5 = stopped t4 /\
               _summary_tracker t5 = _summary_tracker t4 /\
               valid_result_dict t5 = valid_result_dict t4) as Hsave.
  { intros t4 Ht4 Hd4. destruct (is_save t3).
    - destruct (save_checkpoint_returns t4 (<[valid_epoch (timestamp t3) := e]> d))
        as (t5 & Hsave & Hc5 & Ho5 & Hs5 & _ & Ht5 & Hd5).
      + congruence.
      + unfold timestamp. rewrite Ht4. fold (timestamp t3).
        rewrite lookup_insert_eq. eauto.
      + exists t5. auto 10.
    - exists t4. auto 10. }
  destruct (truthy (stopping_steps t3)).
  - rewrite _early_stopping_eq. cbv beta iota.
    match goal with
    | |- context [(if is_save t3 then _ else _) ?x] =>
        destruct (Hsave x) as (t5 & -> & Hc5 & Ho5 & Hs5 & Ht5 & Hd5)
    end; [ reflexivity | reflexivity | ].
    eexists _, t5. split; [ reflexivity | ].
    unfold timestamp in *. rewrite Hc5, Ho5, Hs5, Ht5, Hd5. simpl.
    repeat split; eauto.
  - destruct (Hsave t3) as (t5 & -> & Hc5 & Ho5 & Hs5 & Ht5 & Hd5);
      [ reflexivity | reflexivity | ].
    eexists _, t5. split; [ reflexivity | ].
    unfold timestamp in *. rewrite Hc5, Ho5, Hs5, Ht5, Hd5.
    repeat split; eauto.
Qed.

End ValidationReturns.

(** ** Gradient accumulation: optimizer updates per epoch *)

Section Accumulation.

Context {Params : Type} {W : Collaborators Params}.
Local Abbreviation Trainer := (Trainer Params).

(** *** Arithmetic of accumulation groups *)

Lemma ceil_div_floor (i k : Z) :
  0 < k -> 0 <= i -> ceil_div (i + 1) k = i / k + 1.
Proof.
  intros Hk Hi. unfold ceil_div.
  replace (i + 1 + k - 1) with (i + 1 * k) by lia.
  apply Z.div_add. lia.
Qed.

Lemma ceil_div_succ (i k : Z) :
  0 < k -> 0 <= i ->
  ceil_div (i + 1) k = ceil_div i k + (if i mod k =? 0 then 1 else 0).
Proof.
  intros Hk Hi. rewrite ceil_div_floor by assumption. unfold ceil_div.
  pose proof (Z.div_mod i k ltac:(lia)) as Hdm.
  pose proof (Z.mod_pos_bound i k Hk) as Hb.
  destruct (i mod k =? 0) eqn:E.
  - apply Z.eqb_eq in E.
    rewrite <- (Z.div_unique (i + k - 1) k (i / k) (k - 1)); lia.
  - apply Z.eqb_neq in E.
    rewrite <- (Z.div_unique (i + k - 1) k (i / k + 1) (i mod k - 1)); lia.
Qed.

Lemma floor_div_succ (i k : Z) :
  0 < k -> 0 <= i ->
  (i + 1) / k = i / k + (if (i + 1) mod k =? 0 then 1 else 0).
Proof.
  intros Hk Hi.
  pose proof (Z.div_mod (i + 1) k ltac:(lia)) as Hdm.
  pose proof (Z.mod_pos_bound (i + 1) k Hk) as Hb.
  destruct ((i + 1) mod k =? 0) eqn:E.
  - apply Z.eqb_eq in E.
    rewrite <- (Z.div_unique i k ((i + 1) / k - 1) (k - 1)); lia.
  - apply Z.eqb_neq in E.
    rewrite <- (Z.div_unique i k ((i + 1) / k) ((i + 1) mod k - 1)); lia.
Qed.

Lemma ceil_div_0 (k : Z) : 0 < k -> ceil_div 0 k = 0.
Proof.
  intros Hk. unfold ceil_div. apply Z.div_small. lia.
Qed.

(** *** The blocks of the loop body *)

Lemma open_step_returns (step : Z) (t : Trainer) :
  accumulation_steps t <> 0 ->
  _current_mode (_summary_tracker t) = Some "train" ->
  exists b t',
    open_step step t = Ok b t' /\
    config t' = config t /\
    optimizer t' = optimizer t /\
    valid_result_dict t' = valid_result_dict t /\
    _current_mode (_summary_tracker t') = Some "train" /\
    train_step (timestamp t') =
      train_step (timestamp t) +
      (if step mod accumulation_steps t =? 0 then 1 else 0) /\
    stopped t' = stopped t || b.
Proof.
  intros Hk Hmode.
  unfold open_step, py_mod, new_step, on_tracker. monad_reduce.
  destruct (accumulation_steps t =? 0) eqn:E; [ apply Z.eqb_eq in E; contradiction | ].
  destruct (step mod accumulation_steps t =? 0).
  - destruct (tracker_new_step_train _ Hmode) as (Hts & Hm).
    destruct (_ =? max_steps _);
      (eexists _, _; split; [ reflexivity | ]);
      unfold timestamp; simpl; rewrite ?orb_true_r, ?orb_false_r; auto 10.
  - exists false, t. rewrite orb_false_r, Z.add_0_r. auto 10.
Qed.

Lemma micro_batch_returns (b : Batch) (epoch_idx : Z) (t : Trainer) :
  exists t',
    micro_batch b epoch_idx t = Ok tt t' /\
    config t' = config t /\
    optimizer t' = optimizer t /\
    valid_result_dict t' = valid_result_dict t /\
    stopped t' = stopped t /\
    _current_mode (_summary_tracker t') = _current_mode (_summary_tracker t) /\
    train_step (timestamp t') = train_step (timestamp t).
Proof.
  unfold micro_batch, append_loss, backward, on_tracker. monad_reduce.
  eexists. split; [ reflexivity | ].
  unfold timestamp. simpl.
  match goal with
  | |- context [tracker_append_loss ?v ?s] =>
      destruct (tracker_append_loss_frame v s) as (-> & -> & _)
  end.
  auto 10.
Qed.

Lemma update_and_validate_returns (valid_data : option DataLoader)
    (t : Trainer) (d : gmap Z EpochTracker) :
  valid_result_dict t = ResultDict d ->
  exists t',
    update_and_validate valid_data t = Ok tt t' /\
    config t' = config t /\
    opt_steps (optimizer t') = opt_steps (optimizer t) + 1 /\
    _current_mode (_summary_tracker t') = _current_mode (_summary_tracker t) /\
    train_step (timestamp t') = train_step (timestamp t) /\
    exists d', valid_result_dict t' = ResultDict d'.
Proof.
  intros Hd.
  unfold update_and_validate, clip, optimizer_step, zero_grad. monad_reduce.
  destruct (grad_clip t); cbv beta iota.
  all: destruct valid_data as [vd | ];
    [ destruct (loader_truthy (Some vd)) eqn:Etruthy | ].
  all: try (eexists; split; [ reflexivity | ];
            unfold timestamp; simpl; rewrite Hd; eauto 10).
  all: match goal with
       | |- context [_valid ?v "step" ?x] =>
           destruct (_valid_returns v "step" x d)
             as (flag & t2 & -> & Hc2 & Ho2 & Hs2 & Hts2 & Hm2 & d' & Hd2)
       end;
    [ exact Hd
    | simpl in Etruthy; destruct (len _ =? 0) eqn:E; [ discriminate | ];
      apply Z.eqb_neq in E; exact E
    | eexists; split; [ reflexivity | ];
      unfold timestamp in *; simpl in *;
      rewrite Hc2, Ho2, Hm2, Hts2; eauto 10 ].
Qed.

(** *** The loop *)

(** From step [step] on, the loop returns; if it ends with the stop flag
    clear, it has opened one tracker step per accumulation group that
    starts at or after [step] and has updated the optimizer once per group
    that ends after [step]. *)
Lemma train_loop_counts (train_len epoch_idx : Z)
    (valid_data : option DataLoader) (data : list Batch) :
  forall (step : Z) (t : Trainer) (d : gmap Z EpochTracker),
    0 < accumulation_steps t ->
    0 <= step ->
    train_len = step + Z.of_nat (length data) ->
    valid_result_dict t = ResultDict d ->
    _current_mode (_summary_tracker t) = Some "train" ->
    stopped t = false ->
    exists t',
      train_loop train_len epoch_idx valid_data step data t = Ok tt t' /\
      config t' = config t /\
      (stopped t' = false ->
       train_step (timestamp t') =
         train_step (timestamp t) +
         (ceil_div train_len (accumulation_steps t)
          - ceil_div step (accumulation_steps t)) /\
       opt_steps (optimizer t') =
         opt_steps (optimizer t) +
         match data with
         | [] => 0
         | _ => ceil_div train_len (accumulation_steps t)
                - step / accumulation_steps t
         end).
Proof.
  induction data as [ | b rest IH]; intros step t d Hk Hstep Hlen Hd Hmode Hstop.
  - exists t. split; [ reflexivity | ]. split; [ reflexivity | ].
    intros _. simpl in Hlen. replace train_len with step by lia. lia.
  - cbn [train_loop]. unfold py_mod. monad_reduce.
    destruct (open_step_returns step t ltac:(lia) Hmode)
      as (br & t1 & -> & Hc1 & Ho1 & Hd1 & Hm1 & Hts1 & Hs1).
    destruct br.
    { exists t1. split; [ reflexivity | ]. split; [ exact Hc1 | ].
      rewrite Hs1, orb_true_r. discriminate. }
    rewrite orb_false_r in Hs1.
    destruct (micro_batch_returns b epoch_idx t1)
      as (t2 & -> & Hc2 & Ho2 & Hd2 & Hs2 & Hm2 & Hts2).
    assert (accumulation_steps t2 = accumulation_steps t) as Hk2
        by (unfold accumulation_steps; congruence).
    rewrite Hk2.
    set (k := accumulation_steps t) in *.
    destruct (k =? 0) eqn:E; [ apply Z.eqb_eq in E; lia | clear E ].
    cbn [length] in Hlen. rewrite Nat2Z.inj_succ in Hlen.
    pose proof (ceil_div_succ step k Hk Hstep) as Hceil.
    pose proof (floor_div_succ step k Hk Hstep) as Hfloor.
    pose proof (ceil_div_floor step k Hk Hstep) as Hlast.
    destruct ((step + 1) mod k =? 0) eqn:Emod;
      [ | destruct (step + 1 =? train_len) eqn:Eend ]; cbn [orb].
    1, 2:
      destruct (update_and_validate_returns valid_data t2 d ltac:(congruence))
        as (t3 & -> & Hc3 & Ho3 & Hm3 & Hts3 & d3 & Hd3);
      destruct (stopped t3) eqn:Hs3;
      [ exists t3; split; [ reflexivity | ]; split; [ congruence | ];
        congruence
      | destruct (IH (step + 1) t3 d3) as (t' & -> & Hc & Hcount);
        [ unfold accumulation_steps; rewrite Hc3, Hc2, Hc1; exact Hk
        | lia | lia | exact Hd3 | congruence | exact Hs3 | ];
        exists t'; split; [ reflexivity | ]; split; [ congruence | ];
        intros Hfinal; destruct (Hcount Hfinal) as (Hts & Hos);
        assert (accumulation_steps t3 = k) as Hk3
            by (unfold k, accumulation_steps; congruence);
        rewrite Hk3 in Hts, Hos;
        rewrite Hts, Hos, Hts3, Hts2, Hts1, Ho3, Ho2, Ho1 ].
    + split; [ lia | ].
      destruct rest; cbn [length] in Hlen; cbv beta iota in *;
        [ replace train_len with (step + 1) in * by lia | ]; lia.
    + apply Z.eqb_eq in Eend. split; [ lia | ].
      destruct rest; cbn [length] in Hlen; cbv beta iota in *; [ | lia ].
      rewrite <- Eend in *. lia.
    + apply Z.eqb_neq in Eend.
      destruct (IH (step + 1) t2 d) as (t' & -> & Hc & Hcount);
        [ rewrite Hk2; exact Hk | lia | lia | congruence | congruence
        | congruence | ].
      exists t'. split; [ reflexivity | ]. split; [ congruence | ].
      intros Hfinal. destruct (Hcount Hfinal) as (Hts & Hos).
      rewrite Hk2 in Hts, Hos. rewrite Hts, Hos, Hts2, Hts1, Ho2, Ho1.
      split; [ lia | ].
      destruct rest; cbn [length] in Hlen; cbv beta iota in *; lia.
Qed.

(** C2.  Let [k] be a positive [accumulation_steps] and [L] the length of
    the train loader.  One call of [_train_epoch], entered with the stop
    flag clear and with the result store a dictionary, returns; and if the
    epoch ends with the stop flag still clear (no stop by validation and
    no stop by the step budget), the optimizer has been stepped exactly
    [ceil(L/k)] times and [train_step] has advanced by exactly
    [ceil(L/k)]: once per accumulation group, not once per micro-batch. *)
Theorem train_epoch_steps_optimizer_once_per_group (t : Trainer)
    (train_data : DataLoader) (epoch_idx : Z)
    (valid_data : option DataLoader) (d : gmap Z EpochTracker) :
  0 < accumulation_steps t ->
  valid_result_dict t = ResultDict d ->
  stopped t = false ->
  exists r t',
    _train_epoch train_data epoch_idx valid_data t = Ok r t' /\
    (stopped t' = false ->
     opt_steps (optimizer t') =
       opt_steps (optimizer t) + ceil_div (len train_data) (accumulation_steps t) /\
     train_step (timestamp t') =
       train_step (timestamp t) + ceil_div (len train_data) (accumulation_steps t)).
Proof.
  intros Hk Hd Hstop.
  unfold _train_epoch, set_training, new_epoch. monad_reduce.
  match goal with
  | |- context [train_loop _ _ _ 0 _ ?x] => set (t0 := x)
  end.
  assert (accumulation_steps t0 = accumulation_steps t) as Hk0 by reflexivity.
  assert (optimizer t0 = optimizer t) as Ho0 by reflexivity.
  assert (train_step (timestamp t0) = train_step (timestamp t)) as Hts0
      by reflexivity.
  assert (valid_result_dict t0 = ResultDict d) as Hd0 by exact Hd.
  assert (_current_mode (_summary_tracker t0) = Some "train") as Hm0
      by reflexivity.
  assert (stopped t0 = false) as Hs0 by exact Hstop.
  clearbody t0.
  destruct (train_loop_counts (len train_data) epoch_idx valid_data
              (batches train_data) 0 t0 d)
    as (t1 & -> & Hc & Hcount);
    [ lia | lia | unfold len; lia | exact Hd0 | exact Hm0 | exact Hs0 | ].
  eexists _, _. split; [ reflexivity | ].
  cbn [stopped set__summary_tracker]. intros Hfinal.
  destruct (Hcount Hfinal) as (Hts & Hos).
  unfold timestamp in *.
  cbn [optimizer _summary_tracker set__summary_tracker].
  rewrite axes_epoch_end, Hts, Hos, Hk0, Ho0, Hts0.
  pose proof (ceil_div_0 _ Hk) as Hzero.
  assert (accumulation_steps t <> 0) as Hne. { lia. }
  pose proof (Z.div_0_l (accumulation_steps t) Hne) as Hdiv.
  split; [ | lia ].
  destruct (batches train_data) eqn:E; [ | lia ].
  unfold len. rewrite E. cbn [length]. rewrite Nat2Z.inj_0. lia.
Qed.

End Accumulation.

(** ** Early stopping *)

Section EarlyStopping.

Context {Params : Type} {W : Collaborators Params}.
Local Abbreviation Trainer := (Trainer Params).
Local Abbreviation stopping_kept := (@stopping_kept Params).
Local Abbreviation verdict_kept := (@verdict_kept Params).

#[local] Instance stopping_kept_preorder : PreOrder stopping_kept.
Proof. unfold stopping_kept. field_preorder. Qed.

Ltac stopping_leaf := unfold stopping_kept; field_leaf.

Lemma stopping_kept_valid_loss_loop data :
  forall losses, preserves stopping_kept (valid_loss_loop data losses).
Proof.
  induction data as [ | b rest IH]; intros losses; simpl.
  - apply preserves_ret; apply _.
  - unfold_primitives.
    preserves_auto ltac:(apply IH) stopping_leaf.
Qed.

Lemma stopping_kept_evaluate ed lb mf :
  preserves stopping_kept (evaluate ed lb mf true).
Proof.
  change (evaluate ed lb mf true) with (evaluate_generate ed true).
  unfold evaluate_generate. unfold_primitives.
  preserves_auto fail stopping_leaf.
Qed.

Lemma stopping_kept_valid_scope vd :
  preserves stopping_kept (new_epoch "valid" (valid_epoch_body vd)).
Proof.
  unfold valid_epoch_body. unfold_primitives.
  preserves_auto
    ltac:(first [ apply stopping_kept_valid_loss_loop
                | apply stopping_kept_evaluate ])
    stopping_leaf.
Qed.

#[local] Instance verdict_kept_preorder : PreOrder verdict_kept.
Proof. unfold verdict_kept. field_preorder. Qed.

Lemma verdict_kept_save_checkpoint : preserves verdict_kept save_checkpoint.
Proof.
  unfold save_checkpoint, _get_checkpoint. unfold_primitives.
  preserves_auto fail ltac:(unfold verdict_kept; field_leaf).
Qed.

(** What a call of [_valid] that returns has done to the stopping counter,
    and the flag it returns. *)
Lemma _valid_stopping (t : Trainer) vd mode flag t' :
  truthy (stopping_steps t) = true ->
  _valid vd mode t = Ok flag t' ->
  if validation_due mode t then
    let best := is_best_valid (_summary_tracker t') in
    stopping_count t' = (if best then 0 else stopping_count t + 1) /\
    flag = negb best && (stopping_steps t <? stopping_count t + 1)
  else
    stopping_count t' = stopping_count t /\ flag = false.
Proof.
  intros Hs H. unfold validation_due. unfold _valid in H.
  apply bind_Ok_inv in H as (t0 & t1 & Hget & H).
  unfold get in Hget. injection Hget as <- <-.
  destruct (_ || _).
  { injection H as <- <-. split; reflexivity. }
  apply bind_Ok_inv in H as (? & t2 & Hmod & H).
  unfold modify in Hmod. injection Hmod as _ <-.
  apply bind_Ok_inv in H as (t2' & t2'' & Hget & H).
  unfold get in Hget. injection Hget as <- <-.
  cbn [negb andb _valid_count set__valid_count] in *.
  change (valid_steps (set__valid_count _ t)) with (valid_steps t) in H.
  destruct (_ =? 0).
  2: { injection H as <- <-. split; reflexivity. }
  cbn [negb] in H.
  apply bind_Ok_inv in H as (? & t3 & Hscope & H).
  pose proof (stopping_kept_valid_scope vd
                (set__valid_count (_valid_count t + 1) t)) as Hkept.
  rewrite Hscope in Hkept. destruct Hkept as (Hc3 & Hn3).
  cbn [final_state config stopping_count set__valid_count] in Hc3, Hn3.
  apply bind_Ok_inv in H as (? & t4 & Hrestore & H).
  unfold on_tracker, modify in Hrestore. injection Hrestore as _ <-.
  apply bind_Ok_inv in H as (? & t5 & Htrain & H).
  unfold set_training, modify in Htrain.
  assert (config t5 = config t /\ stopping_count t5 = stopping_count t)
    as (Hc5 & Hn5).
  { injection Htrain as _ <-. simpl. split; congruence. }
  clear Htrain Hscope.
  apply bind_Ok_inv in H as (t5' & t5'' & Hget & H).
  unfold get in Hget. injection Hget as <- <-.
  assert (stopping_steps t5 = stopping_steps t) as Hs5
      by (unfold stopping_steps; congruence).
  rewrite Hs5, Hs in H.
  apply bind_Ok_inv in H as (f & t6 & Hes & H).
  rewrite _early_stopping_eq in Hes. injection Hes as <- <-.
  apply bind_Ok_inv in H as (? & t7 & Hsave & H).
  injection H as <- <-.
  assert (preserves verdict_kept
            (if is_save t5 then save_checkpoint else ret tt)) as Hv.
  { destruct (is_save t5);
      [ apply verdict_kept_save_checkpoint | apply preserves_ret; apply _ ]. }
  match type of Hsave with
  | _ ?x = _ => specialize (Hv x)
  end.
  rewrite Hsave in Hv. destruct Hv as (Ht7 & Hn7).
  cbn [final_state _summary_tracker stopping_count set_stopping_count]
    in Ht7, Hn7.
  cbv zeta. rewrite Ht7, Hn7, Hs5, Hn5. split; reflexivity.
Qed.

(** *** The counter is the stopping streak *)

Lemma streak_snoc (history : list bool) (best : bool) :
  streak (history ++ [best]) = if best then 0 else streak history + 1.
Proof.
  unfold streak. rewrite rev_app_distr. simpl.
  destruct best; [ reflexivity | lia ].
Qed.

Lemma streak_nonneg (history : list bool) : 0 <= streak history.
Proof.
  unfold streak. induction (rev history) as [ | [ | ] l IH]; simpl; lia.
Qed.

(** After a history whose streak is the value of the counter, a further
    sequence of validations leaves the counter at the streak of the whole
    history, and the flag of each validation tells whether the streak at
    that validation exceeds the threshold. *)
Lemma early_stopping_run_streak (outcomes : list bool) :
  forall (history : list bool) (t : Trainer),
    0 < stopping_steps t ->
    stopping_count t = streak history ->
    exists flags t',
      early_stopping_run outcomes t = Ok flags t' /\
      config t' = config t /\
      stopping_count t' = streak (history ++ outcomes) /\
      length flags = length outcomes /\
      forall n : nat,
        (n < length outcomes)%nat ->
        flags !! n =
        Some (stopping_steps t <? streak (history ++ take (S n) outcomes)).
Proof.
  induction outcomes as [ | best rest IH]; intros history t Hs Hcount.
  - exists [], t. rewrite app_nil_r. simpl. repeat split; auto. lia.
  - cbn [early_stopping_run]. monad_reduce. rewrite _early_stopping_eq.
    destruct (IH (history ++ [best])
                (set_stopping_count
                   (if best then 0 else stopping_count t + 1) t))
      as (flags & t' & -> & Hc & Hn & Hlen & Hflags).
    + exact Hs.
    + rewrite streak_snoc, Hcount. reflexivity.
    + eexists _, t'. split; [ reflexivity | ].
      rewrite <- app_assoc in Hn. cbn [app] in Hn.
      repeat split; [ exact Hc | exact Hn | simpl; lia | ].
      intros [ | n] Hlt.
      * change ((?f :: flags) !! 0%nat) with (Some f).
        cbn [take]. rewrite streak_snoc, Hcount.
        pose proof (streak_nonneg history).
        destruct best; cbn [negb andb]; f_equal.
        symmetry. apply Z.ltb_ge. lia.
      * change ((?f :: flags) !! S n) with (flags !! n).
        cbn [length] in Hlt.
        rewrite (Hflags n ltac:(lia)).
        rewrite <- app_assoc. reflexivity.
Qed.


End EarlyStopping.

(** ** The swap and restore of the tracker's current epoch *)

Section SwapAndRestore.

Context {Params : Type} {W : Collaborators Params}.
Local Abbreviation Trainer := (Trainer Params).

(** C5.  After every call of [_valid] that returns, and so after every
    call that has run a nested validation epoch, the tracker's current
    mode and current epoch (the accumulator of the enclosing training
    epoch) are exactly those of the moment of the call.  Such a call does
    return whenever the result store is a dictionary and the validation
    loader is not empty. *)
Theorem valid_restores_current_mode_and_epoch (t : Trainer)
    (valid_data : DataLoader) (valid_mode : string) :
  (forall flag t',
      _valid valid_data valid_mode t = Ok flag t' ->
      _current_mode (_summary_tracker t') = _current_mode (_summary_tracker t) /\
      _current_epoch (_summary_tracker t') = _current_epoch (_summary_tracker t))
  /\
  (forall d,
      valid_result_dict t = ResultDict d ->
      len valid_data <> 0 ->
      exists flag t', _valid valid_data valid_mode t = Ok flag t').
Proof.
  split.
  - intros flag t' H. exact (_valid_current_restored t _ _ _ _ H).
  - intros d Hd Hlen.
    destruct (_valid_returns valid_data valid_mode t d Hd Hlen)
      as (flag & t' & Heq & _).
    eauto.
Qed.

End SwapAndRestore.

(** ** Checkpoints: saving and resuming *)

Section Checkpoints.

Context {Params : Type} {W : Collaborators Params}.
Local Abbreviation Trainer := (Trainer Params).

(** What [_get_checkpoint] puts in the record it returns. *)
Lemma _get_checkpoint_record (t t1 : Trainer) (c : Checkpoint Params) :
  _get_checkpoint t = Ok (Some c) t1 ->
  exists d e,
    valid_result_dict t = ResultDict d /\
    d !! valid_epoch (timestamp t) = Some e /\
    ck_summary c = e /\
    ck_epoch c = train_epoch (timestamp t) /\
    ck_stopping_count c = stopping_count t /\
    ck_best_valid_score c = best_valid_score (_summary_tracker t).
Proof.
  unfold _get_checkpoint, result_len, result_getitem, log. monad_reduce.
  destruct (valid_result_dict t) as [d | e] eqn:Hd; [ | discriminate ].
  destruct (Z.of_nat (size d) =? 0); [ discriminate | ].
  cbn [valid_result_dict set_logger]. rewrite Hd.
  destruct (d !! valid_epoch (timestamp t)) as [e | ] eqn:He; [ | discriminate ].
  intros [= <- <-]. exists d, e. simpl. auto 10.
Qed.

(** Resuming from a file that holds the record of [_get_checkpoint]
    returns.  It restores the start epoch, the stopping counter and the
    best score, and it binds to [valid_result_dict] the one summary of the
    record, not the dictionary the trainer had when the record was made. *)
Lemma resume_checkpoint_after_get_checkpoint (t t1 t0 : Trainer)
    (c : Checkpoint Params) (resume_file : string) :
  _get_checkpoint t = Ok (Some c) t1 ->
  fs t0 !! resume_file = Some (CheckpointFile c) ->
  exists t',
    resume_checkpoint resume_file t0 = Ok tt t' /\
    start_epoch t' = train_epoch (timestamp t) + 1 /\
    stopping_count t' = stopping_count t /\
    best_valid_score (_summary_tracker t') = best_valid_score (_summary_tracker t) /\
    valid_result_dict t' = ResultSummary (ck_summary c) /\
    valid_result_dict t' <> valid_result_dict t.
Proof.
  intros Hget Hfile.
  destruct (_get_checkpoint_record t t1 c Hget)
    as (d & e & Hd & He & Hsum & Hep & Hsc & Hbs).
  unfold resume_checkpoint, torch_load, load_state_dict, on_tracker, log.
  monad_reduce.
  assert (forall l, resolve (fs (set_logger l t0)) resume_file
                    = Some (CheckpointFile c)) as Hres
      by (intros l; unfold resolve; cbn [fs set_logger]; rewrite Hfile;
          reflexivity).
  unfold isfile. rewrite !Hres.
  rewrite bool_decide_eq_true_2 by eauto. cbv beta iota.
  rewrite Hres. cbv beta iota.
  repeat match goal with
         | |- context [if negb ?b then _ else _] => destruct (negb b)
         end;
    (eexists; split; [ reflexivity | ]);
    simpl; rewrite Hep, Hsc, Hbs, Hd; repeat split; congruence.
Qed.

End Checkpoints.

(** ** The epoch loop of [fit] *)

Lemma preserves_Ok {Params A} (R : relation (Trainer Params)) (m : @M Params A)
    (t : Trainer Params) (a : A) (t' : Trainer Params) :
  preserves R m -> m t = Ok a t' -> R t t'.
Proof. intros Hm H. specialize (Hm t). rewrite H in Hm. exact Hm. Qed.

Section Fit.

Context {Params : Type} {W : Collaborators Params}.
Local Abbreviation Trainer := (Trainer Params).
Local Abbreviation results_kept := (@results_kept Params).

(** *** The step budget *)

(** A trainer constructed with a non-zero [max_steps] has the float
    [1e10] as its epoch bound, and [fit] raises [TypeError] at
    [range(self.start_epoch, self.epochs)] before the first epoch. *)
Lemma fit_with_max_steps_raises (c : Config) (m : Model Params)
    (tracker : SummaryTracker) (main : bool) (files : gmap string (File Params))
    (train_data : DataLoader) (valid_data : option DataLoader) :
  cfg_max_steps c <> 0 ->
  let t := __init__ c m tracker main files in
  epochs t = PyFloat 10000000000 /\
  fit train_data valid_data t =
    Raise TypeError (set_logger (logger t ++ [(INFO, MsgStartTraining)]) t).
Proof.
  intros Hmax t.
  assert (epochs t = PyFloat 10000000000) as He.
  { unfold t, __init__, truthy. cbn [epochs].
    destruct (cfg_max_steps c =? 0) eqn:E; [ apply Z.eqb_eq in E; contradiction | ].
    reflexivity. }
  split; [ exact He | ].
  unfold fit, log, py_range. monad_reduce.
  cbn [epochs set_logger]. rewrite He. reflexivity.
Qed.

(** When the step budget is reached on the first micro-batch of a group,
    the loop ends there: the stop flag is set, and no loss has been
    computed or recorded and no update applied for that group. *)
Lemma train_loop_breaks_at_budget (train_len epoch_idx : Z)
    (valid_data : option DataLoader) (step : Z) (b : Batch)
    (rest : list Batch) (t : Trainer) :
  accumulation_steps t <> 0 ->
  step mod accumulation_steps t = 0 ->
  _current_mode (_summary_tracker t) = Some "train" ->
  train_step (timestamp t) + 1 = max_steps t ->
  exists t',
    train_loop train_len epoch_idx valid_data step (b :: rest) t = Ok tt t' /\
    stopped t' = true /\
    train_step (timestamp t') = max_steps t /\
    model t' = model t /\
    optimizer t' = optimizer t /\
    _current_epoch (_summary_tracker t') = _current_epoch (_summary_tracker t).
Proof.
  intros Hk Hmod Hmode Hbudget.
  cbn [train_loop]. unfold open_step, py_mod, new_step, on_tracker.
  monad_reduce.
  destruct (accumulation_steps t =? 0) eqn:E; [ apply Z.eqb_eq in E; contradiction | ].
  rewrite Hmod. cbn [Z.eqb].
  destruct (tracker_new_step_train _ Hmode) as (Hts & _).
  unfold timestamp in *. cbn [_summary_tracker set__summary_tracker].
  change (max_steps (set__summary_tracker _ t)) with (max_steps t).
  rewrite Hts, Hbudget, Z.eqb_refl.
  eexists. split; [ reflexivity | ].
  cbn [stopped set_stopped _summary_tracker set__summary_tracker model optimizer].
  rewrite Hts, Hbudget.
  repeat split.
  unfold tracker_new_step. rewrite Hmode. reflexivity.
Qed.

(** *** Runs without validation *)

#[local] Instance results_kept_preorder : PreOrder results_kept.
Proof.
  unfold results_kept.
  split; [ intros ?; reflexivity | intros ? ? ? ? ?; congruence ].
Qed.

Ltac results_leaf := unfold results_kept; reflexivity.

Lemma results_kept_metrics_getitem key d :
  preserves results_kept (metrics_getitem key d).
Proof.
  induction d as [ | [k v] d IH]; simpl.
  - apply preserves_raise; apply _.
  - destruct (String.eqb k key); [ apply preserves_ret; apply _ | exact IH ].
Qed.

Lemma results_kept_train_loop train_len epoch_idx vd data :
  loader_truthy vd = false ->
  forall step, preserves results_kept (train_loop train_len epoch_idx vd step data).
Proof.
  intros Hf. induction data as [ | b rest IH]; intros step; simpl.
  - apply preserves_ret; apply _.
  - unfold open_step, micro_batch, update_and_validate. rewrite Hf.
    unfold_primitives.
    preserves_auto ltac:(apply IH) results_leaf.
Qed.

Lemma results_kept_fit_loop td vd indices :
  loader_truthy vd = false ->
  preserves results_kept (fit_loop td vd indices).
Proof.
  intros Hf. induction indices as [ | i rest IH]; simpl.
  - apply preserves_ret; apply _.
  - unfold _train_epoch. rewrite Hf. unfold_primitives.
    preserves_auto
      ltac:(first [ apply results_kept_metrics_getitem
                  | apply results_kept_train_loop; exact Hf
                  | apply IH ])
      results_leaf.
Qed.

(** A run of [fit] without validation data, on a trainer that has not
    validated yet, never returns a result: [self.best_valid_result] looks
    up an empty dictionary. *)
Lemma fit_without_validation_raises (t : Trainer) (train_data : DataLoader)
    (valid_data : option DataLoader) :
  loader_truthy valid_data = false ->
  valid_result_dict t = ResultDict ∅ ->
  exists e t', fit train_data valid_data t = Raise e t'.
Proof.
  intros Hf Hd.
  destruct (fit train_data valid_data t) as [r t' | e t'] eqn:H; [ | eauto ].
  exfalso. unfold fit in H.
  apply bind_Ok_inv in H as (? & t1 & H1 & H).
  apply bind_Ok_inv in H as (? & t2 & H2 & H).
  apply bind_Ok_inv in H as (idx & t3 & H3 & H).
  apply bind_Ok_inv in H as (? & t4 & H4 & H).
  apply bind_Ok_inv in H as (? & t5 & H5 & H).
  apply bind_Ok_inv in H as (? & t6 & H6 & H).
  apply bind_Ok_inv in H as (? & t7 & H7 & H).
  apply bind_Ok_inv in H as (best & t8 & H8 & _).
  assert (results_kept t t7) as Hkept.
  { etransitivity; [ | eapply preserves_Ok; [ | exact H7 ] ].
    etransitivity; [ | eapply preserves_Ok; [ | exact H6 ] ].
    etransitivity; [ | eapply preserves_Ok; [ | exact H5 ] ].
    etransitivity; [ | eapply preserves_Ok; [ | exact H4 ] ].
    etransitivity; [ | eapply preserves_Ok; [ | exact H3 ] ].
    etransitivity; [ | eapply preserves_Ok; [ | exact H2 ] ].
    eapply preserves_Ok; [ | exact H1 ].
    all: try (apply results_kept_fit_loop; exact Hf).
    all: unfold_primitives; preserves_auto fail results_leaf. }
  unfold results_kept in Hkept.
  unfold best_valid_result, result_getitem in H8. monad_reduce_in H8.
  rewrite Hkept, Hd, lookup_empty in H8. discriminate.
Qed.

End Fit.

(** * Further properties of the trainer *)

(** ** Invariants of computations in [M] *)

Section InvariantRules.

Context {Params : Type} {W : Collaborators Params}.
Local Abbreviation Trainer := (Trainer Params).
Local Abbreviation M := (@M Params).

Context (I : Trainer -> Prop).

Lemma invariant_ret {A} (a : A) : invariant I (ret a).
Proof. intros t Ht. exact Ht. Qed.

Lemma invariant_raise {A} (e : exn) : invariant I (raise (A := A) e).
Proof. intros t Ht. exact Ht. Qed.

Lemma invariant_modify (f : Trainer -> Trainer) :
  (forall t, I t -> I (f t)) -> invariant I (modify f).
Proof. intros Hf t Ht. apply Hf, Ht. Qed.

Lemma invariant_bind {A B} (m : M A) (k : A -> M B) :
  invariant I m -> (forall a, invariant I (k a)) -> invariant I (bind m k).
Proof.
  intros Hm Hk t Ht. unfold bind.
  specialize (Hm t Ht). destruct (m t) as [a t1 | e t1]; simpl in *.
  - apply Hk, Hm.
  - exact Hm.
Qed.

(** The state read by [get] satisfies the invariant. *)
Lemma invariant_get_bind {B} (k : Trainer -> M B) :
  (forall a, I a -> invariant I (k a)) -> invariant I (bind get k).
Proof. intros Hk t Ht. unfold bind, get. apply (Hk t Ht t Ht). Qed.

Lemma invariant_new_epoch {A} (mode : string) (body : M A) :
  (forall s t, I t -> I (set__summary_tracker s t)) ->
  invariant I body -> invariant I (new_epoch mode body).
Proof.
  intros Hs Hb t Ht. unfold new_epoch.
  set (t0 := set__summary_tracker (epoch_start mode (_summary_tracker t)) t).
  assert (I t0) as H0 by (apply Hs, Ht).
  specialize (Hb t0 H0).
  destruct (body t0) as [a t1 | e t1]; simpl in *; apply Hs, Hb.
Qed.

Lemma invariant_Ok {A} (m : M A) (t : Trainer) (a : A) (t' : Trainer) :
  invariant I m -> I t -> m t = Ok a t' -> I t'.
Proof. intros Hm Ht H. specialize (Hm t Ht). rewrite H in Hm. exact Hm. Qed.

End InvariantRules.

(** Two continuations that agree after every normal return of [m] give the
    same final state. *)
Lemma final_state_bind_congr {Params A B} (m : @M Params A)
    (k k' : A -> @M Params B) (t : Trainer Params) :
  (forall a t1, m t = Ok a t1 -> final_state (k a t1) = final_state (k' a t1)) ->
  final_state (bind m k t) = final_state (bind m k' t).
Proof.
  intros H. unfold bind. destruct (m t) as [a t1 | e t1]; [ | reflexivity ].
  apply H. reflexivity.
Qed.

(** Decomposition of a computation along its binds and branches.  [known]
    closes or rewrites the calls and guards that need the invariant of a
    state read earlier; [leaf] proves that a state update keeps the
    invariant. *)
Ltac invariant_step known leaf :=
  first
    [ known
    | lazymatch goal with
      | |- invariant _ (bind get _) =>
          apply invariant_get_bind; intros ? ?
      | |- invariant _ (bind _ _) => apply invariant_bind; [ | intros ? ]
      | |- invariant _ (ret _) => apply invariant_ret
      | |- invariant _ get => intros ? ?; assumption
      | |- invariant _ (raise _) => apply invariant_raise
      | |- invariant _ (modify _) => apply invariant_modify; intros ? ?; leaf
      | |- invariant _ (new_epoch _ _) =>
          apply invariant_new_epoch; [ intros ? ? ?; leaf | ]
      | |- invariant _ (if ?b then _ else _) => destruct b
      | |- invariant _ (match ?x with _ => _ end) => destruct x
      | |- invariant _ (let x := _ in _) => cbv zeta
      end ].

Ltac invariant_auto known leaf := repeat (invariant_step known leaf).

(** ** The designated writer *)

Section DesignatedWriter.

Context {Params : Type} {W : Collaborators Params}.
Local Abbreviation Trainer := (Trainer Params).

Implicit Types files : gmap string (File Params).

Ltac idle_leaf :=
  idtac;
  match goal with
  | H : writer_idle _ _ |- _ => destruct H; split; simpl; assumption
  end.

(** A guard [if self.is_save():] read from an idle state is false. *)
Ltac idle_guard :=
  idtac;
  match goal with
  | H : writer_idle _ ?a |- invariant _ (if is_save ?a then _ else _) =>
      let E := fresh in
      assert (is_save a = false) as E by (destruct H; assumption);
      rewrite E
  end.

Lemma writer_idle_metrics_getitem files key d :
  invariant (writer_idle files) (metrics_getitem key d).
Proof.
  induction d as [ | [k v] d IH]; simpl.
  - apply invariant_raise.
  - destruct (String.eqb k key); [ apply invariant_ret | exact IH ].
Qed.

Lemma writer_idle_valid_loss_loop files data :
  forall losses, invariant (writer_idle files) (valid_loss_loop data losses).
Proof.
  induction data as [ | b rest IH]; intros losses; simpl.
  - apply invariant_ret.
  - unfold_primitives. invariant_auto ltac:(apply IH) idle_leaf.
Qed.

Lemma writer_idle_evaluate files ed lb mf is_valid :
  invariant (writer_idle files) (evaluate ed lb mf is_valid).
Proof.
  unfold evaluate, evaluate_generate. unfold_primitives.
  invariant_auto idle_guard idle_leaf.
Qed.

Lemma writer_idle__valid files vd mode :
  invariant (writer_idle files) (_valid vd mode).
Proof.
  unfold _valid, valid_epoch_body, save_checkpoint, _get_checkpoint,
    _early_stopping.
  unfold_primitives.
  invariant_auto
    ltac:(first [ idle_guard
                | apply writer_idle_valid_loss_loop
                | apply writer_idle_evaluate ])
    idle_leaf.
Qed.

Lemma writer_idle_train_loop files train_len epoch_idx vd data :
  forall step,
    invariant (writer_idle files) (train_loop train_len epoch_idx vd step data).
Proof.
  induction data as [ | b rest IH]; intros step; simpl.
  - apply invariant_ret.
  - unfold open_step, micro_batch, update_and_validate. unfold_primitives.
    invariant_auto
      ltac:(first [ apply writer_idle__valid | apply IH ]) idle_leaf.
Qed.

Lemma writer_idle_fit_loop files td vd indices :
  invariant (writer_idle files) (fit_loop td vd indices).
Proof.
  induction indices as [ | i rest IH]; simpl.
  - apply invariant_ret.
  - unfold _train_epoch. unfold_primitives.
    invariant_auto
      ltac:(first [ apply writer_idle__valid
                  | apply writer_idle_train_loop
                  | apply writer_idle_metrics_getitem
                  | apply IH ])
      idle_leaf.
Qed.

Lemma writer_idle_fit files td vd : invariant (writer_idle files) (fit td vd).
Proof.
  unfold fit. unfold_primitives.
  invariant_auto ltac:(apply writer_idle_fit_loop) idle_leaf.
Qed.

Lemma writer_idle_resume_checkpoint files resume_file :
  invariant (writer_idle files) (resume_checkpoint resume_file).
Proof.
  unfold resume_checkpoint. unfold_primitives.
  invariant_auto fail idle_leaf.
Qed.

(** X1.  A process that is not the local main process never writes: after
    [fit], after [evaluate] in either mode and after [resume_checkpoint],
    whether they return or raise, the file system is the one they found. *)
Theorem non_main_process_never_writes (t : Trainer) :
  is_local_main_process t = false ->
  (forall train_data valid_data,
      fs (final_state (fit train_data valid_data t)) = fs t) /\
  (forall eval_data load_best_model model_file is_valid,
      fs (final_state (evaluate eval_data load_best_model model_file is_valid t))
      = fs t) /\
  (forall resume_file,
      fs (final_state (resume_checkpoint resume_file t)) = fs t).
Proof.
  intros Hmain.
  assert (writer_idle (fs t) t) as Hidle by (split; [ exact Hmain | reflexivity ]).
  split; [ | split ].
  - intros td vd. apply (writer_idle_fit (fs t) td vd t Hidle).
  - intros ed lb mf iv. apply (writer_idle_evaluate (fs t) ed lb mf iv t Hidle).
  - intros f. apply (writer_idle_resume_checkpoint (fs t) f t Hidle).
Qed.

End DesignatedWriter.

(** ** The stop flag *)

Section StopFlag.

Context {Params : Type} {W : Collaborators Params}.
Local Abbreviation Trainer := (Trainer Params).
Local Abbreviation stop_requested := (@stop_requested Params).

Ltac stop_leaf :=
  idtac;
  unfold stop_requested in *; simpl;
  first
    [ assumption
    | reflexivity
    | match goal with
      | H : stopped ?a = true |- context [stopped ?a] =>
          rewrite H; reflexivity
      end ].

Lemma stop_requested_metrics_getitem key d :
  invariant stop_requested (metrics_getitem key d).
Proof.
  induction d as [ | [k v] d IH]; simpl.
  - apply invariant_raise.
  - destruct (String.eqb k key); [ apply invariant_ret | exact IH ].
Qed.

Lemma stop_requested_valid_loss_loop data :
  forall losses, invariant stop_requested (valid_loss_loop data losses).
Proof.
  induction data as [ | b rest IH]; intros losses; simpl.
  - apply invariant_ret.
  - unfold_primitives. invariant_auto ltac:(apply IH) stop_leaf.
Qed.

Lemma stop_requested__valid vd mode :
  invariant stop_requested (_valid vd mode).
Proof.
  unfold _valid, valid_epoch_body, evaluate, evaluate_generate,
    save_checkpoint, _get_checkpoint, _early_stopping.
  unfold_primitives.
  invariant_auto ltac:(apply stop_requested_valid_loss_loop) stop_leaf.
Qed.

Lemma stop_requested_train_loop train_len epoch_idx vd data :
  forall step,
    invariant stop_requested (train_loop train_len epoch_idx vd step data).
Proof.
  induction data as [ | b rest IH]; intros step; simpl.
  - apply invariant_ret.
  - unfold open_step, micro_batch, update_and_validate. unfold_primitives.
    invariant_auto
      ltac:(first [ apply stop_requested__valid | apply IH ]) stop_leaf.
Qed.

Lemma stop_requested__train_epoch td epoch_idx vd :
  invariant stop_requested (_train_epoch td epoch_idx vd).
Proof.
  unfold _train_epoch. unfold_primitives.
  invariant_auto ltac:(apply stop_requested_train_loop) stop_leaf.
Qed.

Lemma stop_requested_fit_loop td vd indices :
  invariant stop_requested (fit_loop td vd indices).
Proof.
  induction indices as [ | i rest IH]; simpl.
  - apply invariant_ret.
  - unfold_primitives.
    invariant_auto
      ltac:(first [ apply stop_requested__valid
                  | apply stop_requested__train_epoch
                  | apply stop_requested_metrics_getitem
                  | apply IH ])
      stop_leaf.
Qed.

Lemma stop_requested_fit td vd : invariant stop_requested (fit td vd).
Proof.
  unfold fit. unfold_primitives.
  invariant_auto ltac:(apply stop_requested_fit_loop) stop_leaf.
Qed.

(** The first epoch of [fit_loop] on a trainer that is already stopped is
    the last one. *)
Lemma fit_loop_stopped_one_epoch td vd i rest (t : Trainer) :
  stopped t = true ->
  final_state (fit_loop td vd (i :: rest) t) =
  final_state (fit_loop td vd [i] t).
Proof.
  intros Hs. cbn [fit_loop].
  apply final_state_bind_congr; intros d t1 H1.
  apply (invariant_Ok _ _ _ _ _ (stop_requested__train_epoch td i vd) Hs) in H1.
  apply final_state_bind_congr; intros l t2 H2.
  apply (invariant_Ok _ _ _ _ _ (stop_requested_metrics_getitem "loss" d) H1)
    in H2.
  apply final_state_bind_congr; intros [] t3 H3.
  unfold modify in H3. injection H3 as <-.
  apply final_state_bind_congr; intros [] t4 H4.
  match type of H4 with
  | ?validate _ = _ =>
      assert (invariant stop_requested validate) as Hv
        by invariant_auto ltac:(apply stop_requested__valid) stop_leaf
  end.
  apply (invariant_Ok _ _ _ _ _ Hv) in H4; [ | exact H2 ].
  unfold stop_requested in H4. unfold bind, get. rewrite H4. reflexivity.
Qed.

(** X2.  [fit] never clears the stop flag: on a trainer whose flag is set
    (by an earlier early stop or by the step budget) every epoch and every
    call of [fit] leaves it set, however they end, and the epoch loop of
    [fit] ends after its first epoch whatever the number of epochs left. *)
Theorem stop_flag_is_never_cleared (t : Trainer) :
  stopped t = true ->
  (forall train_data valid_data,
      stopped (final_state (fit train_data valid_data t)) = true) /\
  (forall train_data epoch_idx valid_data,
      stopped (final_state (_train_epoch train_data epoch_idx valid_data t))
      = true) /\
  (forall train_data valid_data epoch_idx rest,
      final_state (fit_loop train_data valid_data (epoch_idx :: rest) t) =
      final_state (fit_loop train_data valid_data [epoch_idx] t)).
Proof.
  intros Hs. split; [ | split ].
  - intros td vd. apply (stop_requested_fit td vd t Hs).
  - intros td i vd. apply (stop_requested__train_epoch td i vd t Hs).
  - intros td vd i rest. apply fit_loop_stopped_one_epoch, Hs.
Qed.

End StopFlag.

(** ** Early stopping switched off *)

Section EarlyStoppingOff.

Context {Params : Type} {W : Collaborators Params}.
Local Abbreviation Trainer := (Trainer Params).
Local Abbreviation stopping_off := (@stopping_off Params).
Local Abbreviation stopping_kept := (@stopping_kept Params).

Ltac off_leaf :=
  idtac;
  match goal with
  | H : stopping_off _ _ |- _ =>
      unfold stopping_off, stopping_steps in *; destruct H; split; simpl;
      assumption
  end.

(** A guard [if self.stopping_steps:] read from such a state is false. *)
Ltac off_guard :=
  idtac;
  match goal with
  | H : stopping_off _ ?a
    |- invariant _ (bind (if truthy (stopping_steps ?a) then _ else _) _) =>
      let E := fresh in
      assert (truthy (stopping_steps a) = false) as E
          by (destruct H as [E _]; rewrite E; reflexivity);
      rewrite E
  end.

Lemma stopping_off_metrics_getitem n key d :
  invariant (stopping_off n) (metrics_getitem key d).
Proof.
  induction d as [ | [k v] d IH]; simpl.
  - apply invariant_raise.
  - destruct (String.eqb k key); [ apply invariant_ret | exact IH ].
Qed.

Lemma stopping_off_valid_loss_loop n data :
  forall losses, invariant (stopping_off n) (valid_loss_loop data losses).
Proof.
  induction data as [ | b rest IH]; intros losses; simpl.
  - apply invariant_ret.
  - unfold_primitives. invariant_auto ltac:(apply IH) off_leaf.
Qed.

Lemma stopping_off__valid n vd mode :
  invariant (stopping_off n) (_valid vd mode).
Proof.
  unfold _valid, valid_epoch_body, evaluate, evaluate_generate,
    save_checkpoint, _get_checkpoint.
  unfold_primitives.
  invariant_auto
    ltac:(first [ off_guard | apply stopping_off_valid_loss_loop ]) off_leaf.
Qed.

Lemma stopping_off_train_loop n train_len epoch_idx vd data :
  forall step,
    invariant (stopping_off n) (train_loop train_len epoch_idx vd step data).
Proof.
  induction data as [ | b rest IH]; intros step; simpl.
  - apply invariant_ret.
  - unfold open_step, micro_batch, update_and_validate. unfold_primitives.
    invariant_auto
      ltac:(first [ apply stopping_off__valid | apply IH ]) off_leaf.
Qed.

Lemma stopping_off_fit_loop n td vd indices :
  invariant (stopping_off n) (fit_loop td vd indices).
Proof.
  induction indices as [ | i rest IH]; simpl.
  - apply invariant_ret.
  - unfold _train_epoch. unfold_primitives.
    invariant_auto
      ltac:(first [ apply stopping_off__valid
                  | apply stopping_off_train_loop
                  | apply stopping_off_metrics_getitem
                  | apply IH ])
      off_leaf.
Qed.

Lemma stopping_off_fit n td vd : invariant (stopping_off n) (fit td vd).
Proof.
  unfold fit. unfold_primitives.
  invariant_auto ltac:(apply stopping_off_fit_loop) off_leaf.
Qed.

Lemma _valid_flag_off (t : Trainer) vd mode flag t' :
  stopping_steps t = 0 -> _valid vd mode t = Ok flag t' -> flag = false.
Proof.
  intros Hs H. unfold _valid in H.
  apply bind_Ok_inv in H as (t0 & t1 & Hget & H).
  unfold get in Hget. injection Hget as <- <-.
  destruct (_ || _).
  { injection H as <- _. reflexivity. }
  apply bind_Ok_inv in H as (? & t2 & Hmod & H).
  unfold modify in Hmod. injection Hmod as _ <-.
  apply bind_Ok_inv in H as (t2' & t2'' & Hget & H).
  unfold get in Hget. injection Hget as <- <-.
  destruct (negb _).
  { injection H as <- _. reflexivity. }
  apply bind_Ok_inv in H as (? & t3 & Hscope & H).
  pose proof (stopping_kept_valid_scope vd
                (set__valid_count (_valid_count t + 1) t)) as Hkept.
  rewrite Hscope in Hkept. destruct Hkept as (Hc3 & _).
  cbn [final_state config set__valid_count] in Hc3.
  apply bind_Ok_inv in H as (? & t4 & Hrestore & H).
  unfold on_tracker, modify in Hrestore. injection Hrestore as _ <-.
  apply bind_Ok_inv in H as (? & t5 & Htrain & H).
  unfold set_training, modify in Htrain.
  assert (config t5 = config t) as Hc5.
  { injection Htrain as _ <-. simpl. congruence. }
  clear Htrain Hscope.
  apply bind_Ok_inv in H as (t5' & t5'' & Hget & H).
  unfold get in Hget. injection Hget as <- <-.
  assert (truthy (stopping_steps t5) = false) as Hs5.
  { unfold stopping_steps in *. rewrite Hc5, Hs. reflexivity. }
  rewrite Hs5 in H.
  apply bind_Ok_inv in H as (f & t6 & Hes & H).
  unfold ret in Hes. injection Hes as <- <-.
  apply bind_Ok_inv in H as (? & t7 & _ & H).
  injection H as <- _. reflexivity.
Qed.

(** X3.  With [stopping_steps = 0] early stopping is off: every call of
    [_valid] that returns reports no stop, and [fit], however it ends,
    leaves the stopping counter at the value it found. *)
Theorem stopping_steps_zero_disables_early_stopping (t : Trainer) :
  stopping_steps t = 0 ->
  (forall valid_data valid_mode flag t',
      _valid valid_data valid_mode t = Ok flag t' -> flag = false) /\
  (forall train_data valid_data,
      stopping_count (final_state (fit train_data valid_data t)) =
      stopping_count t).
Proof.
  intros Hs. split.
  - intros vd mode flag t'. apply _valid_flag_off, Hs.
  - intros td vd.
    assert (stopping_off (stopping_count t) t) as Hoff
        by (split; [ exact Hs | reflexivity ]).
    apply (stopping_off_fit _ td vd t Hoff).
Qed.

End EarlyStoppingOff.

(** ** Validation does not train *)

Section ValidationDoesNotTrain.

Context {Params : Type} {W : Collaborators Params}.
Local Abbreviation Trainer := (Trainer Params).
Local Abbreviation not_trained := (@not_trained Params).
Local Abbreviation model_kept := (@model_kept Params).

#[local] Instance not_trained_preorder : PreOrder not_trained.
Proof. unfold not_trained. field_preorder. Qed.

#[local] Instance model_kept_preorder : PreOrder model_kept.
Proof.
  unfold model_kept. split; [ intros ?; reflexivity | intros ? ? ? ? ?; congruence ].
Qed.

Ltac not_trained_leaf := unfold not_trained; field_leaf.

Lemma not_trained_valid_loss_loop data :
  forall losses, preserves not_trained (valid_loss_loop data losses).
Proof.
  induction data as [ | b rest IH]; intros losses; simpl.
  - apply preserves_ret; apply _.
  - unfold_primitives. preserves_auto ltac:(apply IH) not_trained_leaf.
Qed.

Lemma not_trained__valid vd mode : preserves not_trained (_valid vd mode).
Proof.
  unfold _valid, valid_epoch_body.
  change (evaluate vd true None true) with (evaluate_generate vd true).
  unfold evaluate_generate, save_checkpoint, _get_checkpoint, _early_stopping.
  unfold_primitives.
  preserves_auto ltac:(apply not_trained_valid_loss_loop) not_trained_leaf.
Qed.

Lemma model_kept_after_validation (t : Trainer) :
  preserves model_kept
    (stopped <~
       (if truthy (stopping_steps t)
        then _early_stopping (is_best_valid (_summary_tracker t))
        else ret false);;
     (if is_save t then save_checkpoint else ret tt);;;
     ret stopped).
Proof.
  unfold save_checkpoint, _get_checkpoint, _early_stopping.
  unfold_primitives.
  preserves_auto fail ltac:(unfold model_kept; reflexivity).
Qed.

Lemma _valid_training_mode (t : Trainer) vd mode flag t' :
  _valid vd mode t = Ok flag t' ->
  training (model t') =
    (if validation_due mode t then true else training (model t)).
Proof.
  intros H. unfold validation_due. unfold _valid in H.
  apply bind_Ok_inv in H as (t0 & t1 & Hget & H).
  unfold get in Hget. injection Hget as <- <-.
  destruct (_ || _).
  { injection H as _ <-. reflexivity. }
  apply bind_Ok_inv in H as (? & t2 & Hmod & H).
  unfold modify in Hmod. injection Hmod as _ <-.
  apply bind_Ok_inv in H as (t2' & t2'' & Hget & H).
  unfold get in Hget. injection Hget as <- <-.
  cbn [negb andb _valid_count set__valid_count] in *.
  change (valid_steps (set__valid_count _ t)) with (valid_steps t) in H.
  destruct (_ =? 0).
  2: { injection H as _ <-. reflexivity. }
  cbn [negb] in H.
  apply bind_Ok_inv in H as (? & t3 & _ & H).
  apply bind_Ok_inv in H as (? & t4 & Hrestore & H).
  unfold on_tracker, modify in Hrestore. injection Hrestore as _ <-.
  apply bind_Ok_inv in H as (? & t5 & Htrain & H).
  unfold set_training, modify in Htrain.
  assert (training (model t5) = true) as Hm5
      by (injection Htrain as _ <-; reflexivity).
  clear Htrain.
  apply bind_Ok_inv in H as (t5' & t5'' & Hget & H).
  unfold get in Hget. injection Hget as <- <-.
  pose proof (model_kept_after_validation t5 t5) as Hk.
  rewrite H in Hk. unfold model_kept in Hk. cbn [final_state] in Hk.
  rewrite Hk. exact Hm5.
Qed.

(** X4.  Validation does not train: however [_valid] ends, the parameters
    of the model, the accumulated gradients and the optimizer are those it
    found.  When it returns, the model is in training mode if a validation
    epoch was due, and in the mode it was in otherwise. *)
Theorem valid_leaves_parameters_and_restores_training_mode (t : Trainer)
    (valid_data : DataLoader) (valid_mode : string) :
  not_trained t (final_state (_valid valid_data valid_mode t)) /\
  (forall flag t',
      _valid valid_data valid_mode t = Ok flag t' ->
      training (model t') =
        (if validation_due valid_mode t then true else training (model t))).
Proof.
  split.
  - apply not_trained__valid.
  - intros flag t'. apply _valid_training_mode.
Qed.

End ValidationDoesNotTrain.

(** ** The attributes fixed at construction *)

Section Settings.

Context {Params : Type} {W : Collaborators Params}.
Local Abbreviation Trainer := (Trainer Params).
Local Abbreviation settings_kept := (@settings_kept Params).

#[local] Instance settings_kept_preorder : PreOrder settings_kept.
Proof. unfold settings_kept. field_preorder. Qed.

Ltac settings_leaf := unfold settings_kept; field_leaf.

Lemma settings_kept_metrics_getitem key d :
  preserves settings_kept (metrics_getitem key d).
Proof.
  induction d as [ | [k v] d IH]; simpl.
  - apply preserves_raise; apply _.
  - destruct (String.eqb k key); [ apply preserves_ret; apply _ | exact IH ].
Qed.

Lemma settings_kept_valid_loss_loop data :
  forall losses, preserves settings_kept (valid_loss_loop data losses).
Proof.
  induction data as [ | b rest IH]; intros losses; simpl.
  - apply preserves_ret; apply _.
  - unfold_primitives. preserves_auto ltac:(apply IH) settings_leaf.
Qed.

Lemma settings_kept_evaluate ed lb mf is_valid :
  preserves settings_kept (evaluate ed lb mf is_valid).
Proof.
  unfold evaluate, evaluate_generate. unfold_primitives.
  preserves_auto fail settings_leaf.
Qed.

Lemma settings_kept__valid vd mode : preserves settings_kept (_valid vd mode).
Proof.
  unfold _valid, valid_epoch_body, save_checkpoint, _get_checkpoint,
    _early_stopping.
  unfold_primitives.
  preserves_auto
    ltac:(first [ apply settings_kept_valid_loss_loop
                | apply settings_kept_evaluate ])
    settings_leaf.
Qed.

Lemma settings_kept_train_loop train_len epoch_idx vd data :
  forall step,
    preserves settings_kept (train_loop train_len epoch_idx vd step data).
Proof.
  induction data as [ | b rest IH]; intros step; simpl.
  - apply preserves_ret; apply _.
  - unfold open_step, micro_batch, update_and_validate. unfold_primitives.
    preserves_auto
      ltac:(first [ apply settings_kept__valid | apply IH ]) settings_leaf.
Qed.

Lemma settings_kept_fit_loop td vd indices :
  preserves settings_kept (fit_loop td vd indices).
Proof.
  induction indices as [ | i rest IH]; simpl.
  - apply preserves_ret; apply _.
  - unfold _train_epoch. unfold_primitives.
    preserves_auto
      ltac:(first [ apply settings_kept__valid
                  | apply settings_kept_train_loop
                  | apply settings_kept_metrics_getitem
                  | apply IH ])
      settings_leaf.
Qed.

Lemma settings_kept_fit td vd : preserves settings_kept (fit td vd).
Proof.
  unfold fit. unfold_primitives.
  preserves_auto ltac:(apply settings_kept_fit_loop) settings_leaf.
Qed.

Lemma settings_kept_resume_checkpoint resume_file :
  preserves settings_kept (resume_checkpoint resume_file).
Proof.
  unfold resume_checkpoint. unfold_primitives.
  preserves_auto fail settings_leaf.
Qed.

(** X5.  The rotation bound [max_save] of a constructed trainer is never
    0, and no method changes what the constructor derived from the
    configuration: after [fit], [evaluate] and [resume_checkpoint],
    however they end, [config], [epochs], [max_save] and the role of the
    process are those of the start. *)
Theorem settings_are_fixed_at_construction :
  (forall c (m : Model Params) tracker main files,
      max_save (__init__ c m tracker main files) <> 0) /\
  (forall (t : Trainer) train_data valid_data,
      settings_kept t (final_state (fit train_data valid_data t))) /\
  (forall (t : Trainer) eval_data load_best_model model_file is_valid,
      settings_kept t
        (final_state
           (evaluate eval_data load_best_model model_file is_valid t))) /\
  (forall (t : Trainer) resume_file,
      settings_kept t (final_state (resume_checkpoint resume_file t))).
Proof.
  split; [ | split; [ | split ] ].
  - intros c m tracker main files. cbn [__init__ max_save].
    destruct (default 2 (cfg_max_save c) =? 0) eqn:E; [ discriminate | ].
    apply Z.eqb_neq in E. exact E.
  - intros t td vd. apply settings_kept_fit.
  - intros t ed lb mf iv. apply settings_kept_evaluate.
  - intros t f. apply settings_kept_resume_checkpoint.
Qed.

End Settings.

(** ** No epoch left to train *)

Section NoEpochLeft.

Context {Params : Type} {W : Collaborators Params}.
Local Abbreviation Trainer := (Trainer Params).
Local Abbreviation only_logged := (@only_logged Params).

Lemma invariant_ret_bind {A B} (I : Trainer -> Prop) (a : A)
    (k : A -> @M Params B) :
  invariant I (k a) -> invariant I (bind (ret a) k).
Proof. intros H. exact H. Qed.

Lemma py_range_empty (a n : Z) :
  n <= a -> py_range (Params := Params) a (PyInt n) = ret [].
Proof.
  intros H. unfold py_range.
  replace (Z.to_nat (n - a)) with 0%nat by lia. reflexivity.
Qed.

(** X6.  When the first epoch to run is not below the (integer) epoch
    bound, as after resuming the checkpoint of the last epoch, [fit] runs
    no epoch: however it ends, nothing but the log has changed. *)
Theorem fit_with_no_epoch_left_only_logs (t : Trainer) (n : Z)
    (train_data : DataLoader) (valid_data : option DataLoader) :
  epochs t = PyInt n ->
  n <= start_epoch t ->
  only_logged t (final_state (fit train_data valid_data t)).
Proof.
  intros Hn Hle.
  assert (invariant (only_logged t) (fit train_data valid_data)) as Hinv.
  { unfold fit, best_valid_result, log, readlink, result_getitem.
    invariant_auto
      ltac:(idtac;
            match goal with
            | H : only_logged t ?a
              |- invariant _ (bind (py_range (start_epoch ?a) (epochs ?a)) _) =>
                let E := fresh in
                assert (py_range (Params := Params) (start_epoch a) (epochs a)
                        = ret []) as E
                    by (unfold only_logged in H;
                        destruct H as (_ & He & _ & Hs & _);
                        rewrite He, Hs, Hn; apply py_range_empty, Hle);
                rewrite E; apply invariant_ret_bind; cbn [fit_loop]
            end)
      ltac:(idtac; unfold only_logged in *; simpl; assumption). }
  apply Hinv. unfold only_logged. repeat split; reflexivity.
Qed.

End NoEpochLeft.

(** ** Checkpoints at the edges *)

Section CheckpointEdges.

Context {Params : Type} {W : Collaborators Params}.
Local Abbreviation Trainer := (Trainer Params).
Local Abbreviation only_logged := (@only_logged Params).

(** X7.  [_get_checkpoint] before any validation (an empty result
    dictionary) logs one warning and returns [None], and [save_checkpoint]
    then hands [None] to the serialisation utility; on a non-empty
    dictionary that lacks the current validation epoch it raises
    [KeyError], and on a summary object bound to [valid_result_dict] (as
    [resume_checkpoint] leaves it) it raises [TypeError]. *)
Theorem get_checkpoint_without_current_summary (t : Trainer) :
  (valid_result_dict t = ResultDict ∅ ->
   let t1 := set_logger (logger t ++ [(WARNING, MsgGetCheckpointFailed)]) t in
   _get_checkpoint t = Ok None t1 /\
   save_checkpoint t =
     Ok tt
        (set_fs (serialized_save (SavedCheckpoint None)
                   (Some (valid_epoch (timestamp t)))
                   (Some (valid_epoch (best_valid_timestamp t)))
                   (saved_model_filename t) (Some "epoch") "pth"
                   (Some (max_save t)) (fs t)) t1)) /\
  (forall d,
      valid_result_dict t = ResultDict d -> d <> ∅ ->
      d !! valid_epoch (timestamp t) = None ->
      _get_checkpoint t = Raise KeyError t /\
      save_checkpoint t = Raise KeyError t) /\
  (forall e,
      valid_result_dict t = ResultSummary e ->
      _get_checkpoint t = Raise TypeError t /\
      save_checkpoint t = Raise TypeError t).
Proof.
  split; [ | split ].
  - intros Hd t1.
    unfold save_checkpoint, _get_checkpoint, result_len, log.
    monad_reduce. rewrite Hd. split; reflexivity.
  - intros d Hd Hne Hk.
    unfold save_checkpoint, _get_checkpoint, result_len, result_getitem, log.
    monad_reduce. rewrite Hd.
    destruct (Z.of_nat (size d) =? 0) eqn:E.
    { apply Z.eqb_eq in E.
      assert (size d = 0%nat) as Hz by lia.
      apply map_size_empty_inv in Hz. contradiction. }
    rewrite Hd, Hk. split; reflexivity.
  - intros e He.
    unfold save_checkpoint, _get_checkpoint, result_len.
    monad_reduce. rewrite He. split; reflexivity.
Qed.

Lemma resume_checkpoint_missing_file (t : Trainer) (resume_file : string) :
  isfile (fs t) resume_file = false ->
  resume_checkpoint resume_file t =
  Ok tt
     (set_logger
        (logger t ++ [(INFO, MsgResuming resume_file);
                      (WARNING, MsgResumeNotFound resume_file)]) t).
Proof.
  intros Hmiss. unfold resume_checkpoint, log. monad_reduce.
  cbn [fs set_logger logger]. rewrite Hmiss.
  unfold set_logger. simpl. rewrite <- app_assoc. reflexivity.
Qed.

(** X8.  [resume_checkpoint] on a path that is not a file returns
    without raising: it logs the attempt and one warning and restores
    nothing, so that a [fit] after it starts from the epoch, the counters
    and the result store the trainer had. *)
Theorem resume_missing_file_restores_nothing (t : Trainer)
    (resume_file : string) :
  isfile (fs t) resume_file = false ->
  exists t',
    resume_checkpoint resume_file t = Ok tt t' /\
    logger t' = logger t ++ [(INFO, MsgResuming resume_file);
                             (WARNING, MsgResumeNotFound resume_file)] /\
    only_logged t t'.
Proof.
  intros Hmiss. rewrite (resume_checkpoint_missing_file t resume_file Hmiss).
  eexists. split; [ reflexivity | ]. split; [ reflexivity | ].
  unfold only_logged. simpl. repeat split; reflexivity.
Qed.

Lemma _get_checkpoint_fields (t t1 : Trainer) (c : Checkpoint Params) :
  _get_checkpoint t = Ok (Some c) t1 ->
  ck_state_dict c = state_dict (model t) /\
  ck_optimizer c = optimizer t /\
  ck_timestamp c = timestamp t /\
  ck_epoch c = train_epoch (timestamp t) /\
  ck_stopping_count c = stopping_count t /\
  ck_best_valid_score c = best_valid_score (_summary_tracker t) /\
  ck_config c = config t.
Proof.
  unfold _get_checkpoint, result_len, result_getitem, log. monad_reduce.
  destruct (valid_result_dict t) as [d | e] eqn:Hd; [ | discriminate ].
  destruct (Z.of_nat (size d) =? 0); [ discriminate | ].
  cbn [valid_result_dict set_logger]. rewrite Hd.
  destruct (d !! valid_epoch (timestamp t)) as [e | ]; [ | discriminate ].
  intros [= <- <-]. simpl. auto 10.
Qed.

(** X20.  Round trip of a checkpoint: resuming, on any trainer, from a
    file that holds the record [_get_checkpoint] made of a trainer returns,
    and brings back the parameters, the optimizer state, the timestamp,
    the stopping counter and the best score of that trainer, with training
    set to start at the epoch after the recorded one.  The optimizer state
    is loaded also when the configured optimizer differs.  The mode of the
    model, the configuration and the file system of the resuming trainer
    are left as they were. *)
Theorem checkpoint_round_trip (t t1 t0 : Trainer) (c : Checkpoint Params)
    (resume_file : string) :
  _get_checkpoint t = Ok (Some c) t1 ->
  resolve (fs t0) resume_file = Some (CheckpointFile c) ->
  exists t',
    resume_checkpoint resume_file t0 = Ok tt t' /\
    state_dict (model t') = state_dict (model t) /\
    optimizer t' = optimizer t /\
    timestamp t' = timestamp t /\
    start_epoch t' = train_epoch (timestamp t) + 1 /\
    stopping_count t' = stopping_count t /\
    best_valid_score (_summary_tracker t') =
      best_valid_score (_summary_tracker t) /\
    training (model t') = training (model t0) /\
    config t' = config t0 /\
    fs t' = fs t0.
Proof.
  intros Hget Hfile.
  destruct (_get_checkpoint_fields t t1 c Hget)
    as (Hsd & Hopt & Hts & Hep & Hsc & Hbs & _).
  unfold resume_checkpoint, torch_load, load_state_dict, on_tracker, log.
  monad_reduce.
  assert (forall l, resolve (fs (set_logger l t0)) resume_file
                    = Some (CheckpointFile c)) as Hres
      by (intros l; exact Hfile).
  unfold isfile. rewrite !Hres.
  rewrite bool_decide_eq_true_2 by eauto. cbv beta iota.
  rewrite Hres. cbv beta iota.
  repeat match goal with
         | |- context [if negb ?b then _ else _] => destruct (negb b)
         end;
    (eexists; split; [ reflexivity | ]);
    unfold timestamp; simpl; unfold timestamp in Hts, Hep;
    rewrite Hsd, Hopt, Hts, Hep, Hsc, Hbs; auto 10.
Qed.

End CheckpointEdges.

(** ** Evaluation of a loaded checkpoint *)

Section EvaluateCheckpoint.

Context {Params : Type} {W : Collaborators Params}.
Local Abbreviation Trainer := (Trainer Params).

(** The generation part of [evaluate] always returns metrics.  The corpus
    it scores is the generated one cut to the number of references and
    post-processed, and it is the corpus it saves. *)
Lemma evaluate_generate_returns (eval_data : DataLoader) (is_valid : bool)
    (t : Trainer) :
  let generated :=
    take (length (target_text eval_data))
         (generate_corpus (state_dict (model t)) eval_data) in
  let t1 :=
    set_model {| state_dict := state_dict (model t); training := false;
                 grads := grads (model t) |} t in
  exists corpus,
    (if String.eqb (post_processing t) "paraphrase"
     then mapM paraphrase generated = Some corpus
     else corpus = generated) /\
    length corpus = length generated /\
    evaluate_generate eval_data is_valid t =
      Ok (Some (evaluator_evaluate corpus eval_data))
         (if is_save t && negb is_valid
          then set_fs (serialized_save (SavedCorpus corpus) None None
                         (saved_model_filename t) None "txt" None (fs t)) t1
          else t1).
Proof.
  intros generated t1.
  unfold evaluate_generate, save_generated_text, set_training.
  monad_reduce. fold t1.
  change (state_dict (model t1)) with (state_dict (model t)).
  change (post_processing t1) with (post_processing t).
  change (is_save t1) with (is_save t).
  fold generated.
  destruct (String.eqb (post_processing t) "paraphrase").
  - destruct (mapM_is_Some_2 paraphrase generated) as [corpus Hc].
    { apply Forall_forall. intros x _. apply paraphrase_total. }
    exists corpus. rewrite Hc.
    split; [ reflexivity | ].
    split; [ symmetry; apply (length_mapM _ _ _ Hc) | ].
    destruct (is_save t), is_valid; reflexivity.
  - exists generated. split; [ reflexivity | ]. split; [ reflexivity | ].
    destruct (is_save t), is_valid; reflexivity.
Qed.

Lemma evaluate_checkpoint_returns (t : Trainer) (eval_data : DataLoader)
    (model_file : option string) (c : Checkpoint Params) :
  let file := py_or model_file (saved_model_filename t +:+ ".pth") in
  resolve (fs t) file = Some (CheckpointFile c) ->
  let all := generate_corpus (ck_state_dict c) eval_data in
  let generated := take (length (target_text eval_data)) all in
  exists corpus t',
    evaluate eval_data true model_file false t =
      Ok (Some (evaluator_evaluate corpus eval_data)) t' /\
    (if String.eqb (post_processing t) "paraphrase"
     then mapM paraphrase generated = Some corpus
     else corpus = generated) /\
    length corpus =
      Nat.min (length (target_text eval_data)) (length all) /\
    state_dict (model t') = ck_state_dict c /\
    training (model t') = false /\
    fs t' =
      (if is_save t
       then serialized_save (SavedCorpus corpus) None None
              (saved_model_filename t) None "txt" None (fs t)
       else fs t).
Proof.
  intros file Hfile all generated.
  unfold evaluate, torch_load, load_state_dict, log. monad_reduce.
  fold file. unfold isfile. rewrite Hfile.
  rewrite bool_decide_eq_true_2 by eauto.
  cbn [negb fs set_logger]. rewrite Hfile.
  match goal with
  | |- context [evaluate_generate eval_data false ?s] =>
      destruct (evaluate_generate_returns eval_data false s)
        as (corpus & Hpost & Hlen & Heq);
      rewrite Heq; clear Heq;
      change (post_processing s) with (post_processing t) in Hpost;
      change (state_dict (model s)) with (ck_state_dict c) in Hpost, Hlen;
      change (is_save s) with (is_save t);
      change (saved_model_filename s) with (saved_model_filename t);
      change (fs s) with (fs t)
  end.
  fold all in Hpost, Hlen. fold generated in Hpost, Hlen.
  eexists corpus, _. split; [ reflexivity | ].
  split; [ exact Hpost | ].
  split; [ rewrite Hlen; unfold generated; apply length_take | ].
  destruct (is_save t); simpl; auto.
Qed.

(** X9.  In test mode, when the file to load ([model_file], or the best
    pointer when it is [None] or empty) resolves to a checkpoint,
    [evaluate] returns the metrics of the corpus generated with the
    parameters of that checkpoint, not with those of the trainer: the
    corpus is cut to the number of references and post-processed, the main
    process saves exactly the corpus that is scored, and the model is left
    in evaluation mode with the loaded parameters.  A file that is not a
    checkpoint makes it raise. *)
Theorem evaluate_scores_the_loaded_checkpoint (t : Trainer)
    (eval_data : DataLoader) (model_file : option string) :
  let file := py_or model_file (saved_model_filename t +:+ ".pth") in
  (forall c,
      resolve (fs t) file = Some (CheckpointFile c) ->
      let all := generate_corpus (ck_state_dict c) eval_data in
      let generated := take (length (target_text eval_data)) all in
      exists corpus t',
        evaluate eval_data true model_file false t =
          Ok (Some (evaluator_evaluate corpus eval_data)) t' /\
        (if String.eqb (post_processing t) "paraphrase"
         then mapM paraphrase generated = Some corpus
         else corpus = generated) /\
        length corpus =
          Nat.min (length (target_text eval_data)) (length all) /\
        state_dict (model t') = ck_state_dict c /\
        training (model t') = false /\
        fs t' =
          (if is_save t
           then serialized_save (SavedCorpus corpus) None None
                  (saved_model_filename t) None "txt" None (fs t)
           else fs t)) /\
  (forall l,
      resolve (fs t) file = Some (TextFile l) ->
      exists t', evaluate eval_data true model_file false t
                 = Raise UnpicklingError t').
Proof.
  intros file. split.
  - intros c Hfile. apply evaluate_checkpoint_returns, Hfile.
  - intros l Hfile.
    unfold evaluate, torch_load, load_state_dict, log. monad_reduce.
    fold file. unfold isfile. rewrite Hfile.
    rewrite bool_decide_eq_true_2 by eauto.
    cbn [negb fs set_logger]. rewrite Hfile. eauto.
Qed.

End EvaluateCheckpoint.

(** ** The post-processed text is stripped *)

Section Stripped.

Lemma starts_with_space_lstrip (s : string) :
  starts_with_space (str_lstrip s) = false.
Proof.
  induction s as [ | c s IH]; [ reflexivity | ].
  cbn [str_lstrip]. destruct (is_space c) eqn:E; [ exact IH | ].
  cbn [starts_with_space]. exact E.
Qed.

Lemma ends_with_space_rstrip (s : string) :
  ends_with_space (str_rstrip s) = false.
Proof.
  induction s as [ | c s IH]; [ reflexivity | ].
  cbn [str_rstrip]. destruct (str_rstrip s) as [ | c' r] eqn:E.
  - destruct (is_space c) eqn:Ec; [ reflexivity | ].
    cbn [ends_with_space]. exact Ec.
  - exact IH.
Qed.

Lemma starts_with_space_rstrip (s : string) :
  starts_with_space s = false -> starts_with_space (str_rstrip s) = false.
Proof.
  destruct s as [ | c s]; [ reflexivity | ].
  cbn [starts_with_space str_rstrip]. intros Hc.
  destruct (str_rstrip s); [ rewrite Hc | ]; exact Hc.
Qed.

Lemma str_lstrip_fixed (s : string) :
  starts_with_space s = false -> str_lstrip s = s.
Proof.
  destruct s as [ | c s]; [ reflexivity | ].
  cbn [starts_with_space str_lstrip]. intros ->. reflexivity.
Qed.

Lemma str_rstrip_fixed (s : string) :
  ends_with_space s = false -> str_rstrip s = s.
Proof.
  induction s as [ | c s IH]; [ reflexivity | ].
  destruct s as [ | c' s'].
  - cbn [ends_with_space str_rstrip]. intros ->. reflexivity.
  - intros H. change (ends_with_space (String c' s') = false) in H.
    specialize (IH H).
    change (str_rstrip (String c (String c' s')))
      with (match str_rstrip (String c' s') with
            | EmptyString =>
                if is_space c then EmptyString else String c EmptyString
            | r => String c r
            end).
    rewrite IH. reflexivity.
Qed.

Lemma str_strip_stripped (s : string) :
  starts_with_space (str_strip s) = false /\
  ends_with_space (str_strip s) = false.
Proof.
  unfold str_strip. split.
  - apply starts_with_space_rstrip, starts_with_space_lstrip.
  - apply ends_with_space_rstrip.
Qed.

(** X10.  The ["paraphrase"] post-processing yields a result for every
    generated string, and the result is stripped: it neither starts nor
    ends with white space, and stripping it again changes nothing. *)
Theorem paraphrase_result_is_stripped (gen : string) :
  exists out,
    paraphrase gen = Some out /\
    starts_with_space out = false /\
    ends_with_space out = false /\
    str_strip out = out.
Proof.
  destruct (paraphrase_total gen) as [out Hout].
  exists out. split; [ exact Hout | ].
  assert (exists s, out = str_strip s) as [s ->].
  { unfold paraphrase in Hout.
    destruct (0 <=? str_find "[SEP]" gen).
    - destruct (str_split "[SEP]" gen !! 1%nat) as [piece | ];
        [ | discriminate ].
      injection Hout as <-. eauto.
    - injection Hout as <-. eauto. }
  destruct (str_strip_stripped s) as [Hl Hr].
  split; [ exact Hl | ]. split; [ exact Hr | ].
  unfold str_strip at 1.
  rewrite (str_lstrip_fixed _ Hl). apply str_rstrip_fixed, Hr.
Qed.

End Stripped.

(** ** The optimizer update *)

Lemma bind_Ok_eq {Params A B} (m : @M Params A) (k : A -> @M Params B)
    (t : Trainer Params) (a : A) (t1 : Trainer Params) :
  m t = Ok a t1 -> bind m k t = k a t1.
Proof. intros H. unfold bind. rewrite H. reflexivity. Qed.

Section OptimizerUpdate.

Context {Params : Type} {W : Collaborators Params}.
Local Abbreviation Trainer := (Trainer Params).
Local Abbreviation not_trained := (@not_trained Params).

#[local] Existing Instance not_trained_preorder.

Lemma update_and_validate_final (t : Trainer)
    (valid_data : option DataLoader) :
  let g :=
    match grad_clip t with
    | Some c => clip_grad_norm c (grads (model t))
    | None => grads (model t)
    end in
  let t' := final_state (update_and_validate valid_data t) in
  state_dict (model t') = optimizer_update (state_dict (model t)) g /\
  grads (model t') = [] /\
  opt_steps (optimizer t') = opt_steps (optimizer t) + 1.
Proof.
  intros g t'.
  set (tail :=
         match valid_data with
         | Some vd =>
             if loader_truthy valid_data then
               t0 <~ get;; s <~ _valid vd "step";;
               modify (set_stopped (stopped t0 || s))
             else ret tt
         | None => ret tt
         end).
  assert (preserves not_trained tail) as Htail.
  { unfold tail.
    preserves_auto ltac:(apply not_trained__valid)
                   ltac:(unfold not_trained; field_leaf). }
  assert (exists s,
             t' = final_state (tail s) /\
             state_dict (model s) = optimizer_update (state_dict (model t)) g /\
             grads (model s) = [] /\
             opt_steps (optimizer s) = opt_steps (optimizer t) + 1)
    as (s & -> & H1 & H2 & H3).
  { unfold t', update_and_validate. fold tail.
    rewrite (bind_Ok_eq get _ t t t) by reflexivity.
    unfold g. destruct (grad_clip t) as [c | ].
    - unfold clip, optimizer_step, zero_grad.
      rewrite (bind_Ok_eq (modify _) _ t tt _ eq_refl).
      erewrite (bind_Ok_eq (modify _)) by (unfold modify; reflexivity).
      erewrite (bind_Ok_eq (modify _)) by (unfold modify; reflexivity).
      eexists. split; [ reflexivity | ]. simpl. auto.
    - unfold optimizer_step, zero_grad.
      rewrite (bind_Ok_eq (ret tt) _ t tt t eq_refl).
      erewrite (bind_Ok_eq (modify _)) by (unfold modify; reflexivity).
      erewrite (bind_Ok_eq (modify _)) by (unfold modify; reflexivity).
      eexists. split; [ reflexivity | ]. simpl. auto. }
  destruct (Htail s) as (Hsd & Hgr & Hopt).
  rewrite Hsd, Hgr, Hopt. auto.
Qed.

(** X11.  The end of an accumulation group, with or without a validation
    after it and however that validation ends: the parameters are updated
    once from the accumulated gradients, clipped when a threshold is in
    force, the gradients are emptied and the optimizer has made one step.
    With the Adafactor optimizer no threshold is in force, whatever the
    configuration says. *)
Theorem update_steps_once_on_clipped_gradients (t : Trainer)
    (valid_data : option DataLoader) :
  let g :=
    match grad_clip t with
    | Some c => clip_grad_norm c (grads (model t))
    | None => grads (model t)
    end in
  let t' := final_state (update_and_validate valid_data t) in
  (state_dict (model t') = optimizer_update (state_dict (model t)) g /\
   grads (model t') = [] /\
   opt_steps (optimizer t') = opt_steps (optimizer t) + 1) /\
  (cfg_optimizer (config t) = "adafactor" -> g = grads (model t)).
Proof.
  intros g t'. split.
  - apply update_and_validate_final.
  - intros Ha. unfold g, grad_clip. rewrite Ha. reflexivity.
Qed.

End OptimizerUpdate.

(** ** Construction of the optimizer *)

Section BuildOptimizerProperties.

Context {V : Type}.
Implicit Types (kw akw ckw : gmap string V) (skw : option (gmap string V)).

Lemma dict_update_lookup (d other : gmap string V) (k : string) :
  dict_update d other !! k =
  match other !! k with
  | Some v => Some v
  | None => d !! k
  end.
Proof.
  unfold dict_update. destruct (other !! k) as [v | ] eqn:E.
  - apply lookup_union_Some_l, E.
  - apply lookup_union_r, E.
Qed.

Lemma dict_setdefault_lookup (k : string) (v : V) (d : gmap string V)
    (k' : string) :
  dict_setdefault k v d !! k' =
  if String.eqb k' k then Some (default v (d !! k)) else d !! k'.
Proof.
  unfold dict_setdefault.
  destruct (String.eqb k' k) eqn:E.
  - apply String.eqb_eq in E. subst k'.
    destruct (d !! k) as [x | ] eqn:Ek; simpl.
    + exact Ek.
    + apply lookup_insert_eq.
  - apply String.eqb_neq in E.
    destruct (d !! k) as [x | ]; [ reflexivity | ].
    apply lookup_insert_ne. congruence.
Qed.

Lemma _build_optimizer_fields optimizer scheduler (lr : V) kw akw skw gc
    (setup : OptimizerSetup V) :
  _build_optimizer optimizer scheduler lr kw akw skw gc = Some setup ->
  os_class setup = optimizer_class optimizer /\
  os_kwargs setup =
    (if String.eqb optimizer "adafactor" then dict_update kw akw else kw) /\
  os_grad_clip setup =
    (if String.eqb optimizer "adafactor" then None else gc) /\
  os_warned setup =
    (String.eqb optimizer "adafactor" && bool_decide (is_Some gc)).
Proof.
  unfold _build_optimizer. intros H.
  destruct scheduler as [name | ];
    [ destruct (scheduler_class name); [ destruct skw; [ | discriminate ] | ] | ];
    injection H as <-; auto.
Qed.



End BuildOptimizerProperties.

(** ** Preparation of the data loaders *)

Section DataPreparation.


End DataPreparation.

(** ** The experiment *)

Section ExperimentProperties.

Context {Params : Type} {W : Collaborators Params}.
Local Abbreviation Experiment := (Experiment Params).
Local Abbreviation only_logged := (@only_logged Params).

(** X15.  An experiment that does not train: asking for validation
    raises [ValueError] before anything is touched, the test phase
    included; asking for nothing returns the two results as they are. *)
Theorem run_without_training (x : Experiment) :
  do_train x = false ->
  (do_valid x = true -> run x = ExpRaise ValueError x) /\
  (do_valid x = false ->
   _do_train_and_valid x = ExpOk tt x /\
   (do_test x = false -> run x = ExpOk (valid_result x, test_result x) x)).
Proof.
  intros Ht. split.
  - intros Hv. unfold run, _do_train_and_valid. rewrite Ht, Hv. reflexivity.
  - intros Hv.
    assert (_do_train_and_valid x = ExpOk tt x) as H
        by (unfold _do_train_and_valid; rewrite Ht, Hv; reflexivity).
    split; [ exact H | ].
    intros Hs. unfold run. rewrite H. unfold _do_test. rewrite Hs.
    reflexivity.
Qed.

(** X16.  Training without validation on a trainer that has no
    validation result yet (and no checkpoint to resume, or one that is
    missing): [run] never returns.  The exception of [fit] leaves it before
    the validation result is assigned and before the test phase, whatever
    [do_test] says. *)
Theorem run_training_without_validation_never_tests (x : Experiment) :
  do_train x = true ->
  do_valid x = false ->
  (forall f, load_experiment x = Some f -> isfile (fs (trainer x)) f = false) ->
  valid_result_dict (trainer x) = ResultDict ∅ ->
  exists e x',
    run x = ExpRaise (TrainerRaised e) x' /\
    valid_result x' = valid_result x /\
    test_result x' = test_result x /\
    exp_logger x' = exp_logger x.
Proof.
  intros Ht Hv Hload Hd.
  unfold run, _do_train_and_valid. rewrite Ht, Hv. cbn [negb andb].
  destruct (load_experiment x) as [f | ] eqn:El.
  - unfold on_trainer.
    rewrite (resume_checkpoint_missing_file _ _ (Hload f eq_refl)).
    cbv beta iota zeta. cbn [do_valid trainer set_trainer exp_train_data].
    rewrite Hv.
    match goal with
    | |- context [fit ?td None ?s] =>
        destruct (fit_without_validation_raises s td None eq_refl)
          as (e & t' & ->); [ exact Hd | ]
    end.
    eexists _, _. split; [ reflexivity | ]. repeat split; reflexivity.
  - cbv beta iota zeta. rewrite Hv. unfold on_trainer.
    destruct (fit_without_validation_raises (trainer x) (exp_train_data x)
                None eq_refl Hd) as (e & t' & ->).
    eexists _, _. split; [ reflexivity | ]. repeat split; reflexivity.
Qed.


End ExperimentProperties.

(** ** Gradients do not outlive an epoch *)

Lemma final_state_bind {Params A B} (m : @M Params A) (k : A -> @M Params B)
    (t : Trainer Params) :
  final_state (bind m k t) =
  match m t with
  | Ok a t1 => final_state (k a t1)
  | Raise _ t1 => t1
  end.
Proof. unfold bind. destruct (m t); reflexivity. Qed.

Section Gradients.

Context {Params : Type} {W : Collaborators Params}.
Local Abbreviation Trainer := (Trainer Params).
Local Abbreviation grads_empty := (@grads_empty Params).
Local Abbreviation settings_kept := (@settings_kept Params).

#[local] Existing Instance settings_kept_preorder.

Lemma settings_kept_update_and_validate vd :
  preserves settings_kept (update_and_validate vd).
Proof.
  unfold update_and_validate. unfold_primitives.
  preserves_auto ltac:(apply settings_kept__valid)
                 ltac:(unfold settings_kept; field_leaf).
Qed.

Lemma open_step_grads (step : Z) (t : Trainer) :
  accumulation_steps t <> 0 ->
  exists br t1,
    open_step step t = Ok br t1 /\
    config t1 = config t /\
    grads (model t1) = grads (model t) /\
    (br = true -> step mod accumulation_steps t = 0).
Proof.
  intros Hk. unfold open_step, py_mod, new_step, on_tracker. monad_reduce.
  destruct (accumulation_steps t =? 0) eqn:E;
    [ apply Z.eqb_eq in E; contradiction | ].
  destruct (step mod accumulation_steps t =? 0) eqn:Em.
  - apply Z.eqb_eq in Em.
    destruct (_ =? max_steps _);
      (eexists _, _; split; [ reflexivity | ]); simpl; auto.
  - exists false, t. split; [ reflexivity | ].
    split; [ reflexivity | ]. split; [ reflexivity | discriminate ].
Qed.

(** With gradients empty at every start of an accumulation group, the
    loop ends, however it ends, with empty gradients. *)
Lemma train_loop_grads (train_len epoch_idx : Z)
    (valid_data : option DataLoader) (k : Z) (data : list Batch) :
  k <> 0 ->
  forall (step : Z) (t : Trainer),
    accumulation_steps t = k ->
    train_len = step + Z.of_nat (length data) ->
    (step mod k = 0 \/ data = [] -> grads (model t) = []) ->
    grads (model (final_state
                    (train_loop train_len epoch_idx valid_data step data t)))
    = [].
Proof.
  intros Hk. induction data as [ | b rest IH]; intros step t Hacc Hlen HP.
  - apply HP. right. reflexivity.
  - cbn [train_loop].
    destruct (open_step_grads step t ltac:(congruence))
      as (br & t1 & Ho & Hc1 & Hg1 & Hbr).
    rewrite (bind_Ok_eq _ _ _ _ _ Ho).
    destruct br.
    { cbn [ret final_state]. rewrite Hg1. apply HP. left.
      rewrite <- Hacc. apply Hbr. reflexivity. }
    destruct (micro_batch_returns b epoch_idx t1) as (t2 & Hm & Hc2 & _).
    rewrite (bind_Ok_eq _ _ _ _ _ Hm).
    rewrite (bind_Ok_eq get _ t2 t2 t2 eq_refl).
    assert (accumulation_steps t2 = k) as Hacc2
        by (unfold accumulation_steps in *; congruence).
    unfold py_mod. rewrite Hacc2.
    destruct (k =? 0) eqn:E; [ apply Z.eqb_eq in E; contradiction | clear E ].
    rewrite (bind_Ok_eq (ret _) _ t2 _ t2 eq_refl).
    cbn [length] in Hlen. rewrite Nat2Z.inj_succ in Hlen.
    destruct (((step + 1) mod k =? 0) || (step + 1 =? train_len)) eqn:Ecut.
    + rewrite final_state_bind.
      destruct (update_and_validate_final t2 valid_data) as (_ & Hg3 & _).
      pose proof (settings_kept_update_and_validate valid_data t2)
        as (Hc3 & _).
      destruct (update_and_validate valid_data t2) as [ [] t3 | e t3];
        cbn [final_state] in Hg3, Hc3; [ | exact Hg3 ].
      rewrite (bind_Ok_eq get _ t3 t3 t3 eq_refl).
      destruct (stopped t3); [ exact Hg3 | ].
      apply IH; [ | lia | intros _; exact Hg3 ].
      unfold accumulation_steps in *. congruence.
    + apply orb_false_iff in Ecut as [Emod Eend].
      apply Z.eqb_neq in Emod. apply Z.eqb_neq in Eend.
      apply IH; [ exact Hacc2 | lia | ].
      intros [H | H]; [ contradiction | ].
      subst rest. cbn [length] in Hlen. lia.
Qed.

Lemma train_loop_grads_zero (train_len epoch_idx : Z)
    (valid_data : option DataLoader) (step : Z) (data : list Batch)
    (t : Trainer) :
  accumulation_steps t = 0 ->
  grads (model t) = [] ->
  grads (model (final_state
                  (train_loop train_len epoch_idx valid_data step data t)))
  = [].
Proof.
  intros Hacc Hg. destruct data as [ | b rest]; [ exact Hg | ].
  cbn [train_loop]. unfold open_step, py_mod. monad_reduce.
  rewrite Hacc. exact Hg.
Qed.

Lemma grads_empty__train_epoch td epoch_idx vd :
  invariant grads_empty (_train_epoch td epoch_idx vd).
Proof.
  intros t Hg. unfold grads_empty in *.
  unfold _train_epoch, set_training.
  rewrite (bind_Ok_eq (modify _) _ t tt _ eq_refl).
  unfold new_epoch.
  match goal with
  | |- context [bind (train_loop _ _ _ _ _) _ ?s] => set (t0 := s)
  end.
  assert (grads (model t0) = []) as Hg0 by exact Hg.
  assert (accumulation_steps t0 = accumulation_steps t) as Hk0 by reflexivity.
  clearbody t0.
  assert (grads (model (final_state
            (train_loop (len td) epoch_idx vd 0 (batches td) t0))) = [])
    as Hloop.
  { destruct (Z.eq_dec (accumulation_steps t0) 0) as [Hz | Hnz].
    - apply train_loop_grads_zero; assumption.
    - apply (train_loop_grads _ _ _ (accumulation_steps t0));
        [ exact Hnz | reflexivity | unfold len; lia | intros _; exact Hg0 ]. }
  unfold bind at 1.
  destruct (train_loop (len td) epoch_idx vd 0 (batches td) t0)
    as [ [] t1 | e t1]; cbn [final_state] in Hloop; simpl; exact Hloop.
Qed.

Ltac grads_leaf :=
  idtac; unfold grads_empty in *; simpl; assumption.

Lemma grads_empty_metrics_getitem key d :
  invariant grads_empty (metrics_getitem key d).
Proof.
  induction d as [ | [k v] d IH]; simpl.
  - apply invariant_raise.
  - destruct (String.eqb k key); [ apply invariant_ret | exact IH ].
Qed.

Lemma grads_empty__valid vd mode : invariant grads_empty (_valid vd mode).
Proof.
  intros t Hg. unfold grads_empty in *.
  destruct (not_trained__valid vd mode t) as (_ & Hgr & _).
  rewrite Hgr. exact Hg.
Qed.

Lemma grads_empty_fit_loop td vd indices :
  invariant grads_empty (fit_loop td vd indices).
Proof.
  induction indices as [ | i rest IH]; simpl.
  - apply invariant_ret.
  - unfold_primitives.
    invariant_auto
      ltac:(first [ apply grads_empty__valid
                  | apply grads_empty__train_epoch
                  | apply grads_empty_metrics_getitem
                  | apply IH ])
      grads_leaf.
Qed.

(** X18.  Gradients do not outlive an epoch: entered with no accumulated
    gradient, [_train_epoch] ends with none, whether it runs to the end of
    the data, stops on a validation or on the step budget, or raises; the
    last group is updated even when it is shorter than
    [accumulation_steps].  The same holds for a whole [fit]. *)
Theorem train_epoch_leaves_no_gradients (t : Trainer) :
  grads (model t) = [] ->
  (forall train_data epoch_idx valid_data,
      grads (model (final_state
                      (_train_epoch train_data epoch_idx valid_data t)))
      = []) /\
  (forall train_data valid_data,
      grads (model (final_state (fit train_data valid_data t))) = []).
Proof.
  intros Hg. split.
  - intros td i vd. apply (grads_empty__train_epoch td i vd t Hg).
  - intros td vd.
    assert (invariant grads_empty (fit td vd)) as Hfit.
    { unfold fit. unfold_primitives.
      invariant_auto ltac:(apply grads_empty_fit_loop) grads_leaf. }
    apply (Hfit t Hg).
Qed.

End Gradients.

(** ** The cadence of validation *)

Section Cadence.

Context {Params : Type} {W : Collaborators Params}.
Local Abbreviation Trainer := (Trainer Params).
Local Abbreviation count_kept := (@count_kept Params).

#[local] Instance count_kept_preorder : PreOrder count_kept.
Proof.
  unfold count_kept.
  split; [ intros ?; reflexivity | intros ? ? ? ? ?; congruence ].
Qed.

Ltac count_leaf := unfold count_kept; reflexivity.

Lemma count_kept_valid_loss_loop data :
  forall losses, preserves count_kept (valid_loss_loop data losses).
Proof.
  induction data as [ | b rest IH]; intros losses; simpl.
  - apply preserves_ret; apply _.
  - unfold_primitives. preserves_auto ltac:(apply IH) count_leaf.
Qed.

Lemma count_kept_validation vd (t : Trainer) :
  preserves count_kept
    (new_epoch "valid" (valid_epoch_body vd);;;
     on_tracker (set_current (_current_mode (_summary_tracker t))
                             (_current_epoch (_summary_tracker t)));;;
     set_training true;;;
     t <~ get;;
     stopped <~
       (if truthy (stopping_steps t)
        then _early_stopping (is_best_valid (_summary_tracker t))
        else ret false);;
     (if is_save t then save_checkpoint else ret tt);;;
     ret stopped).
Proof.
  unfold valid_epoch_body, evaluate, evaluate_generate, save_checkpoint,
    _get_checkpoint, _early_stopping.
  unfold_primitives.
  preserves_auto ltac:(apply count_kept_valid_loss_loop) count_leaf.
Qed.

(** X19.  [_valid] counts the calls made in the configured strategy, and
    only those: however the call ends, [_valid_count] is one more than
    before when [valid_steps] is positive and the mode of the call is the
    configured [valid_strategy], and unchanged otherwise; whether a
    validation epoch was due or not makes no difference. *)
Theorem valid_counts_calls_of_its_strategy (t : Trainer)
    (valid_data : DataLoader) (valid_mode : string) :
  _valid_count (final_state (_valid valid_data valid_mode t)) =
  if (0 <? valid_steps t) && String.eqb valid_mode (valid_strategy t)
  then _valid_count t + 1
  else _valid_count t.
Proof.
  unfold _valid. rewrite (bind_Ok_eq get _ t t t eq_refl).
  replace (0 <? valid_steps t) with (negb (valid_steps t <=? 0))
    by (destruct (valid_steps t <=? 0) eqn:E1;
        destruct (0 <? valid_steps t) eqn:E2; try reflexivity; lia).
  destruct (valid_steps t <=? 0); [ reflexivity | ].
  destruct (String.eqb valid_mode (valid_strategy t)); [ | reflexivity ].
  cbn [orb negb andb].
  rewrite (bind_Ok_eq (modify _) _ t tt _ eq_refl).
  match goal with
  | |- context [bind get _ ?s] =>
      rewrite (bind_Ok_eq get _ s s s eq_refl); set (t1 := s)
  end.
  destruct (negb _); [ reflexivity | ].
  pose proof (count_kept_validation valid_data t1 t1) as H.
  unfold count_kept in H. rewrite H. reflexivity.
Qed.

End Cadence.

(** ** An empty validation loader *)

Lemma bind_ext {Params A B} (m : @M Params A) (k k' : A -> @M Params B)
    (t : Trainer Params) :
  (forall a t1, k a t1 = k' a t1) -> bind m k t = bind m k' t.
Proof. intros H. unfold bind. destruct (m t); [ apply H | reflexivity ]. Qed.

Section EmptyValidation.

Context {Params : Type} {W : Collaborators Params}.
Local Abbreviation Trainer := (Trainer Params).

Lemma train_loop_empty_validation train_len epoch_idx vd data :
  loader_truthy (Some vd) = false ->
  forall step,
    train_loop train_len epoch_idx (Some vd) step data =
    train_loop (Params := Params) train_len epoch_idx None step data.
Proof.
  intros Hf. induction data as [ | b rest IH]; intros step; [ reflexivity | ].
  cbn [train_loop]. unfold update_and_validate.
  rewrite Hf, (IH (step + 1)). reflexivity.
Qed.

Lemma fit_loop_empty_validation td vd indices :
  loader_truthy (Some vd) = false ->
  fit_loop td (Some vd) indices = fit_loop (Params := Params) td None indices.
Proof.
  intros Hf. induction indices as [ | i rest IH]; [ reflexivity | ].
  cbn [fit_loop]. unfold _train_epoch.
  rewrite Hf, IH, (train_loop_empty_validation _ _ _ _ Hf 0). reflexivity.
Qed.

(** X21.  A validation loader of length zero is falsy: [fit] with it is
    [fit] without validation data, so that [_valid] is never called on it.
    Called directly on such a loader when a validation epoch is due and
    ["loss"] selects the best model, [_valid] raises [ZeroDivisionError]
    from the mean of the losses. *)
Theorem empty_validation_loader_is_no_validation (valid_data : DataLoader) :
  len valid_data = 0 ->
  (forall train_data (t : Trainer),
      fit train_data (Some valid_data) t = fit train_data None t) /\
  (forall valid_mode (t : Trainer),
      validation_due valid_mode t = true ->
      "loss" ∈ metrics_for_best_model t ->
      exists t', _valid valid_data valid_mode t = Raise ZeroDivisionError t').
Proof.
  intros Hlen.
  assert (loader_truthy (Some valid_data) = false) as Hf
      by (unfold loader_truthy; rewrite Hlen; reflexivity).
  split.
  - intros td t. unfold fit.
    apply bind_ext; intros _ t1.
    apply bind_ext; intros t2 t3.
    apply bind_ext; intros indices t4.
    rewrite (fit_loop_empty_validation td valid_data indices Hf).
    reflexivity.
  - intros mode t Hdue Hloss.
    assert (batches valid_data = []) as Hb.
    { unfold len in Hlen. destruct (batches valid_data); [ reflexivity | ].
      cbn [length] in Hlen. lia. }
    unfold validation_due in Hdue.
    apply andb_true_iff in Hdue as [Hguard Hmod].
    apply negb_true_iff in Hguard.
    unfold _valid. rewrite (bind_Ok_eq get _ t t t eq_refl).
    rewrite Hguard.
    rewrite (bind_Ok_eq (modify _) _ t tt _ eq_refl).
    match goal with
    | |- context [bind get _ ?s] =>
        rewrite (bind_Ok_eq get _ s s s eq_refl)
    end.
    cbn [_valid_count set__valid_count].
    change (valid_steps (set__valid_count _ t)) with (valid_steps t).
    rewrite Hmod. cbn [negb].
    unfold new_epoch, valid_epoch_body, set_training. monad_reduce.
    match goal with
    | |- context [bool_decide ("loss" ∈ metrics_for_best_model ?s)] =>
        change (metrics_for_best_model s) with (metrics_for_best_model t)
    end.
    rewrite (bool_decide_eq_true_2 _ Hloss).
    rewrite Hb, Hlen. cbn [valid_loss_loop]. unfold ret.
    cbn [Z.eqb]. eauto.
Qed.

End EmptyValidation.

(** * The properties on concrete runs *)

(** ** Saving and resuming *)

(** C1.  After a run of two epochs, the file of the last checkpoint holds
    the record that [_get_checkpoint] builds from the final trainer.  A
    fresh trainer that resumes from that file gets the start epoch (saved
    epoch plus one), the stopping counter and the best score of the saved
    trainer, but its [valid_result_dict] is the single summary of the
    record, while the saved trainer had a dictionary with two entries. *)
Theorem resume_binds_one_summary_to_valid_result_dict :
  let t := ex_after_training in
  let resume_file := "saved/run/run_epoch-2.pth" in
  exists c t1 t',
    _get_checkpoint t = Ok (Some c) t1 /\
    fs t !! resume_file = Some (CheckpointFile c) /\
    resume_checkpoint resume_file
      (__init__ ex_config ex_model ex_tracker true (fs t)) = Ok tt t' /\
    start_epoch t' = train_epoch (timestamp t) + 1 /\
    stopping_count t' = stopping_count t /\
    best_valid_score (_summary_tracker t') = best_valid_score (_summary_tracker t) /\
    (exists d, valid_result_dict t = ResultDict d /\ size d = 2%nat) /\
    valid_result_dict t' = ResultSummary (ck_summary c) /\
    valid_result_dict t' <> valid_result_dict t.
Proof.
  intros t resume_file.
  destruct (_get_checkpoint t) as [[c | ] t1 | e t1] eqn:Hget;
    try (vm_compute in Hget; discriminate).
  assert (fs t !! resume_file = Some (CheckpointFile c)) as Hfile.
  { vm_compute in Hget. injection Hget as <- _. vm_compute. reflexivity. }
  destruct (resume_checkpoint_after_get_checkpoint t t1
              (__init__ ex_config ex_model ex_tracker true (fs t)) c resume_file
              Hget Hfile)
    as (t' & Hres & Hse & Hsc & Hbs & Hvd & Hne).
  exists c, t1, t'. repeat split; try assumption.
  eexists. split; vm_compute; reflexivity.
Qed.

(** ** The step budget *)

(** C4.  A trainer constructed with [max_steps = 3] does not run at all:
    [fit] raises [TypeError] at the epoch loop and the log holds no report
    of a halt.  And with the epoch bound replaced by an integer and
    [stopping_steps = 2], the run does halt when [train_step] reaches 3,
    after two optimizer updates, but the halt is reported as an early
    stop. *)
Theorem max_steps_halt_is_not_reported_as_such :
  (exists t',
      fit ex_train_data (Some ex_valid_data)
          (ex_trainer (ex_config_with 5 3 1 0 "epoch")) = Raise TypeError t' /\
      train_step (timestamp t') = 0 /\
      halt_reports (logger t') = []) /\
  (exists r t',
      fit ex_train_data (Some ex_valid_data)
          (ex_reassign_epochs 5 (ex_trainer (ex_config_with 5 3 1 2 "epoch")))
        = Ok r t' /\
      stopped t' = true /\
      train_step (timestamp t') = 3 /\
      opt_steps (optimizer t') = 2 /\
      stopping_count t' = 0 /\
      halt_reports (logger t') = [MsgEarlyStopped 0]).
Proof.
  split.
  - eexists. split; [ vm_compute; reflexivity | ]. split; vm_compute; reflexivity.
  - eexists _, _. split; [ vm_compute; reflexivity | ].
    repeat split; vm_compute; reflexivity.
Qed.

(** C10.  For a configuration with [max_steps = 2] and [epochs = 1], the
    epoch bound set at construction is the float [1e10], and [fit] raises
    [TypeError] at [range(self.start_epoch, self.epochs)]: no epoch is run
    and no step is taken. *)
Theorem max_steps_epoch_bound_is_a_float :
  let t := ex_trainer (ex_config_with 1 2 1 0 "epoch") in
  epochs t = PyFloat 10000000000 /\
  exists t',
    fit ex_train_data (Some ex_valid_data) t = Raise TypeError t' /\
    train_step (timestamp t') = 0 /\
    train_epoch (timestamp t') = 0 /\
    train_loss_list t' = [].
Proof.
  intros t.
  destruct (fit_with_max_steps_raises (ex_config_with 1 2 1 0 "epoch") ex_model
              ex_tracker true ∅ ex_train_data (Some ex_valid_data))
    as [He Hfit]; [ discriminate | ].
  split; [ exact He | ].
  eexists. split; [ exact Hfit | ]. repeat split.
Qed.

(** ** Runs without validation *)

(** C8.  [fit] without validation data runs its two epochs and then raises
    [KeyError] at [self.best_valid_result]: it returns no result. *)
Theorem fit_without_validation_raises_key_error :
  exists t',
    fit ex_train_data None (ex_trainer ex_config) = Raise KeyError t' /\
    train_epoch (timestamp t') = 2 /\
    opt_steps (optimizer t') = 6 /\
    valid_result_dict t' = ResultDict ∅.
Proof.
  eexists. split; [ vm_compute; reflexivity | ].
  repeat split; vm_compute; reflexivity.
Qed.

(** ** Instances of the general theorems *)

(** Five micro-batches in groups of two: three optimizer updates and three
    tracker steps in the epoch, with a validation after each update. *)
Lemma train_epoch_steps_optimizer_once_per_group_witness :
  exists r t',
    _train_epoch ex_train_data 0 (Some ex_valid_data)
      (ex_trainer (ex_config_with 2 0 1 2 "step")) = Ok r t' /\
    stopped t' = false /\
    opt_steps (optimizer t') = 3 /\
    train_step (timestamp t') = 3.
Proof.
  destruct (train_epoch_steps_optimizer_once_per_group
              (ex_trainer (ex_config_with 2 0 1 2 "step"))
              ex_train_data 0 (Some ex_valid_data) ∅)
    as (r & t' & Heq & Hcount); [ reflexivity | reflexivity | reflexivity | ].
  assert (stopped t' = false) as Hs.
  { replace t' with (final_state
      (_train_epoch ex_train_data 0 (Some ex_valid_data)
         (ex_trainer (ex_config_with 2 0 1 2 "step"))))
      by (rewrite Heq; reflexivity).
    vm_compute. reflexivity. }
  destruct (Hcount Hs) as (Ho & Ht).
  exists r, t'. split; [ exact Heq | ]. split; [ exact Hs | ].
  split; [ exact Ho | exact Ht ].
Defined.


(** A validation nested in a training epoch. *)
Lemma valid_restores_current_mode_and_epoch_witness :
  exists flag t',
    _valid ex_valid_data "step" ex_mid_epoch = Ok flag t' /\
    validation_due "step" ex_mid_epoch = true /\
    _current_mode (_summary_tracker t') = Some "train" /\
    _current_epoch (_summary_tracker t') =
      _current_epoch (_summary_tracker ex_mid_epoch).
Proof.
  destruct (valid_restores_current_mode_and_epoch ex_mid_epoch
              ex_valid_data "step") as [Hpost Hret].
  destruct (Hret ∅ eq_refl) as (flag & t' & Heq); [ discriminate | ].
  destruct (Hpost flag t' Heq) as [Hm He].
  exists flag, t'. split; [ exact Heq | ]. split; [ reflexivity | ].
  split; [ rewrite Hm; reflexivity | exact He ].
Defined.

(** A trainer with [valid_steps = 0]. *)
Lemma valid_steps_zero_no_stop_no_checkpoint_witness :
  let t := ex_trainer (ex_config_with 2 0 0 2 "epoch") in
  _valid ex_valid_data "epoch" t = Ok false t /\
  fs (final_state (fit ex_train_data (Some ex_valid_data) t)) = ∅.
Proof.
  intros t.
  destruct (valid_steps_zero_no_stop_no_checkpoint t eq_refl) as [Hv Hf].
  split; [ apply Hv | apply Hf ].
Defined.

(** A test-time evaluation on an empty file system. *)
Lemma evaluate_missing_checkpoint_returns_none_witness :
  let t := ex_trainer ex_config in
  evaluate ex_valid_data true (Some "missing.pth") false t =
  Ok None (set_logger [(ERROR, MsgEvaluateNotFound "missing.pth")] t).
Proof.
  intros t.
  destruct (evaluate_missing_checkpoint_returns_none t ex_valid_data true
              (Some "missing.pth")) as [Hmiss _].
  apply Hmiss. reflexivity.
Defined.

(** The example of the design document, a string with two separators, and
    a string without separator. *)
Lemma paraphrase_yields_text_between_separators_witness :
  paraphrase "foo [SEP] bar baz" = Some "bar baz" /\
  paraphrase "a [SEP] b [SEP] c" = Some "b" /\
  paraphrase "(x)yz w" = Some "w".
Proof.
  destruct paraphrase_yields_text_between_separators as (H1 & H2 & H3).
  split; [ | split ].
  - apply (H1 "foo " " bar baz"); reflexivity.
  - apply (H2 "a " " b " " c"); reflexivity.
  - apply (H3 "(x" "yz" "w" ")"%char); [ right | | | | ]; reflexivity.
Defined.

(** ** The post-processing against the words of the claim *)

(** With two separators the post-processing does not yield the text after
    the first one; and without separator it does not yield the text after
    the last parenthesis. *)
Lemma paraphrase_is_not_text_after_first_separator :
  paraphrase "a [SEP] b [SEP] c" <> text_after_first_sep "a [SEP] b [SEP] c" /\
  paraphrase "(x)yz w" <> Some (str_strip (text_after_last_paren "(x)yz w")).
Proof.
  split; vm_compute; discriminate.
Qed.

(** ** Instances of the further properties *)

(** A worker process trains for two epochs with validation and writes
    nothing. *)
Lemma non_main_process_never_writes_witness :
  fs (final_state (fit ex_train_data (Some ex_valid_data) ex_worker)) = ∅.
Proof.
  destruct (non_main_process_never_writes ex_worker eq_refl) as (Hfit & _).
  apply (Hfit ex_train_data (Some ex_valid_data)).
Defined.

(** A stopped trainer stays stopped through [fit]. *)
Lemma stop_flag_is_never_cleared_witness :
  stopped (final_state (fit ex_train_data (Some ex_valid_data) ex_stopped))
  = true.
Proof.
  destruct (stop_flag_is_never_cleared ex_stopped eq_refl) as (Hfit & _).
  apply (Hfit ex_train_data (Some ex_valid_data)).
Defined.

(** A trainer with [stopping_steps = 0]. *)
Lemma stopping_steps_zero_disables_early_stopping_witness :
  stopping_count
    (final_state (fit ex_train_data (Some ex_valid_data)
                    (ex_trainer (ex_config_with 2 0 1 0 "epoch")))) = 0.
Proof.
  destruct (stopping_steps_zero_disables_early_stopping
              (ex_trainer (ex_config_with 2 0 1 0 "epoch")) eq_refl)
    as (_ & Hfit).
  apply (Hfit ex_train_data (Some ex_valid_data)).
Defined.

(** A validation nested in a training epoch leaves the model in training
    mode. *)
Lemma valid_leaves_parameters_and_restores_training_mode_witness :
  exists flag t',
    _valid ex_valid_data "step" ex_mid_epoch = Ok flag t' /\
    training (model t') = true.
Proof.
  destruct (valid_leaves_parameters_and_restores_training_mode ex_mid_epoch
              ex_valid_data "step") as (_ & Hmode).
  destruct (_valid ex_valid_data "step" ex_mid_epoch) as [flag t' | e t']
    eqn:Heq; [ | vm_compute in Heq; discriminate ].
  exists flag, t'. split; [ reflexivity | ].
  apply (Hmode flag t' eq_refl).
Defined.

(** A trainer constructed with [epochs = 0]. *)
Lemma fit_with_no_epoch_left_only_logs_witness :
  train_loss_list
    (final_state (fit ex_train_data (Some ex_valid_data)
                    (ex_trainer (ex_config_with 0 0 1 2 "epoch")))) = [].
Proof.
  destruct (fit_with_no_epoch_left_only_logs
              (ex_trainer (ex_config_with 0 0 1 2 "epoch")) 0
              ex_train_data (Some ex_valid_data) eq_refl)
    as (_ & _ & _ & _ & _ & Hlist & _).
  - simpl. lia.
  - exact Hlist.
Defined.

(** A fresh trainer has no validation result yet. *)
Lemma get_checkpoint_without_current_summary_witness :
  exists t', _get_checkpoint (ex_trainer ex_config) = Ok None t'.
Proof.
  destruct (get_checkpoint_without_current_summary (ex_trainer ex_config))
    as (Hempty & _).
  destruct (Hempty eq_refl) as (Hget & _).
  eexists. exact Hget.
Defined.

(** Resuming on an empty file system. *)
Lemma resume_missing_file_restores_nothing_witness :
  exists t',
    resume_checkpoint "missing.pth" (ex_trainer ex_config) = Ok tt t' /\
    start_epoch t' = 0.
Proof.
  destruct (resume_missing_file_restores_nothing (ex_trainer ex_config)
              "missing.pth" eq_refl) as (t' & Heq & _ & Hlog).
  exists t'. split; [ exact Heq | ].
  destruct Hlog as (_ & _ & _ & Hs & _). exact Hs.
Defined.

(** The test-time evaluation of the best checkpoint of a finished run. *)
Lemma evaluate_scores_the_loaded_checkpoint_witness :
  exists r t',
    evaluate ex_valid_data true None false ex_after_training = Ok (Some r) t' /\
    training (model t') = false.
Proof.
  destruct (evaluate_scores_the_loaded_checkpoint ex_after_training
              ex_valid_data None) as (Hck & _).
  destruct (resolve (fs ex_after_training)
              (py_or None (saved_model_filename ex_after_training +:+ ".pth")))
    as [ [c | l | q] | ] eqn:Hfile;
    try (vm_compute in Hfile; discriminate).
  destruct (Hck c eq_refl) as (corpus & t' & Heq & _ & _ & _ & Hmode & _).
  eexists _, t'. split; [ exact Heq | exact Hmode ].
Defined.

(** An update with the Adafactor optimizer and a configured threshold. *)
Lemma update_steps_once_on_clipped_gradients_witness :
  opt_steps
    (optimizer (final_state (update_and_validate None
                               (ex_trainer ex_config_adafactor)))) = 1.
Proof.
  destruct (update_steps_once_on_clipped_gradients
              (ex_trainer ex_config_adafactor) None)
    as ((_ & _ & Hsteps) & Hada).
  pose proof (Hada eq_refl) as _.
  exact Hsteps.
Defined.




(** Validation without training. *)
Lemma run_without_training_witness :
  let x := ex_experiment false true true None (ex_trainer ex_config) in
  run x = ExpRaise ValueError x.
Proof.
  intros x.
  destruct (run_without_training x eq_refl) as (Hraise & _).
  apply Hraise. reflexivity.
Defined.

(** Training without validation, then test. *)
Lemma run_training_without_validation_never_tests_witness :
  exists e x',
    run (ex_experiment true false true None (ex_trainer ex_config)) =
      ExpRaise (TrainerRaised e) x' /\
    test_result x' = None.
Proof.
  destruct (run_training_without_validation_never_tests
              (ex_experiment true false true None (ex_trainer ex_config))
              eq_refl eq_refl)
    as (e & x' & Heq & _ & Htest & _).
  - intros f Hf. discriminate Hf.
  - reflexivity.
  - exists e, x'. split; [ exact Heq | exact Htest ].
Defined.


(** A whole run of two epochs leaves no gradient behind. *)
Lemma train_epoch_leaves_no_gradients_witness :
  grads (model (final_state (fit ex_train_data (Some ex_valid_data)
                               (ex_trainer ex_config)))) = [].
Proof.
  destruct (train_epoch_leaves_no_gradients (ex_trainer ex_config) eq_refl)
    as (_ & Hfit).
  apply (Hfit ex_train_data (Some ex_valid_data)).
Defined.

(** The record of a finished run, resumed by a fresh trainer. *)
Lemma checkpoint_round_trip_witness :
  exists c t1 t',
    _get_checkpoint ex_after_training = Ok (Some c) t1 /\
    resume_checkpoint "ck.pth" (ex_with_checkpoint c) = Ok tt t' /\
    optimizer t' = optimizer ex_after_training /\
    start_epoch t' = 3.
Proof.
  destruct (_get_checkpoint ex_after_training) as [ [c | ] t1 | e t1] eqn:Hget;
    try (vm_compute in Hget; discriminate).
  destruct (checkpoint_round_trip ex_after_training t1 (ex_with_checkpoint c)
              c "ck.pth" Hget)
    as (t' & Heq & _ & Hopt & _ & Hstart & _).
  - unfold resolve, ex_with_checkpoint. cbn [fs set_fs].
    rewrite lookup_singleton_eq. reflexivity.
  - exists c, t1, t'. split; [ reflexivity | ]. split; [ exact Heq | ].
    split; [ exact Hopt | ]. rewrite Hstart. vm_compute. reflexivity.
Defined.

(** Training with an empty validation loader. *)
Lemma empty_validation_loader_is_no_validation_witness :
  fit ex_train_data (Some ex_empty_data) (ex_trainer ex_config) =
  fit ex_train_data None (ex_trainer ex_config).
Proof.
  destruct (empty_validation_loader_is_no_validation ex_empty_data eq_refl)
    as (Hfit & _).
  apply Hfit.
Defined.
